(** * Crisis Mapping Toolkit: MODIS utilities and the DNNS water-fraction algorithms

    A shallow embedding of [cmt/modis/modis_utilities.py] and
    [cmt/modis/dnns.py].

    Numbers.  The Python code computes with doubles and the Earth Engine
    rasters hold floating-point pixels; both are idealised here as exact
    rationals [Q].  Histogram counts fetched from Earth Engine are weighted
    (generally fractional) pixel counts and are rationals as well.  Python
    raises [ZeroDivisionError] on a zero divisor, which [py_div] makes
    explicit; Earth Engine's pixel-wise [divide] returns 0 on a zero divisor,
    which is what [Qdiv] does. *)

From Stdlib Require Import ZArith QArith Qminmax Qround List Bool String DecimalString Lia Lqa.
Import ListNotations.
Open Scope Q_scope.

(** ** Python results *)

Inductive exn : Set :=
| ZeroDivisionError   (* x / 0 *)
| TypeError           (* arithmetic on None *)
| UnboundLocalError   (* a loop variable read after a loop that never ran *)
| KeyError            (* missing dictionary key *)
| AttributeError.     (* attribute of None *)

Inductive result (A : Type) : Type :=
| Ok (a : A)
| Raise (e : exn).
Arguments Ok {A} a.
Arguments Raise {A} e.

Definition bind {A B : Type} (r : result A) (k : A -> result B) : result B :=
  match r with
  | Ok a => k a
  | Raise e => Raise e
  end.

Notation "x <- r ;; k" := (bind r (fun x => k))
  (at level 61, r at next level, right associativity).

(** Comparisons of rationals as booleans. *)
Definition Qltb (x y : Q) : bool :=
  match x ?= y with Lt => true | _ => false end.

Definition Qnat (n : nat) : Q := inject_Z (Z.of_nat n).

(** Python's [/] on floats. *)
Definition py_div (x y : Q) : result Q :=
  if Qeq_bool y 0 then Raise ZeroDivisionError else Ok (x / y).

(** Python's built-in [sum]: a left fold starting from 0. *)
Definition py_sum (l : list Q) : Q := fold_left Qplus l 0.

(** ** Earth Engine rasters

    The part of the Earth Engine API the two source files use.  Pixel-wise
    operations are defined here; neighbourhood and region reductions, which
    the engine executes, are the fields of [RasterEngine]. *)

Module EarthEngine.

Definition pixel : Type := (Z * Z)%type.

(** One band of an image: a value per pixel, [None] where the pixel is
    masked. *)
Definition band : Type := pixel -> option Q.

(** An image is a list of named bands. *)
Definition image : Type := list (string * band).

Definition lift1 (f : Q -> Q) (a : band) : band :=
  fun p => match a p with Some x => Some (f x) | None => None end.

(** A binary operation is masked wherever either input is. *)
Definition lift2 (f : Q -> Q -> Q) (a b : band) : band :=
  fun p => match a p, b p with
           | Some x, Some y => Some (f x y)
           | _, _ => None
           end.

(** Band matching of the binary image operations: a single-band image is used
    against all the bands of the other one, otherwise bands are paired in
    order; the output bands are named for the longer input, or for [image1]
    when the lengths agree. *)
Definition match_bands (g : band -> band -> band) (image1 image2 : image)
  : image :=
  match image1, image2 with
  | [(_, x)], _ :: _ :: _ => map (fun nb => (fst nb, g x (snd nb))) image2
  | _, [(_, y)] => map (fun nb => (fst nb, g (snd nb) y)) image1
  | _, _ => map (fun ab => (fst (fst ab), g (snd (fst ab)) (snd (snd ab))))
                (combine image1 image2)
  end.

Definition binop (f : Q -> Q -> Q) : image -> image -> image :=
  match_bands (lift2 f).

Definition unop (f : Q -> Q) (img : image) : image :=
  map (fun nb => (fst nb, lift1 f (snd nb))) img.

Definition Qbool (b : bool) : Q := if b then 1 else 0.

Definition truthy (x : Q) : bool := negb (Qeq_bool x 0).

Definition add      : image -> image -> image := binop Qplus.
Definition subtract : image -> image -> image := binop Qminus.
Definition multiply : image -> image -> image := binop Qmult.
(** [divide] returns 0 where the divisor is 0, as [Qdiv] does. *)
Definition divide   : image -> image -> image := binop Qdiv.

Definition gte : image -> image -> image := binop (fun x y => Qbool (Qle_bool y x)).
Definition lte : image -> image -> image := binop (fun x y => Qbool (Qle_bool x y)).
Definition gt  : image -> image -> image := binop (fun x y => Qbool (Qltb y x)).
Definition lt  : image -> image -> image := binop (fun x y => Qbool (Qltb x y)).
Definition eq  : image -> image -> image := binop (fun x y => Qbool (Qeq_bool x y)).

Definition And : image -> image -> image :=
  binop (fun x y => Qbool (truthy x && truthy y)).
Definition Or : image -> image -> image :=
  binop (fun x y => Qbool (truthy x || truthy y)).
Definition Not : image -> image := unop (fun x => Qbool (negb (truthy x))).

Definition clampQ (low high x : Q) : Q :=
  if Qltb x low then low else if Qltb high x then high else x.

Definition clamp (low high : Q) : image -> image := unop (clampQ low high).

(** [image.mask(m)] replaces the mask of [image] by [m]: a pixel is valid
    exactly where [m] is valid and nonzero; a pixel that was masked and
    becomes valid is filled with 0. *)
Definition mask_band (x m : band) : band :=
  fun p => match m p with
           | Some v =>
               if truthy v
               then Some (match x p with Some u => u | None => 0 end)
               else None
           | None => None
           end.

Definition mask : image -> image -> image := match_bands mask_band.

(** [ee.Image(c)] *)
Definition constant (c : Q) : image := [("constant"%string, fun _ => Some c)].

Definition has_band (name : string) (img : image) : bool :=
  existsb (fun nb => String.eqb (fst nb) name) img.

Definition suffixed (name : string) (k : nat) : string :=
  (name ++ "_" ++ NilEmpty.string_of_uint (Nat.to_uint k))%string.

(** The first of [name_k], [name_(k+1)], ... that [img] does not use. *)
Fixpoint first_free (fuel : nat) (name : string) (k : nat) (img : image)
  : string :=
  match fuel with
  | O => suffixed name k
  | S fuel' =>
      if has_band (suffixed name k) img
      then first_free fuel' name (S k) img
      else suffixed name k
  end.

Definition fresh_name (name : string) (img : image) : string :=
  if has_band name img then first_free (List.length img) name 1 img else name.

(** [image1.addBands(image2)]: the bands of [image2] are appended; a band
    whose name is taken gets a numeric suffix. *)
Definition addBands (image1 image2 : image) : image :=
  fold_left (fun acc nb => acc ++ [(fresh_name (fst nb) acc, snd nb)])
            image2 image1.

(** [ee.Image([c0, c1, c2])] *)
Definition constants (cs : list Q) : image :=
  fold_left (fun acc c => addBands acc (constant c)) cs [].

(** [image.select(name)] *)
Definition select (name : string) (img : image) : image :=
  filter (fun nb => String.eqb (fst nb) name) img.

(** [image.select([name], [newName])] *)
Definition select_as (name newName : string) (img : image) : image :=
  map (fun nb => (newName, snd nb)) (select name img).

(** The value of a single-band image at a pixel. *)
Definition value_at (img : image) (p : pixel) : option Q :=
  match img with
  | [(_, x)] => x p
  | _ => None
  end.

Inductive kernel_shape : Set := square | circle.
Inductive kernel_units : Set := pixels | meters.

Record Kernel : Type := {
  shape     : kernel_shape;
  radius    : Q;
  units     : kernel_units;
  normalize : bool
}.

(** [ee.Kernel.square(radius, units, normalize)] *)
Definition Kernel_square (r : Q) (u : kernel_units) (n : bool) : Kernel :=
  {| shape := square; radius := r; units := u; normalize := n |}.
Definition Kernel_circle (r : Q) (u : kernel_units) (n : bool) : Kernel :=
  {| shape := circle; radius := r; units := u; normalize := n |}.

(** A region of interest ([domain.bounds]): a bounding box. *)
Record Region : Type := {
  west : Q; south : Q; east : Q; north : Q
}.

(** The dictionary of a histogram reduction. *)
Record Histogram : Type := {
  histogram   : list Q;
  bucketMin   : Q;
  bucketWidth : Q
}.

(** The operations the engine evaluates: neighbourhood aggregation, region
    reductions, stored assets, and the resampling of a coarse raster on the
    grid the result is computed on. *)
Class RasterEngine : Type := {
  (** [band.convolve(kernel)] *)
  convolve_band : Kernel -> band -> band;
  (** [band.neighborhoodToBands(kernel)]: one band per kernel cell *)
  neighborhood_bands : Kernel -> string -> band -> image;
  (** [ee.Reducer.sum()] over the bands of one pixel *)
  reduce_sum_bands : list band -> band;
  (** [ee.Reducer.mean()] of a band over a region at a scale *)
  region_mean : band -> Region -> Q -> Q;
  (** [ee.Reducer.histogram(maxBuckets, None, None)] over a region *)
  region_histogram : nat -> band -> Region -> Q -> Histogram;
  (** [band.focal_min(radius, 'square', 'meters')] and [focal_max] *)
  focal_min_band : Q -> band -> band;
  focal_max_band : Q -> band -> band;
  (** [ee.Image(assetId)] *)
  load_image : string -> image;
  (** the MODIS cell that contains a pixel of the elevation grid *)
  coarse_cell : pixel -> pixel
}.

Section Engine.
Context {engine : RasterEngine}.

Definition convolve (k : Kernel) (img : image) : image :=
  map (fun nb => (fst nb, convolve_band k (snd nb))) img.

Definition neighborhoodToBands (k : Kernel) (img : image) : image :=
  flat_map (fun nb => neighborhood_bands k (fst nb) (snd nb)) img.

(** [image.reduce(ee.Reducer.sum())]: a single band named [sum]. *)
Definition reduce_sum (img : image) : image :=
  [("sum"%string, reduce_sum_bands (map snd img))].

(** [image.reduceRegion(ee.Reducer.mean(), bounds, scale)], fetched with
    [safe_get_info]: a dictionary from band name to mean. *)
Definition reduceRegion_mean (img : image) (bounds : Region) (scale : Q)
  : list (string * Q) :=
  map (fun nb => (fst nb, region_mean (snd nb) bounds scale)) img.

Definition reduceRegion_histogram (maxBuckets : nat) (img : image)
    (bounds : Region) (scale : Q) : list (string * Histogram) :=
  map (fun nb => (fst nb, region_histogram maxBuckets (snd nb) bounds scale)) img.

Definition focal_min (r : Q) (img : image) : image :=
  map (fun nb => (fst nb, focal_min_band r (snd nb))) img.
Definition focal_max (r : Q) (img : image) : image :=
  map (fun nb => (fst nb, focal_max_band r (snd nb))) img.

(** A raster of the MODIS grid read on the elevation grid: every fine pixel
    takes the value of the coarse cell that contains it. *)
Definition resample (img : image) : image :=
  map (fun nb => (fst nb, fun p => snd nb (coarse_cell p))) img.

End Engine.

(** Python dictionary lookup [d[key]]. *)
Fixpoint dict_get {A : Type} (key : string) (d : list (string * A)) : result A :=
  match d with
  | [] => Raise KeyError
  | (k, v) :: d' => if String.eqb k key then Ok v else dict_get key d'
  end.

End EarthEngine.

Module ModisUtilities.
Import EarthEngine.

(** The MODIS image of a domain ([domain.modis]): one single-band image per
    surface-reflectance band. *)
Record Modis : Type := {
  sur_refl_b01 : band;
  sur_refl_b02 : band;
  sur_refl_b03 : band;
  sur_refl_b04 : band;
  sur_refl_b05 : band;
  sur_refl_b06 : band
}.

(** The attributes of a [Domain] object that the algorithms read. *)
#[local] Unset Elimination Schemes.
Inductive Domain : Type := Build_Domain {
  modis            : Modis;
  bounds           : Region;
  dem_image        : band;            (* domain.get_dem().image *)
  unflooded_domain : option Domain
}.
#[local] Set Elimination Schemes.

(** The dictionary [b] built by [compute_modis_indices]. *)
Record Bands : Type := {
  b1 : image; b2 : image; b3 : image; b4 : image; b5 : image; b6 : image;
  NDVI : image; NDWI : image; EVI : image; LSWI : image; DVEL : image;
  pRED : image; pNIR : image; pBLUE : image; pSWIR : image
}.

Definition compute_modis_indices (domain : Domain) : Bands :=
  let band1 := [("sur_refl_b01"%string, sur_refl_b01 (modis domain))] in
  let band2 := [("sur_refl_b02"%string, sur_refl_b02 (modis domain))] in
  let band3 := [("sur_refl_b03"%string, sur_refl_b03 (modis domain))] in
  let band4 := [("sur_refl_b04"%string, sur_refl_b04 (modis domain))] in
  let band5 := [("sur_refl_b05"%string, sur_refl_b05 (modis domain))] in
  let band6 := [("sur_refl_b06"%string, sur_refl_b06 (modis domain))] in
  let NDVI := divide (subtract band2 band1) (add band2 band1) in
  let NDWI := divide (subtract band1 band6) (add band1 band6) in
  let EVI :=
    divide (multiply (subtract band2 band1) (constant (25 # 10)))
           (add (subtract (add band2 (multiply band1 (constant 6)))
                          (multiply band3 (constant (75 # 10))))
                (constant 1)) in
  let LSWI := divide (subtract band2 band6) (add band2 band6) in
  let DVEL := subtract EVI LSWI in
  {| b1 := band1; b2 := band2; b3 := band3; b4 := band4; b5 := band5;
     b6 := band6;
     NDVI := NDVI; NDWI := NDWI; EVI := EVI; LSWI := LSWI; DVEL := DVEL;
     pRED := band1; pNIR := band2; pBLUE := band3; pSWIR := band6 |}.

(** *** getQABits / getModisBadPixelMask

    The quality band holds integers; the functions are given per pixel
    value. *)

(** [range(start, end)] *)
Definition range (start stop : nat) : list nat := seq start (stop - start).

(** The bit mask built by the loop [for i in range(start,end): pattern += 2**i]. *)
Definition qa_pattern (start stop : nat) : Z :=
  fold_left (fun pattern i => (pattern + 2 ^ Z.of_nat i)%Z) (range start stop) 0%Z.

(** [image.bitwise_and(ee.Image(pattern)).rightShift(start)] on one pixel value. *)
Definition getQABits (image : Z) (start stop : nat) : Z :=
  Z.shiftr (Z.land image (qa_pattern start stop)) (Z.of_nat start).

(** [.uint16()] cast of the quality band. *)
Definition uint16 (v : Z) : Z := (v mod 2 ^ 16)%Z.

(** [getModisBadPixelMask]: the per-pixel cloud flag computed from the
    [state_1km] value. *)
Definition getModisBadPixelMask (state_1km : Z) : bool :=
  let qaBand := uint16 state_1km in
  let cloudBits := getQABits qaBand 0 1 in
  (cloudBits =? 1)%Z || (cloudBits =? 2)%Z.

(** The two-bit cloud-state field of the MODIS [state_1km] band (bits 0 and 1). *)
Definition cloud_state_field (state_1km : Z) : Z := Z.land (uint16 state_1km) 3.

(** *** compute_binary_threshold *)

(** The local variables of the scanning loop.  [loop_i] is the loop variable
    [i], unbound until the first iteration. *)
Record loop_state : Type := {
  false_index       : nat;
  false_sum         : Q;
  true_sum          : Q;
  threshold_index   : option nat;
  lower_mixed_index : option nat;
  upper_mixed_index : option nat;
  loop_i            : option nat
}.

Definition is_None {A : Type} (o : option A) : bool :=
  match o with None => true | Some _ => false end.

(** Lower edge of bin [k]: [bucketMin + k*bucketWidth]. *)
Definition bin_edge (h : Histogram) (k : nat) : Q :=
  bucketMin h + Qnat k * bucketWidth h.

(** Centre of bin [k]: [bucketMin + k*bucketWidth + bucketWidth/2]. *)
Definition bin_mid (h : Histogram) (k : nat) : Q :=
  bucketMin h + Qnat k * bucketWidth h + bucketWidth h / 2.

(** The inner [while] loop: starting at [false_index = idx] with the bins
    [rest] still ahead, drop every false bin whose lower edge is below [x]. *)
Fixpoint skip_false (hF : Histogram) (rest : list Q) (idx : nat) (fsum x : Q)
  : nat * Q :=
  match rest with
  | [] => (idx, fsum)
  | c :: rest' =>
      if Qltb (bin_edge hF idx) x
      then skip_false hF rest' (S idx) (fsum - c) x
      else (idx, fsum)
  end.

(** The part of one iteration that updates the running sums: lines
    [true_sum += ...] to the end of the [while]. *)
Definition advance (hT hF : Histogram) (k : nat) (c : Q) (st : loop_state)
  : loop_state :=
  let true_sum' := true_sum st + c in
  let x := bucketMin hT + Qnat (k + 1) * bucketWidth hT in
  let '(false_index', false_sum') :=
    skip_false hF (skipn (false_index st) (histogram hF))
               (false_index st) (false_sum st) x in
  {| false_index := false_index'; false_sum := false_sum';
     true_sum := true_sum';
     threshold_index := threshold_index st;
     lower_mixed_index := lower_mixed_index st;
     upper_mixed_index := upper_mixed_index st;
     loop_i := Some k |}.

Definition set_lower (k : nat) (st : loop_state) : loop_state :=
  {| false_index := false_index st; false_sum := false_sum st;
     true_sum := true_sum st; threshold_index := threshold_index st;
     lower_mixed_index := Some k;
     upper_mixed_index := upper_mixed_index st; loop_i := loop_i st |}.

Definition set_upper (k : nat) (st : loop_state) : loop_state :=
  {| false_index := false_index st; false_sum := false_sum st;
     true_sum := true_sum st; threshold_index := threshold_index st;
     lower_mixed_index := lower_mixed_index st;
     upper_mixed_index := Some k; loop_i := loop_i st |}.

(** The two tests of the mixed branch, in source order.  The second division
    is only evaluated while [upper_mixed_index] is still [None]. *)
Definition mixed_tests (true_total false_total : Q) (k : nat) (st : loop_state)
  : result loop_state :=
  r1 <- py_div (false_total - false_sum st) (true_sum st) ;;
  let st1 := if Qle_bool r1 (5 # 100) then set_lower k st else st in
  if is_None (upper_mixed_index st1) then
    r2 <- py_div (true_total - true_sum st1) (false_sum st1) ;;
    Ok (if Qle_bool r2 (5 # 100) then set_upper k st1 else st1)
  else Ok st1.

(** The [for i in range(len(histogramTrue['histogram']))] loop, started at
    bin [k] with the bins [bins] left.  In single-threshold mode the [break]
    leaves the loop with the current state. *)
Fixpoint scan (mixed_thresholds : bool) (hT hF : Histogram)
    (true_total false_total : Q) (bins : list Q) (k : nat) (st : loop_state)
  : result loop_state :=
  match bins with
  | [] => Ok st
  | c :: rest =>
      let st1 := advance hT hF k c st in
      percent_true_under_thresh <- py_div (true_sum st1) true_total ;;
      percent_false_over_thresh <- py_div (false_sum st1) false_total ;;
      if mixed_thresholds then
        st2 <- mixed_tests true_total false_total k st1 ;;
        scan mixed_thresholds hT hF true_total false_total rest (S k) st2
      else if is_None (threshold_index st1)
              && Qltb percent_false_over_thresh percent_true_under_thresh
              && Qltb (1 # 2) percent_true_under_thresh
      then Ok st1
      else scan mixed_thresholds hT hF true_total false_total rest (S k) st1
  end.

Definition initial_state (false_total : Q) : loop_state :=
  {| false_index := 0; false_sum := false_total; true_sum := 0;
     threshold_index := None; lower_mixed_index := None;
     upper_mixed_index := None; loop_i := None |}.

(** What the function returns: one threshold, or a [(lower, upper)] tuple. *)
Inductive threshold_value : Type :=
| Threshold (threshold : Q)
| Thresholds (lower upper : Q).

(** [index * bucketWidth] where the index may still be [None]. *)
Definition mid_of_index (hT : Histogram) (index : option nat) : result Q :=
  match index with
  | None => Raise TypeError
  | Some k => Ok (bin_mid hT k)
  end.

(** The body of [compute_binary_threshold] once the two histograms have been
    fetched from Earth Engine. *)
Definition compute_binary_threshold_from_histograms
    (histogramTrue histogramFalse : Histogram)
    (mixed_thresholds : bool) : result threshold_value :=
  let false_total := py_sum (histogram histogramFalse) in
  let true_total := py_sum (histogram histogramTrue) in
  st <- scan mixed_thresholds histogramTrue histogramFalse
          true_total false_total (histogram histogramTrue) 0
          (initial_state false_total) ;;
  if mixed_thresholds then
    lower <- mid_of_index histogramTrue (lower_mixed_index st) ;;
    upper <- mid_of_index histogramTrue (upper_mixed_index st) ;;
    if Qltb upper lower then Ok (Thresholds upper lower)
    else Ok (Thresholds lower upper)
  else
    match loop_i st with
    | None => Raise UnboundLocalError
    | Some i => Ok (Threshold (bin_mid histogramTrue i))
    end.

(** *** The scan seen from outside

    The running sums of every iteration, whatever the tests decide: the
    state right after the inner [while] of iteration [k], [k+1], ... *)
Fixpoint sums_trace (hT hF : Histogram) (bins : list Q) (k : nat)
    (st : loop_state) : list loop_state :=
  match bins with
  | [] => []
  | c :: rest =>
      let st1 := advance hT hF k c st in
      st1 :: sums_trace hT hF rest (S k) st1
  end.

Definition scan_sums (hT hF : Histogram) : list loop_state :=
  sums_trace hT hF (histogram hT) 0 (initial_state (py_sum (histogram hF))).

(** The lower-index condition [(false_total - false_sum)/true_sum <= 0.05]
    holds at an iteration (the division being defined). *)
Definition lower_met (false_total : Q) (st : loop_state) : bool :=
  negb (Qeq_bool (true_sum st) 0)
  && Qle_bool ((false_total - false_sum st) / true_sum st) (5 # 100).

(** The upper-index condition [(true_total - true_sum)/false_sum <= 0.05]. *)
Definition upper_met (true_total : Q) (st : loop_state) : bool :=
  negb (Qeq_bool (false_sum st) 0)
  && Qle_bool ((true_total - true_sum st) / false_sum st) (5 # 100).

(** Two states with the same running sums. *)
Definition same_sums (st s : loop_state) : Prop :=
  false_index st = false_index s
  /\ false_sum st = false_sum s
  /\ true_sum st = true_sum s.

(** *** Single-threshold mode as the specification words it

    [true_sum] is the cumulative true mass through bin [i]; [false_sum] is
    the false mass at or above the upper edge of bin [i]; the scan stops at
    the first bin where [percent_false_over < percent_true_under] and
    [percent_true_under > 0.5], or else at the last bin. *)

Fixpoint sum_list (l : list Q) : Q :=
  match l with
  | [] => 0
  | c :: rest => c + sum_list rest
  end.

Definition upper_edge (h : Histogram) (i : nat) : Q :=
  bucketMin h + Qnat (i + 1) * bucketWidth h.

Definition true_mass_through (hT : Histogram) (i : nat) : Q :=
  sum_list (firstn (S i) (histogram hT)).

(** Mass of the bins [bins] (numbered from [j]) whose lower edge is not
    below [x]. *)
Fixpoint mass_at_or_above (hF : Histogram) (bins : list Q) (j : nat) (x : Q)
  : Q :=
  match bins with
  | [] => 0
  | c :: rest =>
      (if Qltb (bin_edge hF j) x then 0 else c)
      + mass_at_or_above hF rest (S j) x
  end.

Definition false_mass_over (hT hF : Histogram) (i : nat) : Q :=
  mass_at_or_above hF (histogram hF) 0 (upper_edge hT i).

Definition percent_true_under (hT : Histogram) (i : nat) : Q :=
  true_mass_through hT i / sum_list (histogram hT).

Definition percent_false_over (hT hF : Histogram) (i : nat) : Q :=
  false_mass_over hT hF i / sum_list (histogram hF).

Definition stops_at (hT hF : Histogram) (i : nat) : bool :=
  Qltb (percent_false_over hT hF i) (percent_true_under hT i)
  && Qltb (1 # 2) (percent_true_under hT i).

(** The bin the specification reports: the first stopping bin, or the last
    bin scanned. *)
Definition reported_bin (hT hF : Histogram) : nat :=
  let n := List.length (histogram hT) in
  match find (stops_at hT hF) (seq 0 n) with
  | Some i => i
  | None => n - 1
  end.

Definition single_threshold_spec (hT hF : Histogram) : Q :=
  bin_mid hT (reported_bin hT hF).

(** The loop invariant at the head of iteration [k]. *)
Record scan_inv (hT hF : Histogram) (k : nat) (st : loop_state) : Prop := {
  inv_true_sum : true_sum st == sum_list (firstn k (histogram hT));
  inv_false_index : (false_index st <= List.length (histogram hF))%nat;
  inv_false_sum :
    false_sum st == sum_list (skipn (false_index st) (histogram hF));
  inv_below :
    forall j, (j < false_index st)%nat -> bin_edge hF j < bin_edge hT k;
  inv_threshold_index : threshold_index st = None
}.

(** *** Populations behind the histograms

    What [ee.Reducer.histogram] returns for a population of unweighted
    values: every value falls into one bucket [[edge k, edge (k+1))], and the
    count of a bucket is the number of values in it. *)
Definition in_bin (h : Histogram) (k : nat) (v : Q) : bool :=
  Qle_bool (bin_edge h k) v && Qltb v (bin_edge h (S k)).

Definition bin_count (h : Histogram) (values : list Q) (k : nat) : Q :=
  Qnat (List.length (filter (in_bin h k) values)).

Definition binned (h : Histogram) (values : list Q) : Prop :=
  (forall v, In v values ->
     exists k, (k < List.length (histogram h))%nat /\ in_bin h k v = true)
  /\ (forall k, (k < List.length (histogram h))%nat ->
        nth k (histogram h) 0 == bin_count h values k).

Section WithEngine.
Context {engine : RasterEngine}.

Definition get_permanent_water_mask : image :=
  select_as "water_mask" "b1" (load_image "MODIS/MOD44W/MOD44W_005_2000_02_24").

Definition NUM_BINS : nat := 128.
Definition SCALE : Q := 250.

Definition compute_binary_threshold (valueImage classification : image)
    (bounds : Region) (mixed_thresholds : bool) : result threshold_value :=
  let valueInFalse := mask valueImage (Not classification) in
  let valueInTrue := mask valueImage classification in
  histogramFalse <-
    dict_get "b1" (reduceRegion_histogram NUM_BINS valueInFalse bounds SCALE) ;;
  histogramTrue <-
    dict_get "b1" (reduceRegion_histogram NUM_BINS valueInTrue bounds SCALE) ;;
  compute_binary_threshold_from_histograms histogramTrue histogramFalse
    mixed_thresholds.

End WithEngine.

End ModisUtilities.

(** ** cmt/modis/dnns.py *)

Module Dnns.
Import EarthEngine ModisUtilities.

(** Functions of the toolkit that live in other files: the Earth Engine
    classifier wrapper and the band-difference detector.  Each returns a
    single-band raster. *)
Class Collaborators : Type := {
  earth_engine_classifier : Domain -> Bands -> band;
  get_diff : Bands -> image;
  modis_diff : Domain -> Bands -> Q -> band
}.

(** [thresholds[k]] *)
Definition subscript (thresholds : threshold_value) (k : nat) : result Q :=
  match thresholds, k with
  | Thresholds lower _, O => Ok lower
  | Thresholds _ upper, S O => Ok upper
  | _, _ => Raise TypeError
  end.

Section Algorithms.
Context {engine : RasterEngine} {cmt : Collaborators}.

Definition KERNEL_SIZE : Q := 40.
Definition AVERAGE_SCALE_METERS : Q := 250.
Definition MIN_PUREWATER_NEARBY : Q := 1.
Definition MIN_PURE_NEARBY : Q := 1.

Definition kernel : Kernel := Kernel_square KERNEL_SIZE pixels false.
Definition kernel_normalized : Kernel := Kernel_square KERNEL_SIZE pixels true.

Definition composite_image (b : Bands) : image :=
  addBands (addBands (b1 b) (b2 b)) (b6 b).

(** The pure-water and pure-land masks, by either strategy. *)
Definition pure_classes (domain : Domain) (b : Bands) (use_modis_diff : bool)
  : result (image * image) :=
  if use_modis_diff then
    unflooded <- match unflooded_domain domain with
                 | Some d => Ok d
                 | None => Raise AttributeError
                 end ;;
    let unflooded_b := compute_modis_indices unflooded in
    let water_mask := get_permanent_water_mask in
    thresholds <- compute_binary_threshold (get_diff unflooded_b) water_mask
                    (bounds domain) true ;;
    t0 <- subscript thresholds 0 ;;
    t1 <- subscript thresholds 1 ;;
    let pureWater := [("b1"%string, modis_diff domain b t0)] in
    let pureLand := Not [("b1"%string, modis_diff domain b t1)] in
    Ok (pureWater, pureLand)
  else
    let classes := [("classification"%string, earth_engine_classifier domain b)] in
    let pureWater := gte classes (constant (95 # 100)) in
    let pureLand := lte classes (constant (5 # 100)) in
    Ok (pureWater, pureLand).

(** [safe_get_info(cls.mask(cls).multiply(composite_image).reduceRegion(mean))]
    packed into a constant three-band image. *)
Definition average_image (cls composite : image) (bounds : Region)
  : result image :=
  let average :=
    reduceRegion_mean (multiply (mask cls cls) composite) bounds
                      AVERAGE_SCALE_METERS in
  a1 <- dict_get "sur_refl_b01" average ;;
  a2 <- dict_get "sur_refl_b02" average ;;
  a6 <- dict_get "sur_refl_b06" average ;;
  Ok (constants [a1; a2; a6]).

Definition pureWaterCount (pureWater : image) : image :=
  convolve kernel pureWater.

(** First assignment to [pureWaterRef]: the window mean, zeroed where fewer
    than [MIN_PUREWATER_NEARBY] pure-water pixels are nearby. *)
Definition pureWaterRef_local (pureWater composite : image) : image :=
  divide (multiply (convolve kernel (multiply pureWater composite))
                   (gte (pureWaterCount pureWater)
                        (constant MIN_PUREWATER_NEARBY)))
         (pureWaterCount pureWater).

(** Second assignment: add the global average where the first one is zero. *)
Definition pureWaterRef (pureWater composite averageWaterImage : image)
  : image :=
  let pureWaterRef := pureWaterRef_local pureWater composite in
  add pureWaterRef (multiply averageWaterImage (Not pureWaterRef)).

(** Equations 10 and 11: which pixels of the window count as nearby land. *)
Definition nearbyLandPixels (b : Bands) (pureWaterRef : image) : image :=
  let oneOverSix := divide (b1 b) (b6 b) in
  let twoOverSix := divide (b2 b) (b6 b) in
  let eqTenLeft :=
    subtract oneOverSix (divide (select "sur_refl_b01" pureWaterRef) (b6 b)) in
  let eqElevenLeft :=
    subtract twoOverSix (divide (select "sur_refl_b02" pureWaterRef) (b6 b)) in
  let nearbyPixelsOneOverSix := neighborhoodToBands kernel oneOverSix in
  let nearbyPixelsTwoOverSix := neighborhoodToBands kernel twoOverSix in
  let eqTenMatches :=
    And (gt nearbyPixelsOneOverSix eqTenLeft)
        (lt nearbyPixelsOneOverSix oneOverSix) in
  let eqElevenMatches :=
    And (gt nearbyPixelsTwoOverSix eqElevenLeft)
        (lt nearbyPixelsTwoOverSix twoOverSix) in
  And eqTenMatches eqElevenMatches.

Definition numNearbyLandPixels (b : Bands) (pureWaterRef : image) : image :=
  reduce_sum (nearbyLandPixels b pureWaterRef).

(** The three window means of the matching pixels, packed into one image
    with bands [sum], [sum_1], [sum_2]. *)
Definition meanNearbyLand (b : Bands) (pureWaterRef : image) : image :=
  let nearbyLandPixels := nearbyLandPixels b pureWaterRef in
  let nearbyPixelsOne := neighborhoodToBands kernel (b1 b) in
  let nearbyPixelsTwo := neighborhoodToBands kernel (b2 b) in
  let nearbyPixelsSix := neighborhoodToBands kernel (b6 b) in
  let numNearbyLandPixels := numNearbyLandPixels b pureWaterRef in
  let meanNearbyBandOne :=
    divide (reduce_sum (multiply nearbyPixelsOne nearbyLandPixels))
           numNearbyLandPixels in
  let meanNearbyBandTwo :=
    divide (reduce_sum (multiply nearbyPixelsTwo nearbyLandPixels))
           numNearbyLandPixels in
  let meanNearbyBandSix :=
    divide (reduce_sum (multiply nearbyPixelsSix nearbyLandPixels))
           numNearbyLandPixels in
  addBands (addBands meanNearbyBandOne meanNearbyBandTwo) meanNearbyBandSix.

Definition meanPureLand (b : Bands) (pureWaterRef averagePureLandImage : image)
  : image :=
  let numNearbyLandPixels := numNearbyLandPixels b pureWaterRef in
  let meanPureLand := meanNearbyLand b pureWaterRef in
  add (multiply meanPureLand
                (gte numNearbyLandPixels (constant MIN_PURE_NEARBY)))
      (multiply averagePureLandImage
                (lt numNearbyLandPixels (constant MIN_PURE_NEARBY))).

(** The band-6 mixture inversion, clamped. *)
Definition mixture_fraction (b : Bands) (pureWaterRef meanPureLand : image)
  : image :=
  let meanPureLandSix := select "sum_2" meanPureLand in
  clamp 0 1
    (divide (subtract meanPureLandSix (b6 b))
            (subtract meanPureLandSix (select "sur_refl_b06" pureWaterRef))).

(** Set pure water to 1, pure land to 0. *)
Definition pin (water_fraction pureWater pureLand : image) : image :=
  clamp 0 1 (subtract (add water_fraction pureWater) pureLand).

(** [dnns] up to the clamped band-6 inversion: the two class masks and
    the water fraction before pure pixels are pinned. *)
Definition dnns_mixture (domain : Domain) (b : Bands) (use_modis_diff : bool)
  : result (image * image * image) :=
  let composite_image := composite_image b in
  classes <- pure_classes domain b use_modis_diff ;;
  let pureWater := fst classes in
  let pureLand := snd classes in
  averageWaterImage <- average_image pureWater composite_image (bounds domain) ;;
  let pureWaterRef := pureWaterRef pureWater composite_image averageWaterImage in
  averagePureLandImage <-
    average_image pureLand composite_image (bounds domain) ;;
  let meanPureLand := meanPureLand b pureWaterRef averagePureLandImage in
  let water_fraction := mixture_fraction b pureWaterRef meanPureLand in
  Ok (pureWater, pureLand, water_fraction).

Definition dnns (domain : Domain) (b : Bands) (use_modis_diff : bool)
  : result image :=
  stages <- dnns_mixture domain b use_modis_diff ;;
  let pureWater := fst (fst stages) in
  let pureLand := snd (fst stages) in
  let water_fraction := snd stages in
  let water_fraction := pin water_fraction pureWater pureLand in
  Ok (select_as "sum_2" "b1" water_fraction).

Definition dnns_diff (domain : Domain) (b : Bands) : result image :=
  dnns domain b true.

Definition MODIS_PIXEL_SIZE_METERS : Q := 250.

(** The classification at the end of [dnns_dem], from the water fraction read
    on the elevation grid, the elevation and the smoothed water level. *)
Definition classify_dem (dem average_high water_fraction : image) : image :=
  let dem_water := mask (lte dem average_high) water_fraction in
  select_as "elevation" "b1" (Or dem_water (eq water_fraction (constant 1))).

Definition average_high (dem water_fraction : image) : image :=
  let dem_min :=
    focal_min MODIS_PIXEL_SIZE_METERS (mask dem water_fraction) in
  let dem_max :=
    focal_max MODIS_PIXEL_SIZE_METERS (mask dem water_fraction) in
  let water_high :=
    add dem_min (multiply (subtract dem_max dem_min) water_fraction) in
  let water_high :=
    multiply (multiply water_high (lt water_fraction (constant 1)))
             (gt water_fraction (constant 0)) in
  let water_dem_kernel := Kernel_circle 5000 meters false in
  let num_nearby_water_pixels :=
    convolve water_dem_kernel (gt water_high (constant 0)) in
  divide (convolve water_dem_kernel water_high) num_nearby_water_pixels.

Definition dnns_dem (domain : Domain) (b : Bands) (use_modis_diff : bool)
  : result image :=
  water_fraction <- dnns domain b use_modis_diff ;;
  let water_fraction := resample water_fraction in
  let dem := [("elevation"%string, dem_image domain)] in
  let average_high := average_high dem water_fraction in
  Ok (classify_dem dem average_high water_fraction).

Definition dnns_diff_dem (domain : Domain) (b : Bands) : result image :=
  dnns_dem domain b true.

End Algorithms.

(** One band of [pureWaterRef] at one pixel, from the window sum [s] of the
    class members' reflectance, the window count [c] and the global mean
    [a]: the two assignments of the source. *)
Definition water_ref_value (s c a : Q) : Q :=
  let pureWaterRef := s * Qbool (Qle_bool MIN_PUREWATER_NEARBY c) / c in
  pureWaterRef + a * Qbool (negb (truthy pureWaterRef)).

(** One band of [meanPureLand] at one pixel, from the window mean [m], the
    count [n] of matching pixels and the global mean [g]. *)
Definition land_ref_value (m n g : Q) : Q :=
  m * Qbool (Qle_bool MIN_PURE_NEARBY n) + g * Qbool (Qltb n MIN_PURE_NEARBY).

(** The fallback as the specification words it:
    [local*mask + global*(1-mask)], [mask] being the support condition. *)
Definition blend (local global : Q) (support : bool) : Q :=
  local * Qbool support + global * (1 - Qbool support).

(** A pixel of a water-fraction raster holds a fraction: masked, or a value
    in [0,1]. *)
Definition in_unit_interval (o : option Q) : Prop :=
  match o with
  | Some v => 0 <= v /\ v <= 1
  | None => True
  end.

(** A pixel of the binary mask is flooded when it is valid and nonzero. *)
Definition flooded (img : image) (p : pixel) : Prop :=
  exists v, value_at img p = Some v /\ ~ v == 0.

End Dnns.

(** ** Sample data *)

Module Samples.
Import EarthEngine ModisUtilities.

(** Two well-separated populations and their histograms. *)
Definition dry_values : list Q := [5; 11 # 2].
Definition wet_values : list Q := [0; 1 # 4; 1 # 2; 7 # 4].

Definition wet_histogram : Histogram :=
  {| histogram := [3; 1]; bucketMin := 0; bucketWidth := 1 |}.
Definition dry_histogram : Histogram :=
  {| histogram := [2]; bucketMin := 5; bucketWidth := 1 |}.

(** Overlapping histograms on which the single-threshold scan stops before
    the last bin. *)
Definition overlap_true : Histogram :=
  {| histogram := [1; 3; 1; 0]; bucketMin := 0; bucketWidth := 1 |}.
Definition overlap_false : Histogram :=
  {| histogram := [1; 2; 2]; bucketMin := 1; bucketWidth := 1 |}.

(** The upper index is found in bin 0, the lower index never. *)
Definition no_lower_true : Histogram :=
  {| histogram := [1]; bucketMin := 0; bucketWidth := 1 |}.
Definition no_lower_false : Histogram :=
  {| histogram := [1; 1]; bucketMin := 0; bucketWidth := 1 |}.

(** The upper index is found first, the lower index last: the two midpoints
    come out swapped. *)
Definition swap_true : Histogram :=
  {| histogram := [100; 1]; bucketMin := 0; bucketWidth := 1 |}.
Definition swap_false : Histogram :=
  {| histogram := [100]; bucketMin := 5; bucketWidth := 1 |}.

(** A true histogram whose first bin is empty. *)
Definition empty_first_true : Histogram :=
  {| histogram := [0; 4]; bucketMin := 0; bucketWidth := 1 |}.

(** All the false mass lies below the first true bin's upper edge. *)
Definition exhausted_true : Histogram :=
  {| histogram := [1; 1]; bucketMin := 0; bucketWidth := 1 |}.
Definition exhausted_false : Histogram :=
  {| histogram := [1]; bucketMin := 0; bucketWidth := 1 |}.

(** *** A raster engine by enumeration

    Rasters live on the integer grid; windows and regions are enumerated
    cell by cell.  A kernel reaches [radius] cells (a radius in meters is
    counted in 250 m cells), at most [limit] of them. *)

Definition span (lo hi : Z) : list Z :=
  map (fun k => (lo + Z.of_nat k)%Z) (seq 0 (Z.to_nat (hi - lo + 1))).

Definition shift (p d : pixel) : pixel :=
  ((fst p + fst d)%Z, (snd p + snd d)%Z).

Definition reach (limit : Z) (u : kernel_units) (r : Q) : Z :=
  Z.min limit (match u with
               | pixels => Qfloor r
               | meters => Qfloor (r / 250)
               end).

Definition cells (limit : Z) (k : Kernel) : list pixel :=
  let r := reach limit (units k) (radius k) in
  let box := list_prod (span (- r) r) (span (- r) r) in
  match shape k with
  | square => box
  | circle =>
      filter (fun d => (fst d * fst d + snd d * snd d <=? r * r)%Z) box
  end.

Definition valid_values (x : band) (ps : list pixel) : list Q :=
  flat_map (fun p => match x p with Some v => [v] | None => [] end) ps.

Definition mean_of (vs : list Q) : Q :=
  match vs with
  | [] => 0
  | _ => sum_list vs / Qnat (List.length vs)
  end.

Definition window_sum (limit : Z) (k : Kernel) (x : band) : band :=
  fun p =>
    let vs := valid_values x (map (shift p) (cells limit k)) in
    Some (if normalize k then mean_of vs else sum_list vs).

Definition window_bands (limit : Z) (k : Kernel) (name : string) (x : band)
  : image :=
  map (fun nd => (suffixed name (fst nd), fun p => x (shift p (snd nd))))
      (combine (seq 0 (List.length (cells limit k))) (cells limit k)).

Definition sum_bands (bands : list band) : band :=
  fun p =>
    Some (sum_list
            (flat_map (fun x : band =>
                         match x p with Some v => [v] | None => [] end)
                      bands)).

Definition region_pixels (bounds : Region) : list pixel :=
  list_prod (span (Qceiling (west bounds)) (Qfloor (east bounds)))
            (span (Qceiling (south bounds)) (Qfloor (north bounds))).

Definition mean_over (x : band) (bounds : Region) (scale : Q) : Q :=
  mean_of (valid_values x (region_pixels bounds)).

Definition extreme (pick : Q -> Q -> Q) (vs : list Q) : option Q :=
  match vs with
  | [] => None
  | v :: rest => Some (fold_left pick rest v)
  end.

(** Unit-width buckets from the floor of the least value to the floor of the
    greatest. *)
Definition unit_histogram (maxBuckets : nat) (x : band) (bounds : Region)
    (scale : Q) : Histogram :=
  let vs := valid_values x (region_pixels bounds) in
  match extreme Qmin vs, extreme Qmax vs with
  | Some lo, Some hi =>
      let first := Qfloor lo in
      {| histogram :=
           map (fun k =>
                  Qnat (List.length
                          (filter (fun v => (Qfloor v =? first + k)%Z) vs)))
               (span 0 (Qfloor hi - first));
         bucketMin := inject_Z first;
         bucketWidth := 1 |}
  | _, _ => {| histogram := []; bucketMin := 0; bucketWidth := 1 |}
  end.

Definition window_extreme (pick : Q -> Q -> Q) (limit : Z) (r : Q) (x : band)
  : band :=
  fun p =>
    extreme pick
      (valid_values x (map (shift p) (cells limit (Kernel_square r meters false)))).

(** Permanent water of the reference asset: the pixel at the origin. *)
Definition reference_water : image :=
  [("water_mask"%string,
    fun p => Some (if ((fst p =? 0) && (snd p =? 0))%Z then 1 else 0))].

Definition enumerating_engine (limit : Z) : RasterEngine :=
  {| convolve_band := window_sum limit;
     neighborhood_bands := window_bands limit;
     reduce_sum_bands := sum_bands;
     region_mean := mean_over;
     region_histogram := unit_histogram;
     focal_min_band := window_extreme Qmin limit;
     focal_max_band := window_extreme Qmax limit;
     load_image := fun _ => reference_water;
     coarse_cell := fun p => ((fst p / 8)%Z, (snd p / 8)%Z) |}.

(** Stand-ins for the classifier and the band-difference detector: water
    where band 6 is dark, and [b2 - b1 <= threshold]. *)
Definition dark_band6 (domain : Domain) (b : Bands) : band :=
  fun p => match value_at (b6 b) p with
           | Some v => Some (if Qltb v 1000 then 1 else 0)
           | None => None
           end.

Definition band_difference (b : Bands) : image :=
  select_as "sur_refl_b02" "b1" (subtract (b2 b) (b1 b)).

Definition sample_collaborators : Dnns.Collaborators :=
  {| Dnns.earth_engine_classifier := dark_band6;
     Dnns.get_diff := band_difference;
     Dnns.modis_diff := fun domain b threshold p =>
       value_at (lte (band_difference b) (constant threshold)) p |}.

(** *** Scenes *)

Definition scene (water : pixel -> option (Q * Q * Q)) (land : Q * Q * Q)
  : Modis :=
  let at_ (pick : Q * Q * Q -> Q) : band :=
    fun p => Some (pick (match water p with Some w => w | None => land end)) in
  {| sur_refl_b01 := at_ (fun t => fst (fst t));
     sur_refl_b02 := at_ (fun t => snd (fst t));
     sur_refl_b03 := fun _ => Some 0;
     sur_refl_b04 := fun _ => Some 0;
     sur_refl_b05 := fun _ => Some 0;
     sur_refl_b06 := at_ (fun t => snd t) |}.

(** A one-pixel pond of reflectance (500, 300, 200) at the origin of a
    5 x 5 region of land of reflectance (2000, 2500, 3000); the elevation
    rises eastwards. *)
Definition pond_domain : Domain :=
  {| modis :=
       scene (fun p => if ((fst p =? 0) && (snd p =? 0))%Z
                       then Some (500, 300, 200) else None)
             (2000, 2500, 3000);
     bounds := {| west := -2; south := -2; east := 2; north := 2 |};
     dem_image := fun p => Some (inject_Z (fst p));
     unflooded_domain := None |}.

(** Two water pixels 100 cells apart on a strip of land; the western one has
    reflectance 0 in band 1. *)
Definition strip_domain : Domain :=
  {| modis :=
       scene (fun p => if ((fst p =? 0) && (snd p =? 0))%Z
                       then Some (0, 300, 200)
                       else if ((fst p =? 100) && (snd p =? 0))%Z
                            then Some (100, 300, 200) else None)
             (2000, 2500, 3000);
     bounds := {| west := 0; south := 0; east := 100; north := 0 |};
     dem_image := fun p => Some 0;
     unflooded_domain := None |}.

(** The engine with windows of one cell, for the pond. *)
Definition pond_bands : Bands := compute_modis_indices pond_domain.

Definition pond_fraction : result image :=
  @Dnns.dnns (enumerating_engine 1) sample_collaborators
             pond_domain pond_bands false.

(** The engine with full 40-cell windows, for the strip. *)
Definition strip_bands : Bands := compute_modis_indices strip_domain.

Definition strip_pureWater : image :=
  gte [("classification"%string, dark_band6 strip_domain strip_bands)]
      (constant (95 # 100)).

Definition strip_averageWater : result image :=
  @Dnns.average_image (enumerating_engine 40) strip_pureWater
                      (Dnns.composite_image strip_bands)
                      (bounds strip_domain).

End Samples.

(** ** cmt/modis/dnns.py: the revised algorithm *)

Module DnnsRevised.
Import EarthEngine ModisUtilities Dnns.

(** The pixel-wise square root of the engine. *)
Class RootEngine : Type := {
  sqrt_value : Q -> Q
}.

(** One [addToMap(image, ..., name, ...)] call: the layer's name and
    raster. *)
Definition MapLayer : Type := (string * image)%type.

Section Revised.
Context {engine : RasterEngine} {roots : RootEngine} {cmt : Collaborators}.

Definition sqrt : image -> image := unop sqrt_value.

Definition KERNEL_SIZE : Q := 1.
Definition PURELAND_THRESHOLD : Q := 3500.
Definition PURE_WATER_THRESHOLD_RATIO : Q := 1 # 10.
Definition AVERAGE_SCALE_METERS : Q := 30.
Definition MIN_PURE_NEARBY : Q := 10.

Definition kernel : Kernel := Kernel_square KERNEL_SIZE pixels false.
Definition kernel_normalized : Kernel := Kernel_square KERNEL_SIZE pixels true.

(** [safe_get_info(cls.mask(cls).multiply(composite_image).reduceRegion(mean))]
    packed into a constant three-band image, at this function's scale. *)
Definition average_image (cls composite : image) (region : Region)
  : result image :=
  let average :=
    reduceRegion_mean (multiply (mask cls cls) composite) region
                      AVERAGE_SCALE_METERS in
  a1 <- dict_get "sur_refl_b01" average ;;
  a2 <- dict_get "sur_refl_b02" average ;;
  a6 <- dict_get "sur_refl_b06" average ;;
  Ok (constants [a1; a2; a6]).

(** The local class mean with its global fallback: the two assignments to
    [averageWaterLocal], and likewise to [averagePureLandLocal]. *)
Definition average_local (cls composite averageImage : image) : image :=
  let count := convolve kernel cls in
  let local :=
    divide (multiply (convolve kernel (multiply cls composite))
                     (gte count (constant MIN_PURE_NEARBY)))
           count in
  add local (multiply averageImage (Not local)).

Definition pureLand (b : Bands) : image :=
  select_as "sur_refl_b02" "b1"
    (gte (subtract (b2 b) (b1 b)) (constant PURELAND_THRESHOLD)).

(** Equations 10 and 11 around the local water reference. *)
Definition nearbyLandPixels (b : Bands) (averageWaterLocal : image) : image :=
  let oneOverSix := divide (b1 b) (b6 b) in
  let twoOverSix := divide (b2 b) (b6 b) in
  let eqTenLeft :=
    subtract oneOverSix
             (divide (select "sur_refl_b01" averageWaterLocal) (b6 b)) in
  let eqElevenLeft :=
    subtract twoOverSix
             (divide (select "sur_refl_b02" averageWaterLocal) (b6 b)) in
  let nearbyPixelsOneOverSix := neighborhoodToBands kernel oneOverSix in
  let nearbyPixelsTwoOverSix := neighborhoodToBands kernel twoOverSix in
  let eqTenMatches :=
    And (gt nearbyPixelsOneOverSix eqTenLeft)
        (lt nearbyPixelsOneOverSix oneOverSix) in
  let eqElevenMatches :=
    And (gt nearbyPixelsTwoOverSix eqElevenLeft)
        (lt nearbyPixelsTwoOverSix twoOverSix) in
  And eqTenMatches eqElevenMatches.

Definition numNearbyLandPixels (b : Bands) (averageWaterLocal : image)
  : image :=
  reduce_sum (nearbyLandPixels b averageWaterLocal).

Definition meanNearbyLand (b : Bands)
    (averageWaterLocal averagePureLandImage : image) : image :=
  let nearbyLandPixels := nearbyLandPixels b averageWaterLocal in
  let nearbyPixelsOne := neighborhoodToBands kernel (b1 b) in
  let nearbyPixelsTwo := neighborhoodToBands kernel (b2 b) in
  let nearbyPixelsSix := neighborhoodToBands kernel (b6 b) in
  let numNearbyLandPixels := numNearbyLandPixels b averageWaterLocal in
  let meanNearbyBandOne :=
    divide (reduce_sum (multiply nearbyPixelsOne nearbyLandPixels))
           numNearbyLandPixels in
  let meanNearbyBandTwo :=
    divide (reduce_sum (multiply nearbyPixelsTwo nearbyLandPixels))
           numNearbyLandPixels in
  let meanNearbyBandSix :=
    divide (reduce_sum (multiply nearbyPixelsSix nearbyLandPixels))
           numNearbyLandPixels in
  let meanNearbyLand :=
    addBands (addBands meanNearbyBandOne meanNearbyBandTwo)
             meanNearbyBandSix in
  add (multiply meanNearbyLand
                (gte numNearbyLandPixels (constant MIN_PURE_NEARBY)))
      (multiply averagePureLandImage
                (lt numNearbyLandPixels (constant MIN_PURE_NEARBY))).

(** [image.expression("b('sur_refl_b01')*b('sur_refl_b01') + ...")]: the sum
    of the squares of the three bands. *)
Definition sum_of_squares (img : image) : image :=
  let s1 := select "sur_refl_b01" img in
  let s2 := select "sur_refl_b02" img in
  let s6 := select "sur_refl_b06" img in
  add (add (multiply s1 s1) (multiply s2 s2)) (multiply s6 s6).

(** The first [waterOff]: distance to the land reference over the distance
    between the two references. *)
Definition distance_ratio (composite averageWaterLocal averagePureLandLocal
                           : image) : image :=
  let landDiff := subtract averagePureLandLocal composite in
  let waterDiff := subtract averageWaterLocal composite in
  let typeDiff := subtract averagePureLandLocal averageWaterLocal in
  let landDist := sqrt (sum_of_squares landDiff) in
  let waterDist := sqrt (sum_of_squares waterDiff) in
  let typeDist := sqrt (sum_of_squares typeDiff) in
  divide landDist typeDist.

(** Set pure water to 1 and pure land to 0, square, and threshold. *)
Definition decide (waterOff pureWater pureLand : image) : image :=
  let waterOff := subtract waterOff (multiply pureLand waterOff) in
  let waterOff :=
    add waterOff (multiply pureWater (subtract (constant 1) waterOff)) in
  let waterOff := multiply waterOff waterOff in
  gt waterOff (constant (6 # 10)).

(** [dnns_revised] up to the first [waterOff]: the two class masks, the
    distance ratio, and the rasters that are only shown on the map.
    [algorithm_params] is the attribute [domain.algorithm_params]. *)
Definition revised_stages (domain : Domain)
    (algorithm_params : list (string * Q)) (b : Bands)
  : result (image * image * image * list MapLayer) :=
  let composite_image := composite_image b in
  modis_diff_threshold <- dict_get "modis_diff_threshold" algorithm_params ;;
  let pureWaterThreshold := modis_diff_threshold * PURE_WATER_THRESHOLD_RATIO in
  let pureWater := [("b1"%string, modis_diff domain b pureWaterThreshold)] in
  averageWaterImage <-
    average_image pureWater composite_image (bounds domain) ;;
  let pureWaterCount := convolve kernel pureWater in
  let averageWaterLocal :=
    average_local pureWater composite_image averageWaterImage in
  let pureLand := pureLand b in
  averagePureLandImage <-
    average_image pureLand composite_image (bounds domain) ;;
  let pureLandCount := convolve kernel pureLand in
  let averagePureLandLocal :=
    average_local pureLand composite_image averagePureLandImage in
  let numNearbyLandPixels := numNearbyLandPixels b averageWaterLocal in
  let meanNearbyLand :=
    meanNearbyLand b averageWaterLocal averagePureLandImage in
  let waterOff :=
    distance_ratio composite_image averageWaterLocal averagePureLandLocal in
  Ok (pureWater, pureLand, waterOff,
      [("numNearbyLandPixels"%string, numNearbyLandPixels);
       ("meanNearbyLand"%string, meanNearbyLand);
       ("pure water"%string, pureWater);
       ("pure land"%string, pureLand);
       ("pure water count"%string, pureWaterCount);
       ("pure land count"%string, pureLandCount);
       ("average water"%string, averageWaterImage);
       ("average pure land"%string, averagePureLandImage);
       ("local water ref"%string, averageWaterLocal);
       ("local pure land ref"%string, averagePureLandLocal)]).

(** [dnns_revised]: the layers added to the map and the raster returned. *)
Definition dnns_revised (domain : Domain)
    (algorithm_params : list (string * Q)) (b : Bands)
  : result (list MapLayer * image) :=
  stages <- revised_stages domain algorithm_params b ;;
  let pureWater := fst (fst (fst stages)) in
  let pureLand := snd (fst (fst stages)) in
  let waterOff := snd (fst stages) in
  let layers := snd stages in
  let waterOff := decide waterOff pureWater pureLand in
  Ok (layers, select_as "sur_refl_b01" "b1" waterOff).

End Revised.

End DnnsRevised.

(** ** cmt/modis/modis_utilities.py: cloud cover *)

Module CloudCover.
Import EarthEngine ModisUtilities.

(** Pixel-wise integer operations: the pixels of an integer band hold
    integers, read back with [Qfloor]. *)
Definition int_unop (f : Z -> Z) : image -> image :=
  unop (fun q => inject_Z (f (Qfloor q))).

Definition int_binop (f : Z -> Z -> Z) : image -> image -> image :=
  binop (fun x y => inject_Z (f (Qfloor x) (Qfloor y))).

(** [image.select([k], [newName])] *)
Definition select_index_as (k : nat) (newName : string) (img : image)
  : image :=
  match nth_error img k with
  | Some nb => [(newName, snd nb)]
  | None => []
  end.

(** [getQABits] on an image. *)
Definition getQABits (image : image) (start stop : nat) (newName : string)
  : EarthEngine.image :=
  let pattern := qa_pattern start stop in
  let temp := constant (inject_Z pattern) in
  int_binop Z.shiftr
    (int_binop Z.land (select_index_as 0 newName image) temp)
    (constant (inject_Z (Z.of_nat start))).

(** [getModisBadPixelMask] on an image. *)
Definition getModisBadPixelMask (lowResModis : image) : image :=
  let qaBand := int_unop uint16 (select "state_1km" lowResModis) in
  let cloudBits := getQABits qaBand 0 1 "cloud_state" in
  Or (eq cloudBits (constant 1)) (eq cloudBits (constant 2)).

(** The pixels a region reduction visits at a scale, each with the weight
    of its share in the region. *)
Class RegionSampler : Type := {
  region_cells : Region -> Q -> list (pixel * Q)
}.

Section WithSampler.
Context {sampler : RegionSampler}.

(** [ee.Reducer.sum()] over a region: the weighted sum of the pixels that
    are not masked. *)
Definition weighted_sum (x : band) (region : Region) (scale : Q) : Q :=
  sum_list
    (flat_map (fun pw => match x (fst pw) with
                         | Some v => [snd pw * v]
                         | None => []
                         end)
              (region_cells region scale)).

Definition reduceRegion_sum (img : image) (region : Region) (scale : Q)
  : list (string * Q) :=
  map (fun nb => (fst nb, weighted_sum (snd nb) region scale)) img.

Definition MODIS_CLOUD_RESOLUTION : Q := 1000.

Definition getCloudPercentage (lowResModis : image) (region : Region)
  : result Q :=
  let oneMask := constant 1 in
  let cloudMask := getModisBadPixelMask lowResModis in
  let areaCount := reduceRegion_sum oneMask region MODIS_CLOUD_RESOLUTION in
  let cloudCount := reduceRegion_sum cloudMask region MODIS_CLOUD_RESOLUTION in
  cloud <- dict_get "cloud_state" cloudCount ;;
  area <- dict_get "constant" areaCount ;;
  py_div cloud area.

End WithSampler.

End CloudCover.

(** ** A scene for the difference strategy *)

Module FloodSamples.
Import EarthEngine ModisUtilities.

(** The pond, with itself as the unflooded reference. *)
Definition flooded_pond_domain : Domain :=
  {| modis := modis Samples.pond_domain;
     bounds := bounds Samples.pond_domain;
     dem_image := dem_image Samples.pond_domain;
     unflooded_domain := Some Samples.pond_domain |}.

(** A constant water reference (500, 300, 200). *)
Definition flat_water_ref : image :=
  [("sur_refl_b01"%string, fun _ => Some 500);
   ("sur_refl_b02"%string, fun _ => Some 300);
   ("sur_refl_b06"%string, fun _ => Some 200)].

(** The pond with a mixed pixel of reflectance (1250, 1400, 900) east of
    it, and a classifier that is undecided (probability 1/2) there. *)
Definition shore_domain : Domain :=
  {| modis :=
       Samples.scene
         (fun p => if ((fst p =? 0) && (snd p =? 0))%Z
                   then Some (500, 300, 200)
                   else if ((fst p =? 1) && (snd p =? 0))%Z
                        then Some (1250, 1400, 900) else None)
         (2000, 2500, 3000);
     bounds := {| west := -2; south := -2; east := 2; north := 2 |};
     dem_image := fun p => Some (inject_Z (fst p));
     unflooded_domain := None |}.

Definition shore_bands : Bands := compute_modis_indices shore_domain.

Definition graded_band6 (domain : Domain) (b : Bands) : band :=
  fun p => match value_at (b6 b) p with
           | Some v =>
               Some (if Qltb v 250 then 1
                     else if Qltb v 1000 then 1 # 2 else 0)
           | None => None
           end.

Definition graded_collaborators : Dnns.Collaborators :=
  {| Dnns.earth_engine_classifier := graded_band6;
     Dnns.get_diff := Samples.band_difference;
     Dnns.modis_diff := fun domain b threshold p =>
       value_at (lte (Samples.band_difference b) (constant threshold)) p |}.

End FloodSamples.

(** ** A scene for the revised algorithm *)

Module RevisedSamples.
Import EarthEngine ModisUtilities.

(** Square roots rounded down to an integer. *)
Definition integer_roots : DnnsRevised.RootEngine :=
  {| DnnsRevised.sqrt_value := fun q => inject_Z (Z.sqrt (Qfloor q)) |}.

(** A pond (500, 300, 200) at the origin, a mixed pixel (1250, 1400, 900)
    east of it, and vegetated land (500, 4500, 3000) around. *)
Definition meadow_domain : Domain :=
  {| modis :=
       Samples.scene
         (fun p => if ((fst p =? 0) && (snd p =? 0))%Z
                   then Some (500, 300, 200)
                   else if ((fst p =? 1) && (snd p =? 0))%Z
                        then Some (1250, 1400, 900) else None)
         (500, 4500, 3000);
     bounds := {| west := -2; south := -2; east := 2; north := 2 |};
     dem_image := fun p => Some 0;
     unflooded_domain := None |}.

Definition meadow_bands : Bands := compute_modis_indices meadow_domain.

Definition meadow_params : list (string * Q) :=
  [("modis_diff_threshold"%string, -1000)].

End RevisedSamples.

(** ** A scene with a cloud *)

Module CloudSamples.
Import EarthEngine ModisUtilities.

(** Every integer pixel of the bounding box, with weight 1. *)
Definition unit_sampler : CloudCover.RegionSampler :=
  {| CloudCover.region_cells := fun region _ =>
       map (fun p => (p, 1)) (Samples.region_pixels region) |}.

(** A quality band that is cloudy (state 1) at the origin only. *)
Definition one_cloud : image :=
  [("state_1km"%string,
    fun p => Some (if ((fst p =? 0) && (snd p =? 0))%Z then 1 else 0))].

End CloudSamples.

(** ** Positions in a list *)

Module Positions.

(** The position (counted from [k]) of the first element that satisfies
    [f]. *)
Fixpoint first_index {A : Type} (f : A -> bool) (l : list A) (k : nat)
  : option nat :=
  match l with
  | [] => None
  | a :: rest => if f a then Some k else first_index f rest (S k)
  end.

(** The position of the last one. *)
Fixpoint last_index {A : Type} (f : A -> bool) (l : list A) (k : nat)
  : option nat :=
  match l with
  | [] => None
  | a :: rest =>
      match last_index f rest (S k) with
      | Some j => Some j
      | None => if f a then Some k else None
      end
  end.

End Positions.

(** * Properties *)

Import EarthEngine ModisUtilities Dnns.

(** ** Rationals and results *)

Lemma Qltb_lt (x y : Q) : Qltb x y = true <-> x < y.
Proof.
  unfold Qltb. rewrite Qlt_alt. destruct (x ?= y); intuition congruence.
Qed.

Lemma Qltb_ge (x y : Q) : Qltb x y = false <-> y <= x.
Proof.
  split; intro H.
  - apply Qnot_lt_le. intro L. apply Qltb_lt in L. congruence.
  - destruct (Qltb x y) eqn:E; trivial. apply Qltb_lt in E. exfalso. lra.
Qed.

#[global] Instance Qltb_comp : Proper (Qeq ==> Qeq ==> Logic.eq) Qltb.
Proof.
  intros x x' Hx y y' Hy.
  destruct (Qltb x y) eqn:E; symmetry.
  - apply Qltb_lt. apply Qltb_lt in E. lra.
  - apply Qltb_ge. apply Qltb_ge in E. lra.
Qed.

Lemma py_div_Ok (x y : Q) : ~ y == 0 -> py_div x y = Ok (x / y).
Proof.
  intro H. unfold py_div. destruct (Qeq_bool y 0) eqn:E; trivial.
  apply Qeq_bool_eq in E. contradiction.
Qed.

Lemma py_div_zero (x y : Q) : y == 0 -> py_div x y = Raise ZeroDivisionError.
Proof.
  intro H. unfold py_div. now rewrite (Qeq_eq_bool _ _ H).
Qed.

Lemma py_div_cases (x y : Q) :
  (y == 0 /\ py_div x y = Raise ZeroDivisionError)
  \/ (~ y == 0 /\ py_div x y = Ok (x / y)).
Proof.
  destruct (Qeq_dec y 0) as [H | H].
  - left. split; trivial. now apply py_div_zero.
  - right. split; trivial. now apply py_div_Ok.
Qed.

Lemma fold_left_Qplus (l : list Q) (a : Q) :
  fold_left Qplus l a == a + sum_list l.
Proof.
  revert a. induction l as [| c l IH]; intro a; simpl.
  - ring.
  - rewrite IH. ring.
Qed.

Lemma py_sum_sum_list (l : list Q) : py_sum l == sum_list l.
Proof. unfold py_sum. rewrite fold_left_Qplus. ring. Qed.

(** ** The quality-bit decoder *)

Lemma qa_pattern_0_1 : qa_pattern 0 1 = 1%Z.
Proof. reflexivity. Qed.

(** With the arguments [(0, 1)] only bit 0 is read: the mask is the parity of
    the quality value. *)
Lemma getQABits_0_1 (v : Z) : getQABits v 0 1 = (v mod 2)%Z.
Proof.
  unfold getQABits. rewrite qa_pattern_0_1, Z.shiftr_0_r.
  apply (Z.land_ones v 1). lia.
Qed.

Lemma getModisBadPixelMask_parity (v : Z) : getModisBadPixelMask v = Z.odd v.
Proof.
  unfold getModisBadPixelMask, uint16. rewrite getQABits_0_1.
  assert (E : ((v mod 2 ^ 16) mod 2 = v mod 2)%Z).
  { apply Z.mod_mod_divide. exists 32768%Z. reflexivity. }
  rewrite E, Zmod_odd. destruct (Z.odd v); reflexivity.
Qed.

(** ** The histogram scan *)

Lemma same_sums_refl (st : loop_state) : same_sums st st.
Proof. repeat split. Qed.

Lemma advance_true_sum hT hF k c st :
  true_sum (advance hT hF k c st) = true_sum st + c.
Proof. unfold advance. destruct (skip_false _ _ _ _ _). reflexivity. Qed.

Lemma advance_indices hT hF k c st :
  lower_mixed_index (advance hT hF k c st) = lower_mixed_index st
  /\ upper_mixed_index (advance hT hF k c st) = upper_mixed_index st
  /\ threshold_index (advance hT hF k c st) = threshold_index st
  /\ loop_i (advance hT hF k c st) = Some k.
Proof. unfold advance. destruct (skip_false _ _ _ _ _). repeat split. Qed.

Lemma advance_same_sums hT hF k c st s :
  same_sums st s -> same_sums (advance hT hF k c st) (advance hT hF k c s).
Proof.
  intros (Hi & Hf & Ht). unfold advance. rewrite Hi, Hf, Ht.
  destruct (skip_false _ _ _ _ _). repeat split.
Qed.

Lemma lower_met_same ft st s : same_sums st s -> lower_met ft st = lower_met ft s.
Proof. intros (_ & Hf & Ht). unfold lower_met. now rewrite Hf, Ht. Qed.

Lemma upper_met_same tt st s : same_sums st s -> upper_met tt st = upper_met tt s.
Proof. intros (_ & Hf & Ht). unfold upper_met. now rewrite Hf, Ht. Qed.

(** What the two tests of the mixed branch do to the state. *)
Lemma mixed_tests_Ok tt ft k st st' :
  mixed_tests tt ft k st = Ok st' ->
  same_sums st' st
  /\ lower_mixed_index st' =
       (if lower_met ft st then Some k else lower_mixed_index st)
  /\ upper_mixed_index st' =
       match upper_mixed_index st with
       | Some u => Some u
       | None => if upper_met tt st then Some k else None
       end.
Proof.
  unfold mixed_tests, lower_met, upper_met.
  destruct (py_div_cases (ft - false_sum st) (true_sum st)) as [[Hz ->] | [Hnz ->]];
    simpl; [discriminate |].
  destruct (Qeq_bool (true_sum st) 0) eqn:E0;
    [apply Qeq_bool_eq in E0; contradiction |]. simpl.
  destruct (Qle_bool ((ft - false_sum st) / true_sum st) (5 # 100)); simpl.
  all: destruct (upper_mixed_index st) as [u |] eqn:Eu; simpl.
  all: try (intro H; injection H as <-; simpl; rewrite ?Eu; repeat split; fail).
  all: destruct (py_div_cases (tt - true_sum st) (false_sum st))
         as [[Hz' ->] | [Hnz' ->]]; simpl; [discriminate |].
  all: destruct (Qeq_bool (false_sum st) 0) eqn:E1;
         [apply Qeq_bool_eq in E1; contradiction |]; simpl.
  all: destruct (Qle_bool ((tt - true_sum st) / false_sum st) (5 # 100)); simpl.
  all: intro H; injection H as <-; simpl; rewrite ?Eu; repeat split.
Qed.

Lemma mixed_tests_Raise tt ft k st e :
  mixed_tests tt ft k st = Raise e -> e = ZeroDivisionError.
Proof.
  unfold mixed_tests.
  destruct (py_div_cases (ft - false_sum st) (true_sum st)) as [[Hz ->] | [Hnz ->]];
    simpl; [congruence |].
  destruct (is_None _); [| discriminate].
  match goal with
  | |- context [py_div ?a ?b] =>
      destruct (py_div_cases a b) as [[Hz' ->] | [Hnz' ->]]
  end; simpl; [congruence | discriminate].
Qed.

(** The first division of the mixed branch has [true_sum] as its divisor. *)
Lemma mixed_tests_true_sum_zero tt ft k st :
  true_sum st == 0 -> mixed_tests tt ft k st = Raise ZeroDivisionError.
Proof.
  intro H. unfold mixed_tests. now rewrite (py_div_zero _ _ H).
Qed.

(** The second one has [false_sum], and is reached while the upper index is
    unset. *)
Lemma mixed_tests_false_sum_zero tt ft k st :
  upper_mixed_index st = None -> false_sum st == 0 ->
  mixed_tests tt ft k st = Raise ZeroDivisionError.
Proof.
  intros Hu H. unfold mixed_tests.
  destruct (py_div_cases (ft - false_sum st) (true_sum st)) as [[Hz ->] | [Hnz ->]];
    simpl; trivial.
  destruct (Qle_bool _ _); simpl; rewrite Hu; simpl;
    now rewrite (py_div_zero _ _ H).
Qed.

Lemma scan_cons mixed hT hF tt ft c rest k st :
  scan mixed hT hF tt ft (c :: rest) k st =
  let st1 := advance hT hF k c st in
  percent_true_under_thresh <- py_div (true_sum st1) tt ;;
  percent_false_over_thresh <- py_div (false_sum st1) ft ;;
  if mixed then
    st2 <- mixed_tests tt ft k st1 ;;
    scan mixed hT hF tt ft rest (S k) st2
  else if is_None (threshold_index st1)
          && Qltb percent_false_over_thresh percent_true_under_thresh
          && Qltb (1 # 2) percent_true_under_thresh
  then Ok st1
  else scan mixed hT hF tt ft rest (S k) st1.
Proof. reflexivity. Qed.

(** Only a division can fail inside the loop. *)
Lemma scan_Raise mixed hT hF tt ft bins :
  forall k st e,
    scan mixed hT hF tt ft bins k st = Raise e -> e = ZeroDivisionError.
Proof.
  induction bins as [| c rest IH]; intros k st e; [discriminate |].
  rewrite scan_cons. cbv zeta.
  destruct (py_div_cases (true_sum (advance hT hF k c st)) tt)
    as [[_ ->] | [_ ->]]; simpl; [congruence |].
  destruct (py_div_cases (false_sum (advance hT hF k c st)) ft)
    as [[_ ->] | [_ ->]]; simpl; [congruence |].
  destruct mixed.
  - destruct (mixed_tests tt ft k _) as [st2 | e'] eqn:E; simpl.
    + apply IH.
    + apply mixed_tests_Raise in E. congruence.
  - destruct (_ && _); [discriminate | apply IH].
Qed.

(** An index that no iteration sets is still [None] after the loop. *)
Lemma scan_lower_unset hT hF tt ft bins :
  forall k st s st',
    same_sums st s ->
    lower_mixed_index st = None ->
    Forall (fun x => lower_met ft x = false) (sums_trace hT hF bins k s) ->
    scan true hT hF tt ft bins k st = Ok st' ->
    lower_mixed_index st' = None.
Proof.
  induction bins as [| c rest IH]; intros k st s st' Hs Hl Hall.
  - simpl. intro H. injection H as <-. exact Hl.
  - rewrite scan_cons. cbv zeta. simpl in Hall.
    apply Forall_cons_iff in Hall as [Hnow Hrest].
    destruct (py_div _ tt); simpl; [| discriminate].
    destruct (py_div _ ft); simpl; [| discriminate].
    destruct (mixed_tests tt ft k _) as [st2 | e'] eqn:E; simpl; [| discriminate].
    apply mixed_tests_Ok in E as (Hs2 & Hl2 & _).
    pose proof (advance_same_sums hT hF k c _ _ Hs) as Hs1.
    rewrite (lower_met_same _ _ _ Hs1), Hnow in Hl2.
    apply (IH (S k) st2 (advance hT hF k c s)); trivial.
    + destruct Hs2 as (A & B & C), Hs1 as (A' & B' & C').
      repeat split; congruence.
    + rewrite Hl2.
      destruct (advance_indices hT hF k c st) as (-> & _). exact Hl.
Qed.

Lemma scan_upper_unset hT hF tt ft bins :
  forall k st s st',
    same_sums st s ->
    upper_mixed_index st = None ->
    Forall (fun x => upper_met tt x = false) (sums_trace hT hF bins k s) ->
    scan true hT hF tt ft bins k st = Ok st' ->
    upper_mixed_index st' = None.
Proof.
  induction bins as [| c rest IH]; intros k st s st' Hs Hu Hall.
  - simpl. intro H. injection H as <-. exact Hu.
  - rewrite scan_cons. cbv zeta. simpl in Hall.
    apply Forall_cons_iff in Hall as [Hnow Hrest].
    destruct (py_div _ tt); simpl; [| discriminate].
    destruct (py_div _ ft); simpl; [| discriminate].
    destruct (mixed_tests tt ft k _) as [st2 | e'] eqn:E; simpl; [| discriminate].
    apply mixed_tests_Ok in E as (Hs2 & _ & Hu2).
    pose proof (advance_same_sums hT hF k c _ _ Hs) as Hs1.
    destruct (advance_indices hT hF k c st) as (_ & Hu1 & _).
    rewrite Hu1, Hu, (upper_met_same _ _ _ Hs1), Hnow in Hu2.
    apply (IH (S k) st2 (advance hT hF k c s)); trivial.
    destruct Hs2 as (A & B & C), Hs1 as (A' & B' & C').
    repeat split; congruence.
Qed.

(** Once [false_sum] is 0 at an iteration that still has no upper index, the
    loop ends in a division by zero. *)
Lemma scan_false_sum_exhausted hT hF tt ft pre :
  forall bins k st s x post,
    same_sums st s ->
    upper_mixed_index st = None ->
    sums_trace hT hF bins k s = pre ++ x :: post ->
    Forall (fun y => upper_met tt y = false) pre ->
    false_sum x == 0 ->
    scan true hT hF tt ft bins k st = Raise ZeroDivisionError.
Proof.
  induction pre as [| y pre IH]; intros bins k st s x post Hs Hu Htr Hall Hz;
    (destruct bins as [| c rest]; [discriminate Htr |]);
    simpl in Htr; injection Htr as Hhd Htl;
    rewrite scan_cons; cbv zeta;
    pose proof (advance_same_sums hT hF k c _ _ Hs) as Hs1;
    destruct (advance_indices hT hF k c st) as (_ & Hu1 & _);
    (destruct (py_div_cases (true_sum (advance hT hF k c st)) tt)
      as [[_ ->] | [_ ->]]; simpl; trivial);
    (destruct (py_div_cases (false_sum (advance hT hF k c st)) ft)
      as [[_ ->] | [_ ->]]; simpl; trivial).
  - rewrite mixed_tests_false_sum_zero; trivial; try congruence.
    destruct Hs1 as (_ & B & _). rewrite B, Hhd. exact Hz.
  - apply Forall_cons_iff in Hall as [Hnow Hrest].
    destruct (mixed_tests tt ft k _) as [st2 | e'] eqn:E; simpl.
    + apply mixed_tests_Ok in E as (Hs2 & _ & Hu2).
      rewrite Hu1, Hu, (upper_met_same _ _ _ Hs1), Hhd, Hnow in Hu2.
      apply (IH rest (S k) st2 (advance hT hF k c s) x post); trivial.
      destruct Hs2 as (A & B & C), Hs1 as (A' & B' & C').
      repeat split; congruence.
    + apply mixed_tests_Raise in E. now subst.
Qed.

(** ** Single-threshold mode: the loop against its specification *)

Lemma sum_list_app (l1 l2 : list Q) :
  sum_list (l1 ++ l2) == sum_list l1 + sum_list l2.
Proof.
  induction l1 as [| c l1 IH]; simpl.
  - ring.
  - rewrite IH. ring.
Qed.

Lemma Qnat_S (n : nat) : Qnat (S n) == Qnat n + 1.
Proof.
  unfold Qnat. rewrite Nat2Z.inj_succ. unfold Z.succ.
  rewrite inject_Z_plus. reflexivity.
Qed.

Lemma Qnat_nonneg (n : nat) : 0 <= Qnat n.
Proof.
  unfold Qnat. change 0 with (inject_Z 0). rewrite <- Zle_Qle. lia.
Qed.

Lemma Qnat_le (m n : nat) : (m <= n)%nat -> Qnat m <= Qnat n.
Proof. intro H. unfold Qnat. rewrite <- Zle_Qle. lia. Qed.

Lemma bin_edge_0 (h : Histogram) : bin_edge h 0 == bucketMin h.
Proof. unfold bin_edge. change (Qnat 0) with 0. ring. Qed.

(** Lower edges grow with the bin number when the width is not negative. *)
Lemma bin_edge_mono (h : Histogram) (m n : nat) :
  0 <= bucketWidth h -> (m <= n)%nat -> bin_edge h m <= bin_edge h n.
Proof.
  intros Hw Hmn. unfold bin_edge.
  pose proof (Qnat_le m n Hmn) as H.
  assert (Qnat m * bucketWidth h <= Qnat n * bucketWidth h) by nra.
  lra.
Qed.

(** What the inner [while] loop leaves behind: it consumed [m] bins, all with
    a lower edge below [x], and stopped at the end or at a bin whose lower
    edge is not below [x]. *)
Lemma skip_false_spec (hF : Histogram) (x : Q) (rest : list Q) :
  forall idx fsum,
  exists m,
    (m <= List.length rest)%nat
    /\ fst (skip_false hF rest idx fsum x) = (idx + m)%nat
    /\ snd (skip_false hF rest idx fsum x) == fsum - sum_list (firstn m rest)
    /\ (forall j, (j < m)%nat -> bin_edge hF (idx + j) < x)
    /\ ((m < List.length rest)%nat -> x <= bin_edge hF (idx + m)).
Proof.
  induction rest as [| c rest IH]; intros idx fsum.
  - exists 0%nat. simpl. repeat split; try lia.
    + ring.
  - simpl. destruct (Qltb (bin_edge hF idx) x) eqn:E.
    + destruct (IH (S idx) (fsum - c)) as (m & Hm & Hi & Hs & Hb & Ha).
      exists (S m). repeat split.
      * simpl. lia.
      * rewrite Hi. lia.
      * rewrite Hs. simpl. ring.
      * intros [| j] Hj.
        -- rewrite Nat.add_0_r. now apply Qltb_lt.
        -- replace (idx + S j)%nat with (S idx + j)%nat by lia.
           apply Hb. lia.
      * intro Hlt. replace (idx + S m)%nat with (S idx + m)%nat by lia.
        apply Ha. simpl in Hlt. lia.
    + exists 0%nat. simpl. repeat split; try lia.
      * ring.
      * intros _. rewrite Nat.add_0_r. now apply Qltb_ge.
Qed.

Lemma mass_at_or_above_app (hF : Histogram) (x : Q) (l1 l2 : list Q) :
  forall j,
    mass_at_or_above hF (l1 ++ l2) j x ==
    mass_at_or_above hF l1 j x
    + mass_at_or_above hF l2 (j + List.length l1) x.
Proof.
  induction l1 as [| c l1 IH]; intro j; simpl.
  - rewrite Nat.add_0_r. ring.
  - rewrite IH. replace (S j + List.length l1)%nat
      with (j + S (List.length l1))%nat by lia. ring.
Qed.

Lemma mass_at_or_above_below (hF : Histogram) (x : Q) (l : list Q) :
  forall j,
    (forall i, (i < List.length l)%nat -> bin_edge hF (j + i) < x) ->
    mass_at_or_above hF l j x == 0.
Proof.
  induction l as [| c l IH]; intros j H; simpl.
  - reflexivity.
  - assert (E : Qltb (bin_edge hF j) x = true).
    { apply Qltb_lt. specialize (H 0%nat). rewrite Nat.add_0_r in H.
      apply H. simpl. lia. }
    rewrite E, IH.
    + ring.
    + intros i Hi. replace (S j + i)%nat with (j + S i)%nat by lia.
      apply H. simpl. lia.
Qed.

Lemma mass_at_or_above_above (hF : Histogram) (x : Q) (l : list Q) :
  forall j,
    (forall i, (i < List.length l)%nat -> x <= bin_edge hF (j + i)) ->
    mass_at_or_above hF l j x == sum_list l.
Proof.
  induction l as [| c l IH]; intros j H; simpl.
  - reflexivity.
  - assert (E : Qltb (bin_edge hF j) x = false).
    { apply Qltb_ge. specialize (H 0%nat). rewrite Nat.add_0_r in H.
      apply H. simpl. lia. }
    rewrite E, IH.
    + ring.
    + intros i Hi. replace (S j + i)%nat with (j + S i)%nat by lia.
      apply H. simpl. lia.
Qed.

Lemma firstn_prefix {A : Type} (pre rest : list A) :
  firstn (List.length pre) (pre ++ rest) = pre.
Proof.
  rewrite firstn_app, Nat.sub_diag, firstn_all. simpl. apply app_nil_r.
Qed.

Lemma firstn_prefix_S {A : Type} (pre : list A) (c : A) (rest : list A) :
  firstn (S (List.length pre)) (pre ++ c :: rest) = pre ++ [c].
Proof.
  rewrite firstn_app, firstn_all2 by lia.
  replace (S (List.length pre) - List.length pre)%nat with 1%nat by lia.
  reflexivity.
Qed.

Lemma scan_inv_initial (hT hF : Histogram) :
  scan_inv hT hF 0 (initial_state (py_sum (histogram hF))).
Proof.
  constructor; simpl; try lia; try reflexivity.
  apply py_sum_sum_list.
Qed.

(** One [advance] re-establishes the invariant and makes the running sums
    the two masses the specification names. *)
Lemma advance_inv (hT hF : Histogram) (pre : list Q) (c : Q) (rest : list Q)
    (st : loop_state) :
  0 <= bucketWidth hT -> 0 <= bucketWidth hF ->
  histogram hT = pre ++ c :: rest ->
  scan_inv hT hF (List.length pre) st ->
  let st1 := advance hT hF (List.length pre) c st in
  scan_inv hT hF (S (List.length pre)) st1
  /\ true_sum st1 == true_mass_through hT (List.length pre)
  /\ false_sum st1 == false_mass_over hT hF (List.length pre).
Proof.
  intros HwT HwF HT [Its Ifi Ifs Ibelow Ithr]. cbv zeta.
  set (k := List.length pre).
  assert (Ets : true_sum st + c == sum_list (firstn (S k) (histogram hT))).
  { rewrite Its, HT. unfold k.
    rewrite firstn_prefix, firstn_prefix_S, sum_list_app. simpl. ring. }
  unfold advance.
  set (x := bucketMin hT + Qnat (k + 1) * bucketWidth hT).
  destruct (skip_false_spec hF x (skipn (false_index st) (histogram hF))
              (false_index st) (false_sum st))
    as (m & Hm & Hi & Hs & Hb & Ha).
  destruct (skip_false hF _ (false_index st) (false_sum st) x)
    as [fi fs] eqn:Esk.
  simpl in Hi, Hs. subst fi.
  rewrite length_skipn in Hm, Ha.
  assert (Hx : bin_edge hT k <= x).
  { unfold x. apply (bin_edge_mono hT k (k + 1)); trivial. lia. }
  assert (Hfs : fs == sum_list (skipn (false_index st + m) (histogram hF))).
  { rewrite Hs, Ifs.
    rewrite <- (firstn_skipn m (skipn (false_index st) (histogram hF))) at 1.
    rewrite sum_list_app, skipn_skipn.
    replace (m + false_index st)%nat with (false_index st + m)%nat by lia.
    ring. }
  assert (Hbelow : forall j, (j < false_index st + m)%nat -> bin_edge hF j < x).
  { intros j Hj. destruct (Nat.lt_ge_cases j (false_index st)) as [L | G].
    - apply Qlt_le_trans with (bin_edge hT k); [exact (Ibelow j L) | exact Hx].
    - replace j with (false_index st + (j - false_index st))%nat by lia.
      apply Hb. lia. }
  split; [| split].
  - constructor; simpl.
    + exact Ets.
    + lia.
    + exact Hfs.
    + intros j Hj. replace (S k) with (k + 1)%nat by lia. now apply Hbelow.
    + exact Ithr.
  - simpl. exact Ets.
  - simpl. rewrite Hfs. unfold false_mass_over, upper_edge. fold x.
    rewrite <- (firstn_skipn (false_index st + m) (histogram hF)) at 2.
    rewrite mass_at_or_above_app, mass_at_or_above_below.
    + rewrite mass_at_or_above_above; [ring |].
      intros i Hi. rewrite length_skipn in Hi.
      rewrite length_firstn, Nat.min_l by lia. simpl.
      apply Qle_trans with (bin_edge hF (false_index st + m)).
      * apply Ha. lia.
      * apply bin_edge_mono; trivial. lia.
    + intros i Hi. rewrite length_firstn in Hi. apply Hbelow. simpl. lia.
Qed.

(** From any iteration on, the loop stops exactly where the specification
    says, and [i] is left at that bin. *)
Lemma scan_single_reports (hT hF : Histogram) :
  0 <= bucketWidth hT -> 0 <= bucketWidth hF ->
  ~ py_sum (histogram hT) == 0 -> ~ py_sum (histogram hF) == 0 ->
  forall bins pre st,
    histogram hT = pre ++ bins ->
    scan_inv hT hF (List.length pre) st ->
    exists st',
      scan false hT hF (py_sum (histogram hT)) (py_sum (histogram hF))
           bins (List.length pre) st = Ok st'
      /\ loop_i st' =
           match find (stops_at hT hF)
                      (seq (List.length pre) (List.length bins)) with
           | Some i => Some i
           | None =>
               match bins with
               | [] => loop_i st
               | _ => Some (List.length pre + List.length bins - 1)%nat
               end
           end.
Proof.
  intros HwT HwF HtT HtF.
  induction bins as [| c rest IH]; intros pre st HT Hinv.
  - exists st. split; reflexivity.
  - destruct (advance_inv hT hF pre c rest st HwT HwF HT Hinv)
      as (Hinv1 & Hts & Hfs).
    rewrite scan_cons. cbv zeta.
    set (k := List.length pre) in *.
    set (st1 := advance hT hF k c st) in *.
    rewrite (py_div_Ok (true_sum st1)) by exact HtT.
    rewrite (py_div_Ok (false_sum st1)) by exact HtF.
    simpl bind.
    rewrite (inv_threshold_index _ _ _ _ Hinv1). simpl is_None.
    assert (Hcond :
      Qltb (false_sum st1 / py_sum (histogram hF))
           (true_sum st1 / py_sum (histogram hT))
      && Qltb (1 # 2) (true_sum st1 / py_sum (histogram hT))
      = stops_at hT hF k).
    { unfold stops_at, percent_false_over, percent_true_under.
      rewrite Hts, Hfs, !py_sum_sum_list. reflexivity. }
    simpl andb. rewrite Hcond.
    simpl List.length. simpl seq. simpl find.
    destruct (stops_at hT hF k) eqn:Estop.
    + exists st1. split; trivial. apply advance_indices.
    + destruct (IH (pre ++ [c]) st1) as (st' & Hscan & Hi).
      * rewrite <- app_assoc. exact HT.
      * rewrite length_app, Nat.add_comm. exact Hinv1.
      * rewrite length_app, Nat.add_comm in Hscan, Hi. simpl in Hscan, Hi.
        fold k in Hscan, Hi.
        exists st'. split; [exact Hscan |].
        rewrite Hi. destruct (find _ _); trivial.
        destruct rest as [| c' rest'].
        -- simpl. replace (k + 1 - 1)%nat with k by lia.
           apply advance_indices.
        -- f_equal. simpl. lia.
Qed.

(** ** The claims about [compute_binary_threshold] *)



(** Outside these preconditions the call does not return: without any true
    bin the loop variable is read unbound, and with a zero total the first
    percentage cannot be computed. *)
Lemma single_threshold_no_bins (hT hF : Histogram) :
  histogram hT = [] ->
  compute_binary_threshold_from_histograms hT hF false
  = Raise UnboundLocalError.
Proof.
  intro H. unfold compute_binary_threshold_from_histograms. rewrite H.
  reflexivity.
Qed.

Lemma zero_true_total_raises (hT hF : Histogram) (mixed_thresholds : bool) :
  histogram hT <> [] -> py_sum (histogram hT) == 0 ->
  compute_binary_threshold_from_histograms hT hF mixed_thresholds
  = Raise ZeroDivisionError.
Proof.
  intros Hne Hz. unfold compute_binary_threshold_from_histograms.
  destruct (histogram hT) as [| c rest] eqn:E; [contradiction |].
  rewrite scan_cons. cbv zeta. rewrite (py_div_zero _ _ Hz). reflexivity.
Qed.

(** C9.  In mixed-threshold mode, whenever the scan ends with both bin
    indices set, the function returns the two bin midpoints as a pair
    [(lower, upper)] with [lower <= upper]. *)
Theorem mixed_thresholds_ordered (hT hF : Histogram) (st : loop_state)
    (l u : nat) :
  scan true hT hF (py_sum (histogram hT)) (py_sum (histogram hF))
       (histogram hT) 0 (initial_state (py_sum (histogram hF))) = Ok st ->
  lower_mixed_index st = Some l ->
  upper_mixed_index st = Some u ->
  exists lower upper,
    compute_binary_threshold_from_histograms hT hF true
    = Ok (Thresholds lower upper)
    /\ lower <= upper
    /\ ((lower = bin_mid hT l /\ upper = bin_mid hT u)
        \/ (lower = bin_mid hT u /\ upper = bin_mid hT l)).
Proof.
  intros Hscan Hl Hu.
  unfold compute_binary_threshold_from_histograms.
  rewrite Hscan. simpl. rewrite Hl, Hu. simpl.
  destruct (Qltb (bin_mid hT u) (bin_mid hT l)) eqn:E.
  - exists (bin_mid hT u), (bin_mid hT l). split; [reflexivity |].
    split; [| right; split; reflexivity].
    apply Qltb_lt in E. now apply Qlt_le_weak.
  - exists (bin_mid hT l), (bin_mid hT u). split; [reflexivity |].
    split; [| left; split; reflexivity].
    now apply Qltb_ge in E.
Qed.

(** C9, a run in which the swap happens: the lower index ends at bin 1, the
    upper index at bin 0, and the pair returned is (1/2, 3/2). *)
Lemma mixed_thresholds_ordered_witness :
  exists lower upper,
    compute_binary_threshold_from_histograms
      Samples.swap_true Samples.swap_false true
    = Ok (Thresholds lower upper)
    /\ lower <= upper
    /\ ((lower = bin_mid Samples.swap_true 1
         /\ upper = bin_mid Samples.swap_true 0)
        \/ (lower = bin_mid Samples.swap_true 0
            /\ upper = bin_mid Samples.swap_true 1)).
Proof.
  eapply (mixed_thresholds_ordered Samples.swap_true Samples.swap_false).
  - vm_compute. reflexivity.
  - reflexivity.
  - reflexivity.
Defined.

(** C6.  In mixed-threshold mode, when the lower-index condition or the
    upper-index condition is met at no iteration of the scan, the function
    does not return: a scan that runs to its end leaves the index [None] and
    the midpoint arithmetic raises [TypeError]; a scan that fails raises
    [ZeroDivisionError]. *)
Theorem mixed_unset_index_fails (hT hF : Histogram) :
  let true_total := py_sum (histogram hT) in
  let false_total := py_sum (histogram hF) in
  Forall (fun st => lower_met false_total st = false) (scan_sums hT hF)
  \/ Forall (fun st => upper_met true_total st = false) (scan_sums hT hF) ->
  match scan true hT hF true_total false_total (histogram hT) 0
             (initial_state false_total) with
  | Ok _ =>
      compute_binary_threshold_from_histograms hT hF true = Raise TypeError
  | Raise _ =>
      compute_binary_threshold_from_histograms hT hF true
      = Raise ZeroDivisionError
  end.
Proof.
  intros tt ft Hnever.
  unfold compute_binary_threshold_from_histograms. fold tt ft.
  destruct (scan true hT hF tt ft (histogram hT) 0 (initial_state ft))
    as [st | e] eqn:Hscan; simpl.
  - destruct Hnever as [Hl | Hu].
    + rewrite (scan_lower_unset hT hF tt ft (histogram hT) 0
                 (initial_state ft) (initial_state ft) st
                 (same_sums_refl _) eq_refl Hl Hscan).
      reflexivity.
    + rewrite (scan_upper_unset hT hF tt ft (histogram hT) 0
                 (initial_state ft) (initial_state ft) st
                 (same_sums_refl _) eq_refl Hu Hscan).
      destruct (lower_mixed_index st); reflexivity.
  - apply scan_Raise in Hscan. now subst.
Qed.

(** C6, a run: the scan completes with the upper index at bin 0 and the lower
    index unset, and the call raises [TypeError]. *)
Lemma mixed_unset_index_fails_witness :
  compute_binary_threshold_from_histograms
    Samples.no_lower_true Samples.no_lower_false true
  = Raise TypeError.
Proof.
  apply (mixed_unset_index_fails Samples.no_lower_true Samples.no_lower_false).
  left. repeat constructor.
Defined.

(** C10.  In mixed-threshold mode the two ratios are divided out unguarded:
    a true histogram whose first bin is empty, and a scan in which
    [false_sum] is 0 at an iteration before which the upper index was never
    set, both end in [ZeroDivisionError]. *)
Theorem mixed_division_by_zero (hT hF : Histogram) :
  (forall c rest,
      histogram hT = c :: rest -> c == 0 ->
      compute_binary_threshold_from_histograms hT hF true
      = Raise ZeroDivisionError)
  /\ (forall pre st post,
        scan_sums hT hF = pre ++ st :: post ->
        Forall (fun s => upper_met (py_sum (histogram hT)) s = false) pre ->
        false_sum st == 0 ->
        compute_binary_threshold_from_histograms hT hF true
        = Raise ZeroDivisionError).
Proof.
  split.
  - intros c rest HT Hc.
    unfold compute_binary_threshold_from_histograms. rewrite HT at 2.
    rewrite scan_cons. cbv zeta.
    set (st1 := advance hT hF 0 c _).
    assert (Hts : true_sum st1 == 0).
    { unfold st1. rewrite advance_true_sum. simpl. rewrite Hc. ring. }
    destruct (py_div_cases (true_sum st1) (py_sum (histogram hT)))
      as [[_ ->] | [_ ->]]; simpl; trivial.
    destruct (py_div_cases (false_sum st1) (py_sum (histogram hF)))
      as [[_ ->] | [_ ->]]; simpl; trivial.
    now rewrite (mixed_tests_true_sum_zero _ _ _ _ Hts).
  - intros pre st post Htr Hpre Hz.
    unfold compute_binary_threshold_from_histograms.
    now rewrite (scan_false_sum_exhausted hT hF _ _ pre (histogram hT) 0
                   (initial_state _) (initial_state _) st post
                   (same_sums_refl _) eq_refl Htr Hpre Hz).
Qed.

(** C10, two runs: an empty first true bin, and a false histogram used up
    at the first iteration. *)
Lemma mixed_division_by_zero_witness :
  compute_binary_threshold_from_histograms
    Samples.empty_first_true Samples.dry_histogram true
  = Raise ZeroDivisionError
  /\ compute_binary_threshold_from_histograms
       Samples.exhausted_true Samples.exhausted_false true
     = Raise ZeroDivisionError.
Proof.
  split.
  - apply (proj1 (mixed_division_by_zero Samples.empty_first_true
                    Samples.dry_histogram) 0 [4]); reflexivity.
  - apply (proj2 (mixed_division_by_zero Samples.exhausted_true
                    Samples.exhausted_false) []
             (advance Samples.exhausted_true Samples.exhausted_false 0 1
                (initial_state (py_sum (histogram Samples.exhausted_false))))
             (sums_trace Samples.exhausted_true Samples.exhausted_false [1] 1
                (advance Samples.exhausted_true Samples.exhausted_false 0 1
                   (initial_state
                      (py_sum (histogram Samples.exhausted_false)))))).
    + reflexivity.
    + constructor.
    + vm_compute. reflexivity.
Defined.

(** ** The claim about [getModisBadPixelMask] *)

(** C5.  The cloud-state field of [state_1km] is two bits wide, and a pixel
    is cloudy when it holds 1 or 2; called with [(0, 1)], [getQABits] keeps
    bit 0 only, so the value 2 (mixed cloud) is not flagged and the value 3
    (not set, assumed clear) is. *)
Theorem getModisBadPixelMask_reads_one_bit :
  (cloud_state_field 2 = 2%Z /\ getModisBadPixelMask 2 = false)
  /\ (cloud_state_field 3 = 3%Z /\ getModisBadPixelMask 3 = true).
Proof. repeat split. Qed.

(** ** Separated populations *)

Lemma sum_list_nonneg (l : list Q) : Forall (fun c => 0 <= c) l -> 0 <= sum_list l.
Proof.
  induction 1 as [| c l Hc _ IH]; simpl; lra.
Qed.

Lemma sum_list_ge_nth (l : list Q) :
  Forall (fun c => 0 <= c) l ->
  forall k, (k < List.length l)%nat -> nth k l 0 <= sum_list l.
Proof.
  induction 1 as [| c l Hc Hl IH]; intros k Hk; simpl in *.
  - lia.
  - pose proof (sum_list_nonneg l Hl). destruct k as [| k].
    + lra.
    + specialize (IH k ltac:(lia)). lra.
Qed.

Lemma sum_list_firstn_le (l : list Q) (m : nat) :
  Forall (fun c => 0 <= c) l -> sum_list (firstn m l) <= sum_list l.
Proof.
  intro H. rewrite <- (firstn_skipn m l) at 2. rewrite sum_list_app.
  assert (0 <= sum_list (skipn m l)); [| lra].
  apply sum_list_nonneg. rewrite <- (firstn_skipn m l) in H.
  now apply Forall_app in H.
Qed.

Lemma binned_counts_nonneg (h : Histogram) (values : list Q) :
  binned h values -> Forall (fun c => 0 <= c) (histogram h).
Proof.
  intros [_ Hc]. apply Forall_forall. intros c Hin.
  destruct (In_nth _ _ 0 Hin) as (k & Hk & <-).
  rewrite (Hc k Hk). apply Qnat_nonneg.
Qed.

Lemma filter_length_pos {A : Type} (f : A -> bool) (l : list A) (a : A) :
  In a l -> f a = true -> (1 <= List.length (filter f l))%nat.
Proof.
  intros Hin Hf.
  assert (H : In a (filter f l)) by (apply filter_In; now split).
  destruct (filter f l); [contradiction | simpl; lia].
Qed.

(** A histogram of a non-empty population has a positive total. *)
Lemma binned_total_pos (h : Histogram) (values : list Q) :
  binned h values -> values <> [] -> 0 < sum_list (histogram h).
Proof.
  intros Hb Hne. pose proof (binned_counts_nonneg h values Hb) as Hnn.
  destruct Hb as [Hin Hc].
  destruct values as [| v values]; [contradiction |].
  destruct (Hin v (or_introl eq_refl)) as (k & Hk & Hv).
  apply Qlt_le_trans with (nth k (histogram h) 0).
  - rewrite (Hc k Hk). unfold bin_count.
    apply Qlt_le_trans with (Qnat 1); [reflexivity |].
    apply Qnat_le. apply (filter_length_pos _ _ v); trivial. now left.
  - now apply sum_list_ge_nth.
Qed.

Lemma binned_below_top (h : Histogram) (values : list Q) (v : Q) :
  0 <= bucketWidth h -> binned h values -> In v values ->
  v < bin_edge h (List.length (histogram h)).
Proof.
  intros Hw [Hin _] Hv. destruct (Hin v Hv) as (k & Hk & Hb).
  unfold in_bin in Hb. apply andb_true_iff in Hb as [_ Hb].
  apply Qltb_lt in Hb.
  apply Qlt_le_trans with (bin_edge h (S k)); trivial.
  apply bin_edge_mono; trivial.
Qed.

Lemma binned_above_min (h : Histogram) (values : list Q) (v : Q) :
  0 <= bucketWidth h -> binned h values -> In v values -> bucketMin h <= v.
Proof.
  intros Hw [Hin _] Hv. destruct (Hin v Hv) as (k & Hk & Hb).
  unfold in_bin in Hb. apply andb_true_iff in Hb as [Hb _].
  apply Qle_bool_iff in Hb.
  apply Qle_trans with (bin_edge h k); trivial.
  apply Qle_trans with (bin_edge h 0).
  - rewrite bin_edge_0. apply Qle_refl.
  - apply bin_edge_mono; trivial. lia.
Qed.

Lemma find_all_false {A : Type} (f : A -> bool) (l : list A) :
  (forall a, In a l -> f a = false) -> find f l = None.
Proof.
  induction l as [| a l IH]; intro H; simpl; trivial.
  rewrite (H a (or_introl eq_refl)). apply IH.
  intros b Hb. apply H. now right.
Qed.

(** When every false bucket starts at or above the top of the true
    histogram, no bin of the scan meets the stopping test. *)
Lemma separated_never_stops (hT hF : Histogram) (i : nat) :
  0 <= bucketWidth hT -> 0 <= bucketWidth hF ->
  Forall (fun c => 0 <= c) (histogram hT) ->
  0 < sum_list (histogram hT) -> ~ sum_list (histogram hF) == 0 ->
  bin_edge hT (List.length (histogram hT)) <= bucketMin hF ->
  (i < List.length (histogram hT))%nat ->
  stops_at hT hF i = false.
Proof.
  intros HwT HwF Hnn HtT HtF Hsep Hi.
  unfold stops_at. apply andb_false_iff. left. apply Qltb_ge.
  assert (Hpf : percent_false_over hT hF i == 1).
  { unfold percent_false_over, false_mass_over.
    rewrite mass_at_or_above_above.
    - now field.
    - intros j _. simpl.
      apply Qle_trans with (bin_edge hT (List.length (histogram hT))).
      + apply (bin_edge_mono hT (i + 1)); trivial. lia.
      + apply Qle_trans with (bucketMin hF); trivial.
        apply Qle_trans with (bin_edge hF 0).
        * rewrite bin_edge_0. apply Qle_refl.
        * apply bin_edge_mono; trivial. lia. }
  rewrite Hpf. unfold percent_true_under, true_mass_through.
  apply Qle_shift_div_r; trivial.
  rewrite Qmult_1_l. now apply sum_list_firstn_le.
Qed.


Lemma wet_values_binned : binned Samples.wet_histogram Samples.wet_values.
Proof.
  split.
  - intros v Hv. simpl in Hv.
    destruct Hv as [<- | [<- | [<- | [<- | []]]]];
      [exists 0%nat | exists 0%nat | exists 0%nat | exists 1%nat];
      split; simpl; try lia; reflexivity.
  - intros [| [| k]] Hk; simpl in Hk; try lia; reflexivity.
Qed.

Lemma dry_values_binned : binned Samples.dry_histogram Samples.dry_values.
Proof.
  split.
  - intros v Hv. simpl in Hv.
    destruct Hv as [<- | [<- | []]]; exists 0%nat;
      split; simpl; try lia; reflexivity.
  - intros [| k] Hk; simpl in Hk; try lia; reflexivity.
Qed.

Lemma dry_above_wet (v f : Q) :
  In v Samples.wet_values -> In f Samples.dry_values -> v < f.
Proof.
  simpl. intros [<- | [<- | [<- | [<- | []]]]] [<- | [<- | []]]; reflexivity.
Qed.



(** ** Pixel-wise facts about rasters *)

Lemma clampQ_bounds (low high x : Q) :
  low <= high -> low <= clampQ low high x /\ clampQ low high x <= high.
Proof.
  intro H. unfold clampQ.
  destruct (Qltb x low) eqn:E1.
  - split; [apply Qle_refl | exact H].
  - apply Qltb_ge in E1. destruct (Qltb high x) eqn:E2.
    + split; [exact H | apply Qle_refl].
    + apply Qltb_ge in E2. split; assumption.
Qed.

Lemma clampQ_inside (low high x : Q) :
  low <= x -> x <= high -> clampQ low high x = x.
Proof.
  intros H1 H2. unfold clampQ.
  destruct (Qltb x low) eqn:E1; [apply Qltb_lt in E1; exfalso; lra |].
  destruct (Qltb high x) eqn:E2; [apply Qltb_lt in E2; exfalso; lra |].
  reflexivity.
Qed.

Lemma clampQ_above (low high x : Q) :
  low <= high -> high <= x -> clampQ low high x == high.
Proof.
  intros H1 H2. unfold clampQ.
  destruct (Qltb x low) eqn:E1; [apply Qltb_lt in E1; exfalso; lra |].
  destruct (Qltb high x) eqn:E2; [reflexivity |].
  apply Qltb_ge in E2. apply Qle_antisym; assumption.
Qed.

Lemma clampQ_below (low high x : Q) :
  low <= high -> x <= low -> clampQ low high x == low.
Proof.
  intros H0 H. unfold clampQ.
  destruct (Qltb x low) eqn:E1; [reflexivity |].
  apply Qltb_ge in E1.
  destruct (Qltb high x) eqn:E2.
  - apply Qltb_lt in E2. exfalso. lra.
  - apply Qle_antisym; assumption.
Qed.

(** Every band of a clamped image holds fractions. *)
Lemma clamp_in_unit_interval (img : image) (p : pixel) :
  Forall (fun nb => in_unit_interval (snd nb p)) (clamp 0 1 img).
Proof.
  unfold clamp, unop. apply Forall_map. apply Forall_forall.
  intros [n x] _. simpl. unfold lift1. destruct (x p) as [v |]; simpl; trivial.
  apply clampQ_bounds. lra.
Qed.

Lemma select_as_Forall (P : band -> Prop) (name newName : string) (img : image) :
  Forall (fun nb => P (snd nb)) img ->
  Forall (fun nb => P (snd nb)) (select_as name newName img).
Proof.
  intro H. unfold select_as, select. apply Forall_map. simpl.
  apply Forall_forall. intros nb Hin. apply filter_In in Hin as [Hin _].
  rewrite Forall_forall in H. now apply H.
Qed.

(** ** The DNNS algorithms *)

Section DnnsProperties.
Context {engine : RasterEngine} {cmt : Collaborators}.

(** Both strategies produce single-band class masks. *)
Lemma pure_classes_single (domain : Domain) (b : Bands) (use_modis_diff : bool)
    (pureWater pureLand : image) :
  pure_classes domain b use_modis_diff = Ok (pureWater, pureLand) ->
  exists n1 w n2 l, pureWater = [(n1, w)] /\ pureLand = [(n2, l)].
Proof.
  unfold pure_classes. destruct use_modis_diff.
  - destruct (unflooded_domain domain); simpl; [| discriminate].
    destruct (compute_binary_threshold _ _ _ _) as [[t | lo hi] | e]; simpl;
      try discriminate.
    intro H. injection H as <- <-. eexists _, _, _, _. split; reflexivity.
  - intro H. injection H as <- <-. eexists _, _, _, _. split; reflexivity.
Qed.

Lemma average_image_single (n : string) (w : band) (d0 : Domain)
    (region : Region) :
  exists a1 a2 a6,
    average_image [(n, w)] (composite_image (compute_modis_indices d0)) region
    = Ok (constants [a1; a2; a6]).
Proof.
  unfold average_image, composite_image. cbn.
  eexists _, _, _. reflexivity.
Qed.

(** On the bands of [compute_modis_indices] the clamped inversion is a single
    band named [sum_2]. *)
Lemma mixture_fraction_single (n1 : string) (w : band) (d0 : Domain)
    (a1 a2 a6 l1 l2 l6 : Q) :
  let b := compute_modis_indices d0 in
  let ref := pureWaterRef [(n1, w)] (composite_image b) (constants [a1; a2; a6]) in
  exists x,
    mixture_fraction b ref (meanPureLand b ref (constants [l1; l2; l6]))
    = [("sum_2"%string, x)].
Proof.
  cbv zeta.
  unfold mixture_fraction, meanPureLand, meanNearbyLand, numNearbyLandPixels,
    reduce_sum.
  cbn -[pureWaterRef nearbyLandPixels neighborhoodToBands].
  unfold pureWaterRef, pureWaterRef_local, pureWaterCount, composite_image.
  cbn -[nearbyLandPixels neighborhoodToBands lift2 lift1].
  eexists. reflexivity.
Qed.

Lemma dnns_mixture_single (domain d0 : Domain) (use_modis_diff : bool)
    (pureWater pureLand water_fraction : image) :
  dnns_mixture domain (compute_modis_indices d0) use_modis_diff
  = Ok (pureWater, pureLand, water_fraction) ->
  exists n1 w n2 l x,
    pureWater = [(n1, w)] /\ pureLand = [(n2, l)]
    /\ water_fraction = [("sum_2"%string, x)].
Proof.
  unfold dnns_mixture.
  destruct (pure_classes domain _ use_modis_diff) as [[pw pl] | e] eqn:E;
    simpl; [| discriminate].
  destruct (pure_classes_single _ _ _ _ _ E) as (n1 & w & n2 & l & -> & ->).
  destruct (average_image_single n1 w d0 (bounds domain)) as (a1 & a2 & a6 & ->).
  destruct (average_image_single n2 l d0 (bounds domain)) as (l1 & l2 & l6 & ->).
  simpl bind. intro H. injection H as <- <- <-.
  destruct (mixture_fraction_single n1 w d0 a1 a2 a6 l1 l2 l6) as (x & Hx).
  exists n1, w, n2, l, x. repeat split. exact Hx.
Qed.

(** C1.  Whatever the input bands and the strategy, every pixel of the
    raster returned by [dnns] (hence by [dnns_diff]) that holds a value
    holds one in [0,1]: the result is the output of the final clamp. *)
Theorem dnns_fraction_in_unit_interval (domain : Domain) (b : Bands)
    (use_modis_diff : bool) (img : image) :
  dnns domain b use_modis_diff = Ok img ->
  forall p, Forall (fun nb => in_unit_interval (snd nb p)) img.
Proof.
  unfold dnns.
  destruct (dnns_mixture domain b use_modis_diff) as [[[pw pl] wf] | e];
    simpl; [| discriminate].
  intros H p. injection H as <-.
  apply (select_as_Forall (fun x => in_unit_interval (x p))).
  apply clamp_in_unit_interval.
Qed.

Corollary dnns_diff_fraction_in_unit_interval (domain : Domain) (b : Bands)
    (img : image) :
  dnns_diff domain b = Ok img ->
  forall p, Forall (fun nb => in_unit_interval (snd nb p)) img.
Proof.
  unfold dnns_diff, dnns.
  destruct (dnns_mixture domain b true) as [[[pw pl] wf] | e];
    simpl; [| discriminate].
  intros H p. injection H as <-.
  apply (select_as_Forall (fun x => in_unit_interval (x p))).
  apply clamp_in_unit_interval.
Qed.

(** The fraction before pinning is clamped as well. *)
Lemma mixture_fraction_in_unit_interval (b : Bands) (ref land : image)
    (p : pixel) :
  Forall (fun nb => in_unit_interval (snd nb p)) (mixture_fraction b ref land).
Proof. apply clamp_in_unit_interval. Qed.

(** C2.  At a pixel where the fraction before pinning lies in [0,1], [dnns]
    returns exactly 1 when the pure-water indicator is 1 and the pure-land
    indicator 0, and exactly 0 when the pure-land indicator is 1 and the
    pure-water indicator 0. *)
Theorem pinned_pure_pixels (domain d0 : Domain) (use_modis_diff : bool)
    (pureWater pureLand water_fraction : image) (p : pixel) (f a c : Q) :
  dnns_mixture domain (compute_modis_indices d0) use_modis_diff
  = Ok (pureWater, pureLand, water_fraction) ->
  value_at water_fraction p = Some f -> 0 <= f /\ f <= 1 ->
  value_at pureWater p = Some a ->
  value_at pureLand p = Some c ->
  exists img v,
    dnns domain (compute_modis_indices d0) use_modis_diff = Ok img
    /\ value_at img p = Some v
    /\ (a == 1 -> c == 0 -> v == 1)
    /\ (a == 0 -> c == 1 -> v == 0).
Proof.
  intros Hmix Hf [Hf0 Hf1] Ha Hc.
  destruct (dnns_mixture_single _ _ _ _ _ _ Hmix)
    as (n1 & w & n2 & l & x & -> & -> & ->).
  simpl in Hf, Ha, Hc.
  unfold dnns. rewrite Hmix. simpl bind.
  eexists. exists (clampQ 0 1 (f + a - c)).
  split; [reflexivity |]. split.
  - cbn. unfold lift1, lift2. rewrite Hf, Ha, Hc. reflexivity.
  - split; intros Ea Ec.
    + apply clampQ_above; lra.
    + apply clampQ_below; lra.
Qed.

Lemma average_high_single (d x : band) (n : string) :
  exists ah,
    average_high [("elevation"%string, d)] [(n, x)]
    = [("elevation"%string, ah)].
Proof. unfold average_high. cbn. eexists. reflexivity. Qed.

(** The last two lines of [dnns_dem] at one pixel. *)
Lemma classify_dem_pixel (d ah x : band) (n : string) (p : pixel) (f : Q) :
  x p = Some f ->
  (f == 0 ->
   value_at (classify_dem [("elevation"%string, d)]
                          [("elevation"%string, ah)] [(n, x)]) p = None)
  /\ (f == 1 ->
      exists u,
        value_at (classify_dem [("elevation"%string, d)]
                               [("elevation"%string, ah)] [(n, x)]) p = Some u
        /\ u == 1).
Proof.
  intro Hf. cbn. unfold lift2, mask_band. cbv beta. rewrite Hf.
  split; intro E.
  - unfold truthy at 1. rewrite (Qeq_eq_bool _ _ E). reflexivity.
  - assert (E0 : truthy f = true).
    { unfold truthy. destruct (Qeq_bool f 0) eqn:E0; trivial.
      apply Qeq_bool_eq in E0. exfalso. lra. }
    rewrite E0, (Qeq_eq_bool _ _ E).
    eexists. split; [reflexivity |].
    match goal with
    | |- Qbool (?t || ?u) == 1 =>
        change u with true; rewrite orb_true_r; reflexivity
    end.
Qed.

(** C7.  [dnns_dem] at a fine pixel whose coarse cell holds the fraction
    [f]: with [f] = 0 the pixel is masked out of the result and so not
    flooded; with [f] = 1 it is flooded, whatever the elevation and the
    water level. *)
Theorem dem_refinement_extremes (domain : Domain) (b : Bands)
    (use_modis_diff : bool) (water_fraction : image) (p : pixel) (f : Q) :
  dnns domain b use_modis_diff = Ok water_fraction ->
  value_at water_fraction (coarse_cell p) = Some f ->
  exists flood_mask,
    dnns_dem domain b use_modis_diff = Ok flood_mask
    /\ (f == 0 -> value_at flood_mask p = None /\ ~ flooded flood_mask p)
    /\ (f == 1 ->
        flooded flood_mask p
        /\ exists v, value_at flood_mask p = Some v /\ v == 1).
Proof.
  intros Hdnns Hf.
  destruct water_fraction as [| [n x] [| ? ?]]; try discriminate Hf.
  simpl in Hf.
  unfold dnns_dem. rewrite Hdnns. cbv beta iota zeta delta [bind].
  pose (x' := (fun q => x (coarse_cell q)) : band).
  change (resample [(n, x)]) with [(n, x')].
  destruct (average_high_single (dem_image domain) x' n) as (ah & ->).
  eexists. split; [reflexivity |].
  destruct (classify_dem_pixel (dem_image domain) ah x' n p f Hf) as [H0 H1].
  split; intro E.
  - specialize (H0 E).
    split; [exact H0 |]. intros (v & Hv & _). rewrite H0 in Hv. discriminate.
  - destruct (H1 E) as (u & Hu & Eu).
    split.
    + exists u. split; [exact Hu |]. intro Z. rewrite Z in Eu. discriminate Eu.
    + exists u. split; assumption.
Qed.

End DnnsProperties.

(** C1 on the pond: the call returns a raster, and its pixel at the pond
    holds 1. *)
Lemma dnns_fraction_in_unit_interval_witness :
  exists img,
    Samples.pond_fraction = Ok img
    /\ Forall (fun nb => in_unit_interval (snd nb (0, 0)%Z)) img
    /\ value_at img (0, 0)%Z = Some 1.
Proof.
  eexists. split; [reflexivity |]. split.
  - apply (dnns_fraction_in_unit_interval
             (engine := Samples.enumerating_engine 1)
             (cmt := Samples.sample_collaborators)
             Samples.pond_domain Samples.pond_bands false).
    reflexivity.
  - vm_compute. reflexivity.
Defined.

(** C2 on the pond: the pond pixel is pure water and comes out as 1, the
    corner (2, 2) is pure land and comes out as 0. *)
Lemma pinned_pure_pixels_witness :
  (exists img v,
      Samples.pond_fraction = Ok img
      /\ value_at img (0, 0)%Z = Some v
      /\ (1 == 1 -> 0 == 0 -> v == 1)
      /\ (1 == 0 -> 0 == 1 -> v == 0))
  /\ (exists img v,
        Samples.pond_fraction = Ok img
        /\ value_at img (2, 2)%Z = Some v
        /\ (0 == 1 -> 1 == 0 -> v == 1)
        /\ (0 == 0 -> 1 == 1 -> v == 0)).
Proof.
  split.
  - eapply (pinned_pure_pixels
              (engine := Samples.enumerating_engine 1)
              (cmt := Samples.sample_collaborators)
              Samples.pond_domain Samples.pond_domain false _ _ _
              (0, 0)%Z (103219200 # 103219200) 1 0).
    + reflexivity.
    + vm_compute. reflexivity.
    + split; intro H; vm_compute in H; discriminate H.
    + vm_compute. reflexivity.
    + vm_compute. reflexivity.
  - eapply (pinned_pure_pixels
              (engine := Samples.enumerating_engine 1)
              (cmt := Samples.sample_collaborators)
              Samples.pond_domain Samples.pond_domain false _ _ _
              (2, 2)%Z (0 # 1612800) 0 1).
    + reflexivity.
    + vm_compute. reflexivity.
    + split; intro H; vm_compute in H; discriminate H.
    + vm_compute. reflexivity.
    + vm_compute. reflexivity.
Defined.

(** C7 on the pond: the fine pixel (7, 0) lies in the pond cell, whose
    fraction is 1; the fine pixel (8, 0) lies in the next cell, whose
    fraction is 0. *)
Lemma dem_refinement_extremes_witness :
  (exists flood_mask,
      @dnns_dem (Samples.enumerating_engine 1) Samples.sample_collaborators
                Samples.pond_domain Samples.pond_bands false = Ok flood_mask
      /\ (1 == 0 ->
          value_at flood_mask (7, 0)%Z = None
          /\ ~ flooded flood_mask (7, 0)%Z)
      /\ (1 == 1 ->
          flooded flood_mask (7, 0)%Z
          /\ exists v, value_at flood_mask (7, 0)%Z = Some v /\ v == 1))
  /\ (exists flood_mask,
        @dnns_dem (Samples.enumerating_engine 1) Samples.sample_collaborators
                  Samples.pond_domain Samples.pond_bands false = Ok flood_mask
        /\ (0 == 0 ->
            value_at flood_mask (8, 0)%Z = None
            /\ ~ flooded flood_mask (8, 0)%Z)
        /\ (0 == 1 ->
            flooded flood_mask (8, 0)%Z
            /\ exists v, value_at flood_mask (8, 0)%Z = Some v /\ v == 1)).
Proof.
  split.
  - eapply (dem_refinement_extremes
              (engine := Samples.enumerating_engine 1)
              (cmt := Samples.sample_collaborators)
              Samples.pond_domain Samples.pond_bands false _ (7, 0)%Z 1).
    + reflexivity.
    + vm_compute. reflexivity.
  - eapply (dem_refinement_extremes
              (engine := Samples.enumerating_engine 1)
              (cmt := Samples.sample_collaborators)
              Samples.pond_domain Samples.pond_bands false _ (8, 0)%Z 0).
    + reflexivity.
    + vm_compute. reflexivity.
Defined.

(** ** The reference spectra *)

Lemma truthy_false_iff (x : Q) : truthy x = false <-> x == 0.
Proof.
  unfold truthy. destruct (Qeq_bool x 0) eqn:E; simpl.
  - apply Qeq_bool_eq in E. tauto.
  - apply Qeq_bool_neq in E. split; [discriminate | contradiction].
Qed.

(** Without enough support the reference is the global mean. *)
Lemma water_ref_value_unsupported (s c a : Q) :
  c < MIN_PUREWATER_NEARBY ->
  water_ref_value s c a == blend (s / c) a false.
Proof.
  intro H. unfold water_ref_value, blend. cbv zeta.
  assert (E : Qle_bool MIN_PUREWATER_NEARBY c = false).
  { destruct (Qle_bool _ c) eqn:E; trivial.
    apply Qle_bool_iff in E. exfalso. lra. }
  rewrite E. change (Qbool false) with 0.
  assert (Z : s * 0 / c == 0) by (unfold Qdiv; ring).
  assert (T : truthy (s * 0 / c) = false) by now apply truthy_false_iff.
  rewrite T, Z. simpl. ring.
Qed.

(** With support and a nonzero window mean it is the window mean. *)
Lemma water_ref_value_supported (s c a : Q) :
  MIN_PUREWATER_NEARBY <= c -> ~ s / c == 0 ->
  water_ref_value s c a == blend (s / c) a true.
Proof.
  intros H Hnz. unfold water_ref_value, blend. cbv zeta.
  rewrite (proj2 (Qle_bool_iff _ _) H). change (Qbool true) with 1.
  assert (L : s * 1 / c == s / c) by (unfold Qdiv; ring).
  assert (T : truthy (s * 1 / c) = true).
  { destruct (truthy (s * 1 / c)) eqn:T; trivial.
    apply truthy_false_iff in T. rewrite L in T. contradiction. }
  rewrite T, L. simpl. ring.
Qed.

(** With support and a window mean of exactly 0 the second assignment adds
    the global mean all the same. *)
Lemma water_ref_value_zero_mean (s c a : Q) :
  MIN_PUREWATER_NEARBY <= c -> s / c == 0 ->
  water_ref_value s c a == a.
Proof.
  intros H Hz. unfold water_ref_value. cbv zeta.
  rewrite (proj2 (Qle_bool_iff _ _) H). change (Qbool true) with 1.
  assert (L : s * 1 / c == 0) by (rewrite <- Hz; unfold Qdiv; ring).
  rewrite (proj2 (truthy_false_iff _) L), L. simpl. ring.
Qed.

(** [meanPureLand] selects by the count itself. *)
Lemma land_ref_value_blend (m n g : Q) :
  land_ref_value m n g == blend m g (Qle_bool MIN_PURE_NEARBY n).
Proof.
  unfold land_ref_value, blend.
  destruct (Qle_bool MIN_PURE_NEARBY n) eqn:E.
  - apply Qle_bool_iff in E. rewrite (proj2 (Qltb_ge _ _) E). simpl. ring.
  - assert (L : Qltb n MIN_PURE_NEARBY = true).
    { apply Qltb_lt. apply Qnot_le_lt. intro H.
      apply Qle_bool_iff in H. congruence. }
    rewrite L. simpl. ring.
Qed.

Section ReferenceSpectra.
Context {engine : RasterEngine}.

(** The first band of [pureWaterRef], pixel by pixel. *)
Lemma pureWaterRef_b01_pixel (n : string) (w : band) (d0 : Domain)
    (a1 a2 a6 : Q) (p : pixel) :
  value_at
    (select "sur_refl_b01"
       (pureWaterRef [(n, w)] (composite_image (compute_modis_indices d0))
                     (constants [a1; a2; a6]))) p
  = match convolve_band kernel (lift2 Qmult w (sur_refl_b01 (modis d0))) p,
          convolve_band kernel w p with
    | Some s, Some c => Some (water_ref_value s c a1)
    | _, _ => None
    end.
Proof.
  cbn. unfold lift2, lift1, water_ref_value. cbv zeta.
  destruct (convolve_band kernel _ p) as [s |];
    destruct (convolve_band kernel w p) as [c |]; reflexivity.
Qed.

(** The band-6 component of [meanPureLand], pixel by pixel. *)
Lemma meanPureLand_sum_2_pixel (b : Bands) (ref : image) (l1 l2 l6 : Q)
    (p : pixel) :
  value_at (select "sum_2" (meanPureLand b ref (constants [l1; l2; l6]))) p
  = match
      value_at (divide (reduce_sum
                          (multiply (neighborhoodToBands kernel (b6 b))
                                    (nearbyLandPixels b ref)))
                       (numNearbyLandPixels b ref)) p,
      value_at (numNearbyLandPixels b ref) p
    with
    | Some m, Some k => Some (land_ref_value m k l6)
    | _, _ => None
    end.
Proof.
  unfold meanPureLand, meanNearbyLand, numNearbyLandPixels, reduce_sum.
  cbn -[nearbyLandPixels neighborhoodToBands].
  unfold lift2, land_ref_value.
  destruct (reduce_sum_bands (map snd (multiply _ _)) p) as [s |];
    destruct (reduce_sum_bands (map snd (nearbyLandPixels b ref)) p) as [k |];
    reflexivity.
Qed.

End ReferenceSpectra.

(** C8.  On the strip, the pixel at the origin has one pure-water pixel in
    its window (itself), so the support condition holds, and the window mean
    of band 1 is 0; the global band-1 mean of pure water is 50.  The second
    assignment to [pureWaterRef] adds the global mean wherever the first
    one is zero, so the reference holds 50 there instead of the window
    mean. *)
Theorem pureWaterRef_zero_mean_takes_global :
  exists averageWaterImage ref,
    Samples.strip_averageWater = Ok averageWaterImage
    /\ value_at (select "constant" averageWaterImage) (0, 0)%Z = Some (100 # 2)
    /\ value_at (@pureWaterCount (Samples.enumerating_engine 40)
                                 Samples.strip_pureWater) (0, 0)%Z
       = Some MIN_PUREWATER_NEARBY
    /\ value_at
         (select "sur_refl_b01"
            (@pureWaterRef_local (Samples.enumerating_engine 40)
               Samples.strip_pureWater
               (composite_image Samples.strip_bands))) (0, 0)%Z
       = Some 0
    /\ value_at
         (select "sur_refl_b01"
            (@pureWaterRef (Samples.enumerating_engine 40)
               Samples.strip_pureWater
               (composite_image Samples.strip_bands)
               averageWaterImage)) (0, 0)%Z
       = Some ref
    /\ ref == 50
    /\ ~ ref == blend 0 50 true.
Proof.
  eexists. exists (100 # 2).
  split; [reflexivity |].
  repeat split; try (vm_compute; reflexivity).
  intro H. vm_compute in H. discriminate H.
Qed.

(** * Further properties *)

Import Positions.

(** ** Outcomes of [compute_binary_threshold] *)

Lemma zero_false_total_raises (hT hF : Histogram) (mixed_thresholds : bool) :
  histogram hT <> [] -> py_sum (histogram hF) == 0 ->
  compute_binary_threshold_from_histograms hT hF mixed_thresholds
  = Raise ZeroDivisionError.
Proof.
  intros Hne Hz. unfold compute_binary_threshold_from_histograms.
  destruct (histogram hT) as [| c rest] eqn:E; [contradiction |].
  rewrite scan_cons. cbv zeta.
  match goal with
  | |- context [py_div (true_sum ?s) ?t] =>
      destruct (py_div_cases (true_sum s) t) as [[_ ->] | [_ ->]]
  end; simpl; trivial.
  now rewrite (py_div_zero _ _ Hz).
Qed.

(** In single-threshold mode the loop cannot fail once both totals are
    nonzero, and it leaves [i] at one of the bins it was given. *)
Lemma scan_single_total (hT hF : Histogram) (tt ft : Q) :
  ~ tt == 0 -> ~ ft == 0 ->
  forall bins k st,
  exists st',
    scan false hT hF tt ft bins k st = Ok st'
    /\ (bins = [] -> st' = st)
    /\ (bins <> [] ->
        exists i, loop_i st' = Some i
                  /\ (k <= i < k + List.length bins)%nat).
Proof.
  intros Ht Hf. induction bins as [| c rest IH]; intros k st.
  - exists st. repeat split; trivial. intro H. contradiction.
  - rewrite scan_cons. cbv zeta.
    rewrite (py_div_Ok _ _ Ht), (py_div_Ok _ _ Hf). simpl bind.
    destruct (_ && _).
    + eexists. split; [reflexivity |]. split; [discriminate |].
      intros _. exists k. split; [apply advance_indices | simpl; lia].
    + destruct (IH (S k) (advance hT hF k c st)) as (st' & Hs & Hnil & Hcons).
      exists st'. split; [exact Hs |]. split; [discriminate |].
      intros _. destruct rest as [| c' rest'].
      * rewrite (Hnil eq_refl). exists k.
        split; [apply advance_indices | simpl; lia].
      * destruct Hcons as (i & Hi & Hr); [discriminate |].
        exists i. split; [exact Hi | simpl in *; lia].
Qed.

(** With a true bin and nonzero totals single-threshold mode returns the
    midpoint of one of the true bins. *)
Lemma single_threshold_returns (hT hF : Histogram) :
  histogram hT <> [] ->
  ~ py_sum (histogram hT) == 0 -> ~ py_sum (histogram hF) == 0 ->
  exists i,
    (i < List.length (histogram hT))%nat
    /\ compute_binary_threshold_from_histograms hT hF false
       = Ok (Threshold (bin_mid hT i)).
Proof.
  intros Hne Ht Hf.
  destruct (scan_single_total hT hF _ _ Ht Hf (histogram hT) 0
              (initial_state (py_sum (histogram hF))))
    as (st' & Hs & _ & Hcons).
  destruct (Hcons Hne) as (i & Hi & Hr).
  exists i. split; [lia |].
  unfold compute_binary_threshold_from_histograms.
  rewrite Hs. simpl. rewrite Hi. reflexivity.
Qed.



(** ** The bins picked in mixed-threshold mode *)

Lemma sums_trace_length (hT hF : Histogram) (bins : list Q) :
  forall k st, List.length (sums_trace hT hF bins k st) = List.length bins.
Proof.
  induction bins as [| c rest IH]; intros k st; simpl; [| rewrite IH];
    reflexivity.
Qed.

Lemma first_index_bounds {A : Type} (f : A -> bool) (l : list A) :
  forall k j, first_index f l k = Some j ->
              (k <= j < k + List.length l)%nat.
Proof.
  induction l as [| a l IH]; intros k j; simpl; [discriminate |].
  destruct (f a).
  - intro H. injection H as <-. lia.
  - intro H. apply IH in H. lia.
Qed.

Lemma last_index_bounds {A : Type} (f : A -> bool) (l : list A) :
  forall k j, last_index f l k = Some j ->
              (k <= j < k + List.length l)%nat.
Proof.
  induction l as [| a l IH]; intros k j; simpl; [discriminate |].
  destruct (last_index f l (S k)) as [i |] eqn:E.
  - intro H. injection H as <-. apply IH in E. lia.
  - destruct (f a); [| discriminate]. intro H. injection H as <-. lia.
Qed.

(** What the loop leaves in the two indices, read off the running sums. *)
Lemma scan_mixed_indices (hT hF : Histogram) (tt ft : Q) (bins : list Q) :
  forall k st s st',
    same_sums st s ->
    scan true hT hF tt ft bins k st = Ok st' ->
    lower_mixed_index st' =
      match last_index (lower_met ft) (sums_trace hT hF bins k s) k with
      | Some j => Some j
      | None => lower_mixed_index st
      end
    /\ upper_mixed_index st' =
         match upper_mixed_index st with
         | Some u => Some u
         | None => first_index (upper_met tt) (sums_trace hT hF bins k s) k
         end.
Proof.
  induction bins as [| c rest IH]; intros k st s st' Hs.
  - simpl. intro H. injection H as <-.
    split; trivial. destruct (upper_mixed_index st); reflexivity.
  - rewrite scan_cons. cbv zeta.
    destruct (py_div _ tt); simpl; [| discriminate].
    destruct (py_div _ ft); simpl; [| discriminate].
    destruct (mixed_tests tt ft k _) as [st2 | e'] eqn:E; simpl; [| discriminate].
    apply mixed_tests_Ok in E as (Hs2 & Hl2 & Hu2).
    pose proof (advance_same_sums hT hF k c _ _ Hs) as Hs1.
    destruct (advance_indices hT hF k c st) as (Hl1 & Hu1 & _).
    rewrite (lower_met_same _ _ _ Hs1), Hl1 in Hl2.
    rewrite (upper_met_same _ _ _ Hs1), Hu1 in Hu2.
    intro Hscan.
    assert (Hs2' : same_sums st2 (advance hT hF k c s)).
    { destruct Hs2 as (A & B & C), Hs1 as (A' & B' & C').
      repeat split; congruence. }
    destruct (IH (S k) st2 _ st' Hs2' Hscan) as [Hl Hu].
    split.
    + rewrite Hl, Hl2.
      destruct (last_index _ _ (S k)); trivial.
      destruct (lower_met ft _); reflexivity.
    + rewrite Hu, Hu2.
      destruct (upper_mixed_index st); trivial.
      destruct (upper_met tt _); reflexivity.
Qed.

(** A returned pair names the last lower and the first upper bin. *)
Lemma mixed_returns_picked_bins (hT hF : Histogram) (v : threshold_value) :
  compute_binary_threshold_from_histograms hT hF true = Ok v ->
  exists l u,
    last_index (lower_met (py_sum (histogram hF))) (scan_sums hT hF) 0 = Some l
    /\ first_index (upper_met (py_sum (histogram hT))) (scan_sums hT hF) 0
       = Some u
    /\ v = (if Qltb (bin_mid hT u) (bin_mid hT l)
            then Thresholds (bin_mid hT u) (bin_mid hT l)
            else Thresholds (bin_mid hT l) (bin_mid hT u)).
Proof.
  unfold compute_binary_threshold_from_histograms.
  destruct (scan true hT hF _ _ (histogram hT) 0 _) as [st | e] eqn:Hscan;
    simpl; [| discriminate].
  destruct (scan_mixed_indices hT hF _ _ _ 0 _ _ st (same_sums_refl _) Hscan)
    as [Hl Hu].
  simpl in Hl, Hu. fold (scan_sums hT hF) in Hl, Hu.
  destruct (lower_mixed_index st) as [l |]; simpl; [| discriminate].
  destruct (upper_mixed_index st) as [u |]; simpl; [| discriminate].
  intro H. exists l, u.
  destruct (last_index _ _ 0); [| discriminate]. injection Hl as ->.
  rewrite <- Hu. repeat split.
  destruct (Qltb _ _); now injection H as <-.
Qed.





(** In single-threshold mode a loop that ran leaves [i] bound. *)
Lemma scan_single_binds_i (hT hF : Histogram) (tt ft : Q) (bins : list Q) :
  forall k st st',
    bins <> [] ->
    scan false hT hF tt ft bins k st = Ok st' ->
    loop_i st' <> None.
Proof.
  induction bins as [| c rest IH]; intros k st st' Hne; [contradiction |].
  rewrite scan_cons. cbv zeta.
  destruct (py_div _ tt); simpl; [| discriminate].
  destruct (py_div _ ft); simpl; [| discriminate].
  destruct (_ && _).
  - intro H. injection H as <-.
    destruct (advance_indices hT hF k c st) as (_ & _ & _ & ->). discriminate.
  - destruct rest as [| c' rest'].
    + simpl. intro H. injection H as <-.
      destruct (advance_indices hT hF k c st) as (_ & _ & _ & ->). discriminate.
    + apply IH. discriminate.
Qed.

(** X4.  The only ways the threshold search fails: a division by zero in
    the loop, in mixed mode a [TypeError] on an index left unset, and in
    single mode an unbound loop variable when the true histogram has no
    bin. *)
Theorem threshold_errors (hT hF : Histogram) (mixed_thresholds : bool)
    (e : exn) :
  compute_binary_threshold_from_histograms hT hF mixed_thresholds = Raise e ->
  e = ZeroDivisionError
  \/ (mixed_thresholds = true /\ e = TypeError)
  \/ (mixed_thresholds = false /\ e = UnboundLocalError
      /\ histogram hT = []).
Proof.
  unfold compute_binary_threshold_from_histograms.
  destruct (scan mixed_thresholds hT hF _ _ (histogram hT) 0 _)
    as [st | e'] eqn:Hscan; simpl.
  - destruct mixed_thresholds.
    + destruct (lower_mixed_index st); simpl.
      * destruct (upper_mixed_index st); simpl.
        -- destruct (Qltb _ _); discriminate.
        -- intro H. injection H as <-. right. left. now split.
      * intro H. injection H as <-. right. left. now split.
    + destruct (loop_i st) eqn:Ei; [discriminate |].
      intro H. injection H as <-. right. right. repeat split.
      destruct (histogram hT) as [| c rest] eqn:E; trivial.
      exfalso.
      refine (scan_single_binds_i hT hF _ _ (c :: rest) 0 _ st _ Hscan Ei).
      discriminate.
  - intro H. injection H as <-. left. now apply scan_Raise in Hscan.
Qed.

Lemma threshold_errors_witness :
  TypeError = ZeroDivisionError
  \/ (true = true /\ TypeError = TypeError)
  \/ (true = false /\ TypeError = UnboundLocalError
      /\ histogram Samples.no_lower_true = []).
Proof.
  apply (threshold_errors Samples.no_lower_true Samples.no_lower_false true).
  vm_compute. reflexivity.
Defined.

(** ** Mixed-threshold mode on separated histograms *)

(** At every iteration the running sums are the two masses of the
    specification. *)
Lemma sums_trace_closed_form (hT hF : Histogram) :
  0 <= bucketWidth hT -> 0 <= bucketWidth hF ->
  forall bins pre st,
    histogram hT = pre ++ bins ->
    scan_inv hT hF (List.length pre) st ->
    forall j s,
      nth_error (sums_trace hT hF bins (List.length pre) st) j = Some s ->
      true_sum s == true_mass_through hT (List.length pre + j)
      /\ false_sum s == false_mass_over hT hF (List.length pre + j).
Proof.
  intros HwT HwF. induction bins as [| c rest IH]; intros pre st HT Hinv j s.
  - destruct j; discriminate.
  - destruct (advance_inv hT hF pre c rest st HwT HwF HT Hinv)
      as (Hinv1 & Hts & Hfs).
    simpl sums_trace. destruct j as [| j]; simpl nth_error.
    + intro H. injection H as <-. rewrite Nat.add_0_r. now split.
    + intro H.
      specialize (IH (pre ++ [c]) (advance hT hF (List.length pre) c st)).
      rewrite length_app, Nat.add_comm in IH. simpl in IH.
      rewrite <- app_assoc in IH.
      replace (List.length pre + S j)%nat
        with (S (List.length pre + j)) by lia.
      apply IH; trivial.
Qed.

Lemma mixed_tests_total (tt ft : Q) (k : nat) (st : loop_state) :
  ~ true_sum st == 0 -> ~ false_sum st == 0 ->
  exists st', mixed_tests tt ft k st = Ok st'.
Proof.
  intros Ht Hf. unfold mixed_tests.
  rewrite (py_div_Ok _ _ Ht). simpl bind.
  destruct (Qle_bool _ _); simpl;
    (destruct (upper_mixed_index st); simpl;
     [eexists; reflexivity |]);
    rewrite (py_div_Ok _ _ Hf); simpl; eexists; reflexivity.
Qed.

(** No divisor vanishes: the mixed scan runs to its end. *)
Lemma scan_mixed_succeeds (hT hF : Histogram) (tt ft : Q) :
  ~ tt == 0 -> ~ ft == 0 ->
  forall bins k st s,
    same_sums st s ->
    Forall (fun x => ~ true_sum x == 0 /\ ~ false_sum x == 0)
           (sums_trace hT hF bins k s) ->
    exists st', scan true hT hF tt ft bins k st = Ok st'.
Proof.
  intros Ht Hf. induction bins as [| c rest IH]; intros k st s Hs Hall.
  - exists st. reflexivity.
  - rewrite scan_cons. cbv zeta. simpl in Hall.
    apply Forall_cons_iff in Hall as [[Hts Hfs] Hrest].
    rewrite (py_div_Ok _ _ Ht), (py_div_Ok _ _ Hf). simpl bind.
    pose proof (advance_same_sums hT hF k c _ _ Hs) as Hs1.
    destruct Hs1 as (A & B & C).
    destruct (mixed_tests_total tt ft k (advance hT hF k c st)) as (st2 & E).
    + now rewrite C.
    + now rewrite B.
    + rewrite E. simpl bind.
      apply mixed_tests_Ok in E as ((A' & B' & C') & _).
      apply (IH (S k) st2 (advance hT hF k c s)); trivial.
      repeat split; congruence.
Qed.

Lemma last_index_all {A : Type} (f : A -> bool) (l : list A) :
  l <> [] -> Forall (fun a => f a = true) l ->
  forall k, last_index f l k = Some (k + List.length l - 1)%nat.
Proof.
  induction l as [| a l IH]; intros Hne Hall k; [contradiction |].
  apply Forall_cons_iff in Hall as [Ha Hl]. simpl.
  destruct l as [| b l'].
  - simpl. rewrite Ha. f_equal. lia.
  - rewrite (IH ltac:(discriminate) Hl (S k)). f_equal. simpl. lia.
Qed.

Lemma first_index_exists {A : Type} (f : A -> bool) (l : list A) :
  forall j a k,
    nth_error l j = Some a -> f a = true ->
    exists u, first_index f l k = Some u /\ (u <= k + j)%nat.
Proof.
  induction l as [| b l IH]; intros j a k Hn Ha.
  - destruct j; discriminate.
  - simpl. destruct (f b) eqn:Eb.
    + exists k. split; trivial. lia.
    + destruct j as [| j]; simpl in Hn.
      * injection Hn as ->. congruence.
      * destruct (IH j a (S k) Hn Ha) as (u & Hu & Hle).
        exists u. split; trivial. lia.
Qed.

Lemma Qnat_lt (m n : nat) : (m < n)%nat -> Qnat m < Qnat n.
Proof. intro H. unfold Qnat. rewrite <- Zlt_Qlt. lia. Qed.

(** With every false bucket at or above the top of the true histogram, no
    false mass is ever below a bin edge. *)
Lemma separated_false_mass (hT hF : Histogram) (i : nat) :
  0 <= bucketWidth hT -> 0 <= bucketWidth hF ->
  bin_edge hT (List.length (histogram hT)) <= bucketMin hF ->
  (i < List.length (histogram hT))%nat ->
  false_mass_over hT hF i == sum_list (histogram hF).
Proof.
  intros HwT HwF Hsep Hi. unfold false_mass_over.
  apply mass_at_or_above_above. intros j _. simpl.
  apply Qle_trans with (bin_edge hT (List.length (histogram hT))).
  - apply (bin_edge_mono hT (i + 1)); trivial. lia.
  - apply Qle_trans with (bucketMin hF); trivial.
    apply Qle_trans with (bin_edge hF 0).
    + rewrite bin_edge_0. apply Qle_refl.
    + apply bin_edge_mono; trivial. lia.
Qed.



(** ** The bit-field decoder *)

Lemma qa_pattern_fold (n : nat) :
  forall start a,
    fold_left (fun pattern i => (pattern + 2 ^ Z.of_nat i)%Z) (seq start n) a
    = (a + 2 ^ Z.of_nat (start + n) - 2 ^ Z.of_nat start)%Z.
Proof.
  induction n as [| n IH]; intros start a; simpl.
  - rewrite Nat.add_0_r. lia.
  - rewrite IH. replace (S start + n)%nat with (start + S n)%nat by lia.
    rewrite (Nat2Z.inj_succ start), Z.pow_succ_r by lia. lia.
Qed.

(** The pattern has exactly the bits [start .. stop-1] set. *)
Lemma qa_pattern_ones (start stop : nat) :
  (start <= stop)%nat ->
  qa_pattern start stop
  = Z.shiftl (Z.ones (Z.of_nat (stop - start))) (Z.of_nat start).
Proof.
  intro H. unfold qa_pattern, range. rewrite qa_pattern_fold.
  replace (start + (stop - start))%nat with stop by lia.
  rewrite Z.shiftl_mul_pow2, Z.ones_equiv by lia.
  rewrite <- Z.sub_1_r, Z.mul_sub_distr_r, <- Z.pow_add_r by lia.
  replace (Z.of_nat (stop - start) + Z.of_nat start)%Z
    with (Z.of_nat stop) by lia.
  lia.
Qed.

Lemma getQABits_div_mod (v : Z) (start stop : nat) :
  (start <= stop)%nat ->
  ModisUtilities.getQABits v start stop
  = ((v / 2 ^ Z.of_nat start) mod 2 ^ Z.of_nat (stop - start))%Z.
Proof.
  intro H. unfold ModisUtilities.getQABits. rewrite (qa_pattern_ones _ _ H).
  rewrite Z.shiftr_land, Z.shiftr_shiftl_l by lia.
  rewrite Z.sub_diag, Z.shiftl_0_r, Z.land_ones, Z.shiftr_div_pow2 by lia.
  reflexivity.
Qed.

(** X6.  [getQABits] reads the bits [start, end): for [start <= end] the
    result is [floor(v / 2^start) mod 2^(end - start)], a value in
    [0, 2^(end - start)). *)
Theorem getQABits_field (v : Z) (start stop : nat) :
  (start <= stop)%nat ->
  getQABits v start stop
  = ((v / 2 ^ Z.of_nat start) mod 2 ^ Z.of_nat (stop - start))%Z
  /\ (0 <= getQABits v start stop < 2 ^ Z.of_nat (stop - start))%Z.
Proof.
  intro H.
  pose proof (getQABits_div_mod v start stop H) as E.
  split; [exact E |]. rewrite E. apply Z.mod_pos_bound.
  apply Z.pow_pos_nonneg; lia.
Qed.

Lemma getQABits_field_witness :
  getQABits 44 2 5 = ((44 / 2 ^ Z.of_nat 2) mod 2 ^ Z.of_nat (5 - 2))%Z
  /\ (0 <= getQABits 44 2 5 < 2 ^ Z.of_nat (5 - 2))%Z.
Proof. apply getQABits_field. lia. Defined.

(** X7.  An empty or reversed bit range decodes to 0, whatever the value. *)
Theorem getQABits_empty_range (v : Z) (start stop : nat) :
  (stop <= start)%nat -> getQABits v start stop = 0%Z.
Proof.
  intro H. unfold getQABits, qa_pattern, range.
  replace (stop - start)%nat with 0%nat by lia. simpl.
  rewrite Z.land_0_r. apply Z.shiftr_0_l.
Qed.

Lemma getQABits_empty_range_witness : getQABits 65535 5 3 = 0%Z.
Proof. apply getQABits_empty_range. lia. Defined.

(** X8.  Two adjacent fields recombine: the low [stop] bits of a value are
    the field [0, start) plus [2^start] times the field [start, stop). *)
Theorem getQABits_adjacent_fields (v : Z) (start stop : nat) :
  (start <= stop)%nat ->
  (getQABits v 0 start + 2 ^ Z.of_nat start * getQABits v start stop
   = v mod 2 ^ Z.of_nat stop)%Z.
Proof.
  intro H.
  rewrite (getQABits_div_mod v 0 start ltac:(lia)).
  rewrite (getQABits_div_mod v start stop H).
  simpl (Z.of_nat 0). rewrite Z.pow_0_r, Z.div_1_r, Nat.sub_0_r.
  replace (Z.of_nat stop)
    with (Z.of_nat start + Z.of_nat (stop - start))%Z by lia.
  rewrite Z.pow_add_r by lia.
  symmetry. apply Z.rem_mul_r.
  - apply Z.pow_nonzero; lia.
  - apply Z.pow_pos_nonneg; lia.
Qed.

Lemma getQABits_adjacent_fields_witness :
  (getQABits 44 0 2 + 2 ^ Z.of_nat 2 * getQABits 44 2 5
   = 44 mod 2 ^ Z.of_nat 5)%Z.
Proof. apply getQABits_adjacent_fields. lia. Defined.

(** X9.  On a value of the unsigned 16-bit quality band the mask is bit 0
    of the value: a pixel is flagged exactly when its two-bit cloud-state
    field holds 1 or 3. *)
Theorem getModisBadPixelMask_bit0 (v : Z) :
  (0 <= v < 2 ^ 16)%Z ->
  getModisBadPixelMask v = Z.testbit v 0
  /\ getModisBadPixelMask v
     = ((cloud_state_field v =? 1) || (cloud_state_field v =? 3))%Z.
Proof.
  intro H. rewrite getModisBadPixelMask_parity, Z.bit0_odd.
  split; [reflexivity |].
  unfold cloud_state_field, uint16. rewrite (Z.mod_small v) by exact H.
  change 3%Z with (Z.ones 2). rewrite Z.land_ones by lia.
  change (2 ^ 2)%Z with 4%Z.
  assert (E : Z.odd v = Z.odd (v mod 4)).
  { rewrite (Z.div_mod v 4) at 1 by lia.
    replace (4 * (v / 4) + v mod 4)%Z
      with (v mod 4 + 2 * (2 * (v / 4)))%Z by lia.
    apply Z.odd_add_mul_2. }
  rewrite E.
  pose proof (Z.mod_pos_bound v 4 ltac:(lia)) as B.
  assert (C : (v mod 4 = 0 \/ v mod 4 = 1 \/ v mod 4 = 2 \/ v mod 4 = 3)%Z)
    by lia.
  destruct C as [-> | [-> | [-> | ->]]]; reflexivity.
Qed.

Lemma getModisBadPixelMask_bit0_witness :
  getModisBadPixelMask 1027 = Z.testbit 1027 0
  /\ getModisBadPixelMask 1027
     = ((cloud_state_field 1027 =? 1) || (cloud_state_field 1027 =? 3))%Z.
Proof. apply getModisBadPixelMask_bit0. lia. Defined.

(** ** The band indices *)

Lemma normalized_difference_bounds (x y : Q) :
  0 <= x -> 0 <= y -> -1 <= (y - x) / (y + x) /\ (y - x) / (y + x) <= 1.
Proof.
  intros Hx Hy. destruct (Qeq_dec (y + x) 0) as [Z | NZ].
  - assert (E : (y - x) / (y + x) == 0).
    { rewrite Z. unfold Qdiv. change (/ 0) with 0. ring. }
    rewrite E. split; discriminate.
  - assert (P : 0 < y + x).
    { destruct (Qlt_le_dec 0 (y + x)) as [L | G]; trivial.
      exfalso. apply NZ. lra. }
    split.
    + apply Qle_shift_div_l; trivial. lra.
    + apply Qle_shift_div_r; trivial. lra.
Qed.

(** X10.  At a pixel where bands 1, 2 and 6 hold non-negative reflectances,
    NDVI, NDWI and LSWI are the normalized differences of their two bands
    and lie in [-1, 1]; where the two bands sum to 0 the quotient is 0. *)
Theorem normalized_indices_bounded (domain : Domain) (p : pixel)
    (r1 r2 r6 : Q) :
  sur_refl_b01 (modis domain) p = Some r1 ->
  sur_refl_b02 (modis domain) p = Some r2 ->
  sur_refl_b06 (modis domain) p = Some r6 ->
  0 <= r1 -> 0 <= r2 -> 0 <= r6 ->
  let b := compute_modis_indices domain in
  value_at (NDVI b) p = Some ((r2 - r1) / (r2 + r1))
  /\ value_at (NDWI b) p = Some ((r1 - r6) / (r1 + r6))
  /\ value_at (LSWI b) p = Some ((r2 - r6) / (r2 + r6))
  /\ (-1 <= (r2 - r1) / (r2 + r1) /\ (r2 - r1) / (r2 + r1) <= 1)
  /\ (-1 <= (r1 - r6) / (r1 + r6) /\ (r1 - r6) / (r1 + r6) <= 1)
  /\ (-1 <= (r2 - r6) / (r2 + r6) /\ (r2 - r6) / (r2 + r6) <= 1).
Proof.
  intros H1 H2 H6 P1 P2 P6. cbv zeta. cbn. unfold lift2.
  rewrite H1, H2, H6.
  repeat split; try reflexivity; now apply normalized_difference_bounds.
Qed.

Lemma normalized_indices_bounded_witness :
  let b := compute_modis_indices Samples.pond_domain in
  value_at (NDVI b) (0, 0)%Z = Some ((300 - 500) / (300 + 500))
  /\ value_at (NDWI b) (0, 0)%Z = Some ((500 - 200) / (500 + 200))
  /\ value_at (LSWI b) (0, 0)%Z = Some ((300 - 200) / (300 + 200))
  /\ (-1 <= (300 - 500) / (300 + 500) /\ (300 - 500) / (300 + 500) <= 1)
  /\ (-1 <= (500 - 200) / (500 + 200) /\ (500 - 200) / (500 + 200) <= 1)
  /\ (-1 <= (300 - 200) / (300 + 200) /\ (300 - 200) / (300 + 200) <= 1).
Proof.
  apply (normalized_indices_bounded Samples.pond_domain (0, 0)%Z 500 300 200);
    try reflexivity; discriminate.
Defined.

(** ** More on the DNNS algorithms *)

Section DnnsOutcomes.
Context {engine : RasterEngine} {cmt : Collaborators}.

(** X11.  On a single-band value image and a single-band classification,
    [compute_binary_threshold] looks the two histograms up under the key
    [b1]: with a value band of another name it raises [KeyError]; with a
    band named [b1] it scans the histogram of the values where the
    classification holds against the histogram of the values where it does
    not. *)
Theorem compute_binary_threshold_key (n m : string) (x c : band)
    (region : Region) (mixed_thresholds : bool) :
  (n <> "b1"%string ->
   compute_binary_threshold [(n, x)] [(m, c)] region mixed_thresholds
   = Raise KeyError)
  /\ (n = "b1"%string ->
      compute_binary_threshold [(n, x)] [(m, c)] region mixed_thresholds
      = compute_binary_threshold_from_histograms
          (region_histogram NUM_BINS (mask_band x c) region SCALE)
          (region_histogram NUM_BINS
             (mask_band x (lift1 (fun v => Qbool (negb (truthy v))) c))
             region SCALE)
          mixed_thresholds).
Proof.
  unfold compute_binary_threshold. cbn. split; intro H.
  - apply String.eqb_neq in H. rewrite H. reflexivity.
  - apply String.eqb_eq in H. rewrite H. reflexivity.
Qed.

(** Once the two class masks exist, nothing in [dnns] can fail on the
    bands of [compute_modis_indices]. *)
Lemma dnns_mixture_of_classes (domain d0 : Domain) (use_modis_diff : bool)
    (pureWater pureLand : image) :
  pure_classes domain (compute_modis_indices d0) use_modis_diff
  = Ok (pureWater, pureLand) ->
  exists water_fraction,
    dnns_mixture domain (compute_modis_indices d0) use_modis_diff
    = Ok (pureWater, pureLand, water_fraction).
Proof.
  intro E. unfold dnns_mixture. rewrite E.
  cbv beta iota zeta delta [bind fst snd].
  destruct (pure_classes_single _ _ _ _ _ E) as (n1 & w & n2 & l & -> & ->).
  destruct (average_image_single n1 w d0 (bounds domain)) as (a1 & a2 & a6 & ->).
  destruct (average_image_single n2 l d0 (bounds domain)) as (l1 & l2 & l6 & ->).
  eexists. reflexivity.
Qed.

Lemma dnns_of_mixture (domain d0 : Domain) (use_modis_diff : bool)
    (pureWater pureLand water_fraction : image) :
  dnns_mixture domain (compute_modis_indices d0) use_modis_diff
  = Ok (pureWater, pureLand, water_fraction) ->
  exists x,
    dnns domain (compute_modis_indices d0) use_modis_diff
    = Ok [("b1"%string, x)].
Proof.
  intro E.
  destruct (dnns_mixture_single _ _ _ _ _ _ E)
    as (n1 & w & n2 & l & x & -> & -> & ->).
  unfold dnns. rewrite E. cbn. eexists. reflexivity.
Qed.

(** X12.  With the classifier strategy [dnns] never fails on the bands of
    [compute_modis_indices]: every dictionary key and band name it asks for
    exists, and the result is one band named [b1]. *)
Theorem dnns_classifier_returns (domain d0 : Domain) :
  exists x, dnns domain (compute_modis_indices d0) false = Ok [("b1"%string, x)].
Proof.
  destruct (dnns_mixture_of_classes domain d0 false _ _ eq_refl) as (wf & E).
  exact (dnns_of_mixture _ _ _ _ _ _ E).
Qed.

(** X13.  With the difference strategy [dnns] fails with [AttributeError]
    when the domain has no unflooded domain, fails as the threshold search
    fails, and returns one band named [b1] whenever the threshold search
    returns. *)
Theorem dnns_diff_outcome (domain d0 : Domain) :
  let b := compute_modis_indices d0 in
  (unflooded_domain domain = None -> dnns_diff domain b = Raise AttributeError)
  /\ (forall u,
        unflooded_domain domain = Some u ->
        let search :=
          compute_binary_threshold (get_diff (compute_modis_indices u))
            get_permanent_water_mask (bounds domain) true in
        (forall e, search = Raise e -> dnns_diff domain b = Raise e)
        /\ (forall v, search = Ok v ->
              exists x, dnns_diff domain b = Ok [("b1"%string, x)])).
Proof.
  cbv zeta. split.
  - intro H. unfold dnns_diff, dnns, dnns_mixture, pure_classes.
    rewrite H. reflexivity.
  - intros u Hu. split.
    + intros e He. unfold dnns_diff, dnns, dnns_mixture, pure_classes.
      rewrite Hu. cbv beta iota zeta delta [bind]. rewrite He. reflexivity.
    + intros v Hv.
      assert (Hpair : exists lo hi, v = Thresholds lo hi).
      { unfold compute_binary_threshold in Hv.
        destruct (dict_get "b1" _) as [hF |]; simpl in Hv; [| discriminate].
        destruct (dict_get "b1" _) as [hT |]; simpl in Hv; [| discriminate].
        destruct (mixed_returns_picked_bins hT hF v Hv) as (l & i & _ & _ & ->).
        destruct (Qltb _ _); eexists _, _; reflexivity. }
      destruct Hpair as (lo & hi & ->).
      assert (Hpc : exists pw pl,
                pure_classes domain (compute_modis_indices d0) true
                = Ok (pw, pl)).
      { unfold pure_classes. rewrite Hu.
        cbv beta iota zeta delta [bind]. rewrite Hv.
        eexists _, _. reflexivity. }
      destruct Hpc as (pw & pl & Hpc).
      destruct (dnns_mixture_of_classes domain d0 true pw pl Hpc) as (wf & E).
      exact (dnns_of_mixture _ _ _ _ _ _ E).
Qed.

End DnnsOutcomes.

(** X11 on two value bands, one named [diff] and one named [b1]. *)
Lemma compute_binary_threshold_key_witness :
  @compute_binary_threshold (Samples.enumerating_engine 1)
    [("diff"%string, sur_refl_b01 (modis Samples.pond_domain))]
    Samples.reference_water (bounds Samples.pond_domain) true
  = Raise KeyError
  /\ @compute_binary_threshold (Samples.enumerating_engine 1)
       [("b1"%string, sur_refl_b01 (modis Samples.pond_domain))]
       Samples.reference_water (bounds Samples.pond_domain) true
     = compute_binary_threshold_from_histograms
         (Samples.unit_histogram NUM_BINS
            (mask_band (sur_refl_b01 (modis Samples.pond_domain))
               (fun p => Some (if ((fst p =? 0) && (snd p =? 0))%Z
                               then 1 else 0)))
            (bounds Samples.pond_domain) SCALE)
         (Samples.unit_histogram NUM_BINS
            (mask_band (sur_refl_b01 (modis Samples.pond_domain))
               (lift1 (fun v => Qbool (negb (truthy v)))
                  (fun p => Some (if ((fst p =? 0) && (snd p =? 0))%Z
                                  then 1 else 0))))
            (bounds Samples.pond_domain) SCALE)
         true.
Proof.
  split.
  - apply (proj1 (compute_binary_threshold_key
                    (engine := Samples.enumerating_engine 1) _ _ _ _ _ _)).
    discriminate.
  - apply (proj2 (compute_binary_threshold_key
                    (engine := Samples.enumerating_engine 1) _ _ _ _ _ _)).
    reflexivity.
Defined.

(** X13 on the pond: without an unflooded domain the call fails; with one,
    the threshold search returns and so does [dnns_diff]. *)
Lemma dnns_diff_outcome_witness :
  @dnns_diff (Samples.enumerating_engine 1) Samples.sample_collaborators
     Samples.pond_domain Samples.pond_bands = Raise AttributeError
  /\ exists x,
       @dnns_diff (Samples.enumerating_engine 1) Samples.sample_collaborators
          FloodSamples.flooded_pond_domain Samples.pond_bands
       = Ok [("b1"%string, x)].
Proof.
  split.
  - apply (proj1 (dnns_diff_outcome
                    (engine := Samples.enumerating_engine 1)
                    (cmt := Samples.sample_collaborators)
                    Samples.pond_domain Samples.pond_domain)).
    reflexivity.
  - eapply (proj2 (proj2 (dnns_diff_outcome
                            (engine := Samples.enumerating_engine 1)
                            (cmt := Samples.sample_collaborators)
                            FloodSamples.flooded_pond_domain
                            Samples.pond_domain)
                         Samples.pond_domain eq_refl)).
    vm_compute. reflexivity.
Defined.

(** ** Pixels of the DNNS rasters *)

Lemma Qbool_cases (b : bool) : Qbool b = 0 \/ Qbool b = 1.
Proof. destruct b; [right | left]; reflexivity. Qed.

Section DnnsPixels.
Context {engine : RasterEngine} {cmt : Collaborators}.

(** X14.  With the classifier strategy the two class masks are binary and
    never both set: no pixel is at once pure water (probability at least
    0.95) and pure land (probability at most 0.05). *)
Theorem classifier_classes_disjoint (domain : Domain) (b : Bands)
    (pureWater pureLand : image) (p : pixel) (a c : Q) :
  pure_classes domain b false = Ok (pureWater, pureLand) ->
  value_at pureWater p = Some a ->
  value_at pureLand p = Some c ->
  (a = 0 \/ a = 1) /\ (c = 0 \/ c = 1) /\ ~ (a = 1 /\ c = 1).
Proof.
  unfold pure_classes. intro H. injection H as <- <-.
  cbn. unfold lift2.
  destruct (earth_engine_classifier domain b p) as [q |]; [| discriminate].
  intros Ha Hc. injection Ha as <-. injection Hc as <-.
  split; [apply Qbool_cases |]. split; [apply Qbool_cases |].
  intros [Ha Hc].
  destruct (Qle_bool (95 # 100) q) eqn:E1; [| discriminate Ha].
  destruct (Qle_bool q (5 # 100)) eqn:E2; [| discriminate Hc].
  apply Qle_bool_iff in E1, E2. lra.
Qed.

Lemma dnns_mixture_fraction_in_unit (domain : Domain) (b : Bands)
    (use_modis_diff : bool) (pureWater pureLand water_fraction : image)
    (p : pixel) :
  dnns_mixture domain b use_modis_diff
  = Ok (pureWater, pureLand, water_fraction) ->
  Forall (fun nb => in_unit_interval (snd nb p)) water_fraction.
Proof.
  unfold dnns_mixture.
  destruct (pure_classes domain b use_modis_diff) as [[pw pl] | e]; simpl;
    [| discriminate].
  destruct (average_image pw _ _); simpl; [| discriminate].
  destruct (average_image pl _ _); simpl; [| discriminate].
  intro H. injection H as <- <- <-. apply mixture_fraction_in_unit_interval.
Qed.

(** X15.  Pinning leaves a mixed pixel alone: where the pure-water and
    pure-land indicators are equal (both 0 for a mixed pixel), [dnns] returns
    the fraction of the band-6 inversion unchanged; the second clamp is
    idempotent on the first. *)
Theorem unpinned_pixel_keeps_fraction (domain d0 : Domain)
    (use_modis_diff : bool) (pureWater pureLand water_fraction : image)
    (p : pixel) (f a c : Q) :
  dnns_mixture domain (compute_modis_indices d0) use_modis_diff
  = Ok (pureWater, pureLand, water_fraction) ->
  value_at water_fraction p = Some f ->
  value_at pureWater p = Some a ->
  value_at pureLand p = Some c ->
  a == c ->
  exists img v,
    dnns domain (compute_modis_indices d0) use_modis_diff = Ok img
    /\ value_at img p = Some v
    /\ v == f.
Proof.
  intros Hmix Hf Ha Hc Hac.
  pose proof (dnns_mixture_fraction_in_unit _ _ _ _ _ _ p Hmix) as Hunit.
  destruct (dnns_mixture_single _ _ _ _ _ _ Hmix)
    as (n1 & w & n2 & l & x & -> & -> & ->).
  simpl in Hf, Ha, Hc.
  apply Forall_inv in Hunit. simpl in Hunit. rewrite Hf in Hunit.
  destruct Hunit as [H0 H1].
  unfold dnns. rewrite Hmix. simpl bind.
  eexists. exists (clampQ 0 1 (f + a - c)).
  split; [reflexivity |]. split.
  - cbn. unfold lift1, lift2. rewrite Hf, Ha, Hc. reflexivity.
  - assert (E : f + a - c == f) by (rewrite Hac; ring).
    unfold clampQ.
    destruct (Qltb (f + a - c) 0) eqn:E1.
    + apply Qltb_lt in E1. lra.
    + destruct (Qltb 1 (f + a - c)) eqn:E2; [apply Qltb_lt in E2; lra | exact E].
Qed.

End DnnsPixels.

(** X15 on the shore: the pixel east of the pond is neither pure water nor
    pure land and keeps its fraction 3/4. *)
Lemma unpinned_pixel_keeps_fraction_witness :
  exists img v,
    @dnns (Samples.enumerating_engine 1) FloodSamples.graded_collaborators
          FloodSamples.shore_domain FloodSamples.shore_bands false = Ok img
    /\ value_at img (1, 0)%Z = Some v
    /\ v == 1110900 # 1481200.
Proof.
  eapply (unpinned_pixel_keeps_fraction
            (engine := Samples.enumerating_engine 1)
            (cmt := FloodSamples.graded_collaborators)
            FloodSamples.shore_domain FloodSamples.shore_domain false _ _ _
            (1, 0)%Z (1110900 # 1481200) 0 0).
  - reflexivity.
  - vm_compute. reflexivity.
  - vm_compute. reflexivity.
  - vm_compute. reflexivity.
  - reflexivity.
Defined.

(** X14 on the shore. *)
Lemma classifier_classes_disjoint_witness :
  (0 = 0 \/ 0 = 1) /\ (1 = 0 \/ 1 = 1) /\ ~ (0 = 1 /\ 1 = 1).
Proof.
  eapply (classifier_classes_disjoint
            (engine := Samples.enumerating_engine 1)
            (cmt := FloodSamples.graded_collaborators)
            FloodSamples.shore_domain FloodSamples.shore_bands _ _
            (2, 2)%Z 0 1).
  - reflexivity.
  - vm_compute. reflexivity.
  - vm_compute. reflexivity.
Defined.

(** ** The band-6 inversion *)

(** X16.  The fraction before pinning interpolates band 6 between the water
    reference [W] and the land reference [L]: it is
    [clamp((L - B) / (L - W), 0, 1)]; with [W < L] it is 1 for a pixel at
    least as dark as water, 0 for a pixel at least as bright as land and the
    plain quotient in between; where the two references coincide the
    quotient, and so the fraction, is 0. *)
Theorem mixture_fraction_interpolates (d0 : Domain)
    (ra rb wb sa sb lb : band) (p : pixel) (L W B : Q) :
  lb p = Some L -> wb p = Some W -> sur_refl_b06 (modis d0) p = Some B ->
  let ref := [("sur_refl_b01"%string, ra); ("sur_refl_b02"%string, rb);
              ("sur_refl_b06"%string, wb)] in
  let land := [("sum"%string, sa); ("sum_1"%string, sb);
               ("sum_2"%string, lb)] in
  value_at (mixture_fraction (compute_modis_indices d0) ref land) p
  = Some (clampQ 0 1 ((L - B) / (L - W)))
  /\ (L == W -> clampQ 0 1 ((L - B) / (L - W)) == 0)
  /\ (W < L -> B <= W -> clampQ 0 1 ((L - B) / (L - W)) == 1)
  /\ (W < L -> L <= B -> clampQ 0 1 ((L - B) / (L - W)) == 0)
  /\ (W < L -> W <= B -> B <= L ->
      clampQ 0 1 ((L - B) / (L - W)) = (L - B) / (L - W)).
Proof.
  intros HL HW HB. cbv zeta. split.
  - cbn. unfold lift1, lift2. rewrite HL, HW, HB. reflexivity.
  - split; [| split; [| split]].
    + intro E. apply clampQ_below; [discriminate |].
      assert (Z : (L - B) / (L - W) == 0).
      { assert (D : L - W == 0) by (rewrite E; ring).
        rewrite D. unfold Qdiv. change (/ 0) with 0. ring. }
      rewrite Z. apply Qle_refl.
    + intros Hlt Hb. apply clampQ_above; [discriminate |].
      apply Qle_shift_div_l; lra.
    + intros Hlt Hb. apply clampQ_below; [discriminate |].
      apply Qle_shift_div_r; lra.
    + intros Hlt Hb1 Hb2. apply clampQ_inside.
      * apply Qle_shift_div_l; lra.
      * apply Qle_shift_div_r; lra.
Qed.

Lemma mixture_fraction_interpolates_witness :
  let ref := [("sur_refl_b01"%string, fun _ => Some 500);
              ("sur_refl_b02"%string, fun _ => Some 300);
              ("sur_refl_b06"%string, fun _ => Some 200)] in
  let land := [("sum"%string, fun _ => Some 2000);
               ("sum_1"%string, fun _ => Some 2500);
               ("sum_2"%string, fun _ => Some 3000)] in
  value_at (mixture_fraction
              (compute_modis_indices FloodSamples.shore_domain) ref land)
           (1, 0)%Z
  = Some (clampQ 0 1 ((3000 - 900) / (3000 - 200)))
  /\ (3000 == 200 -> clampQ 0 1 ((3000 - 900) / (3000 - 200)) == 0)
  /\ (200 < 3000 -> 900 <= 200 ->
      clampQ 0 1 ((3000 - 900) / (3000 - 200)) == 1)
  /\ (200 < 3000 -> 3000 <= 900 ->
      clampQ 0 1 ((3000 - 900) / (3000 - 200)) == 0)
  /\ (200 < 3000 -> 200 <= 900 -> 900 <= 3000 ->
      clampQ 0 1 ((3000 - 900) / (3000 - 200)) = (3000 - 900) / (3000 - 200)).
Proof.
  apply (mixture_fraction_interpolates FloodSamples.shore_domain
           (fun _ => Some 500) (fun _ => Some 300) (fun _ => Some 200)
           (fun _ => Some 2000) (fun _ => Some 2500) (fun _ => Some 3000)
           (1, 0)%Z 3000 200 900); reflexivity.
Defined.

(** ** The reference spectra, pixel by pixel *)

Section ReferencePixels.
Context {engine : RasterEngine}.

(** X17.  The band of [meanPureLand] that the inversion reads is selected by
    the count of matching neighbours: the window mean when at least
    [MIN_PURE_NEARBY] pixels match, the global pure-land mean otherwise. *)
Theorem meanPureLand_selects_by_count (b : Bands) (ref : image)
    (l1 l2 l6 : Q) (p : pixel) (m k : Q) :
  value_at (divide (reduce_sum
                      (multiply (neighborhoodToBands kernel (b6 b))
                                (nearbyLandPixels b ref)))
                   (numNearbyLandPixels b ref)) p = Some m ->
  value_at (numNearbyLandPixels b ref) p = Some k ->
  exists v,
    value_at (select "sum_2" (meanPureLand b ref (constants [l1; l2; l6]))) p
    = Some v
    /\ v == blend m l6 (Qle_bool MIN_PURE_NEARBY k)
    /\ (MIN_PURE_NEARBY <= k -> v == m)
    /\ (k < MIN_PURE_NEARBY -> v == l6).
Proof.
  intros Hm Hk. rewrite meanPureLand_sum_2_pixel, Hm, Hk.
  exists (land_ref_value m k l6). split; [reflexivity |].
  pose proof (land_ref_value_blend m k l6) as Hb.
  split; [exact Hb |]. split; intro H; rewrite Hb; unfold blend.
  - rewrite (proj2 (Qle_bool_iff _ _) H). simpl. ring.
  - assert (E : Qle_bool MIN_PURE_NEARBY k = false).
    { destruct (Qle_bool MIN_PURE_NEARBY k) eqn:E; trivial.
      apply Qle_bool_iff in E. exfalso. lra. }
    rewrite E. simpl. ring.
Qed.

(** The band-6 component of [pureWaterRef], pixel by pixel. *)
Lemma pureWaterRef_b06_pixel (n : string) (w : band) (d0 : Domain)
    (a1 a2 a6 : Q) (p : pixel) :
  value_at
    (select "sur_refl_b06"
       (pureWaterRef [(n, w)] (composite_image (compute_modis_indices d0))
                     (constants [a1; a2; a6]))) p
  = match convolve_band kernel (lift2 Qmult w (sur_refl_b06 (modis d0))) p,
          convolve_band kernel w p with
    | Some s, Some c => Some (water_ref_value s c a6)
    | _, _ => None
    end.
Proof.
  cbn. unfold lift2, lift1, water_ref_value. cbv zeta.
  destruct (convolve_band kernel _ p) as [s |];
    destruct (convolve_band kernel w p) as [c |]; reflexivity.
Qed.

(** X18.  The band-6 water reference at a pixel, from the window sum [s] of
    pure-water reflectance and the window count [c]: without a pure-water
    pixel in reach ([c < MIN_PUREWATER_NEARBY]) it is the global mean; with
    support and a nonzero window mean it is the window mean [s / c]. *)
Theorem pureWaterRef_by_support (n : string) (w : band) (d0 : Domain)
    (a1 a2 a6 : Q) (p : pixel) (s c : Q) :
  convolve_band kernel (lift2 Qmult w (sur_refl_b06 (modis d0))) p = Some s ->
  convolve_band kernel w p = Some c ->
  exists v,
    value_at
      (select "sur_refl_b06"
         (pureWaterRef [(n, w)] (composite_image (compute_modis_indices d0))
                       (constants [a1; a2; a6]))) p = Some v
    /\ (c < MIN_PUREWATER_NEARBY -> v == a6)
    /\ (MIN_PUREWATER_NEARBY <= c -> ~ s / c == 0 -> v == s / c).
Proof.
  intros Hs Hc. rewrite pureWaterRef_b06_pixel, Hs, Hc.
  exists (water_ref_value s c a6). split; [reflexivity |]. split.
  - intro H. rewrite (water_ref_value_unsupported s c a6 H).
    unfold blend. simpl. ring.
  - intros H Hnz. rewrite (water_ref_value_supported s c a6 H Hnz).
    unfold blend. simpl. ring.
Qed.

End ReferencePixels.

(** X18 on the pond, with full 40-cell windows: the pond pixel has itself in
    reach and takes the window mean 200; a pixel 41 cells east has no pure
    water in reach and takes the global mean. *)
Lemma pureWaterRef_by_support_witness :
  (exists v,
      value_at
        (select "sur_refl_b06"
           (@pureWaterRef (Samples.enumerating_engine 40)
              [("classification"%string,
                fun p => Some (if ((fst p =? 0) && (snd p =? 0))%Z
                               then 1 else 0))]
              (composite_image (compute_modis_indices Samples.pond_domain))
              (constants [500; 300; 200]))) (0, 0)%Z = Some v
      /\ (1 < MIN_PUREWATER_NEARBY -> v == 200)
      /\ (MIN_PUREWATER_NEARBY <= 1 -> ~ 200 / 1 == 0 -> v == 200 / 1))
  /\ (exists v,
        value_at
          (select "sur_refl_b06"
             (@pureWaterRef (Samples.enumerating_engine 40)
                [("classification"%string,
                  fun p => Some (if ((fst p =? 0) && (snd p =? 0))%Z
                                 then 1 else 0))]
                (composite_image (compute_modis_indices Samples.pond_domain))
                (constants [500; 300; 200]))) (41, 0)%Z = Some v
        /\ (0 < MIN_PUREWATER_NEARBY -> v == 200)
        /\ (MIN_PUREWATER_NEARBY <= 0 -> ~ 0 / 0 == 0 -> v == 0 / 0)).
Proof.
  split.
  - apply (pureWaterRef_by_support
             (engine := Samples.enumerating_engine 40)
             "classification" _ Samples.pond_domain 500 300 200 (0, 0)%Z
             200 1); vm_compute; reflexivity.
  - apply (pureWaterRef_by_support
             (engine := Samples.enumerating_engine 40)
             "classification" _ Samples.pond_domain 500 300 200 (41, 0)%Z
             0 0); vm_compute; reflexivity.
Defined.

(** X17 on the pond, with one-cell windows: the pond pixel has 8 matching
    neighbours and takes their mean 3000; the corner (2, 2) has none and
    takes the global mean. *)
Lemma meanPureLand_selects_by_count_witness :
  (exists v,
      value_at
        (select "sum_2"
           (@meanPureLand (Samples.enumerating_engine 1) Samples.pond_bands
              FloodSamples.flat_water_ref (constants [2000; 2500; 3000])))
        (0, 0)%Z = Some v
      /\ v == blend (24000 # 8) 3000 (Qle_bool MIN_PURE_NEARBY 8)
      /\ (MIN_PURE_NEARBY <= 8 -> v == 24000 # 8)
      /\ (8 < MIN_PURE_NEARBY -> v == 3000))
  /\ (exists v,
        value_at
          (select "sum_2"
             (@meanPureLand (Samples.enumerating_engine 1) Samples.pond_bands
                FloodSamples.flat_water_ref (constants [2000; 2500; 2900])))
          (2, 2)%Z = Some v
        /\ v == blend 0 2900 (Qle_bool MIN_PURE_NEARBY 0)
        /\ (MIN_PURE_NEARBY <= 0 -> v == 0)
        /\ (0 < MIN_PURE_NEARBY -> v == 2900)).
Proof.
  split.
  - apply (meanPureLand_selects_by_count
             (engine := Samples.enumerating_engine 1) Samples.pond_bands
             FloodSamples.flat_water_ref 2000 2500 3000 (0, 0)%Z
             (24000 # 8) 8); vm_compute; reflexivity.
  - apply (meanPureLand_selects_by_count
             (engine := Samples.enumerating_engine 1) Samples.pond_bands
             FloodSamples.flat_water_ref 2000 2500 2900 (2, 2)%Z
             0 0); vm_compute; reflexivity.
Defined.

(** ** The flood mask *)

Lemma binop_Qbool_binary (g : Q -> Q -> bool) (image1 image2 : image)
    (p : pixel) :
  Forall (fun nb => forall v, snd nb p = Some v -> v = 0 \/ v = 1)
         (binop (fun x y => Qbool (g x y)) image1 image2).
Proof.
  assert (L : forall x y v,
            lift2 (fun a b => Qbool (g a b)) x y p = Some v ->
            v = 0 \/ v = 1).
  { intros x y v. unfold lift2. destruct (x p); [| discriminate].
    destruct (y p); [| discriminate].
    intro H. injection H as <-. apply Qbool_cases. }
  unfold binop, match_bands.
  destruct image1 as [| [n1 x1] [| nb1 r1]];
    destruct image2 as [| [n2 x2] [| nb2 r2]];
    try apply Forall_nil;
    apply Forall_map, Forall_forall; intros ? _; simpl; apply L.
Qed.

Section FloodMask.
Context {engine : RasterEngine} {cmt : Collaborators}.

(** X19.  The raster returned by [dnns_dem] is a binary mask: every pixel
    of every band that holds a value holds 0 or 1. *)
Theorem dnns_dem_binary (domain : Domain) (b : Bands) (use_modis_diff : bool)
    (flood_mask : image) (p : pixel) :
  dnns_dem domain b use_modis_diff = Ok flood_mask ->
  Forall (fun nb => forall v, snd nb p = Some v -> v = 0 \/ v = 1) flood_mask.
Proof.
  unfold dnns_dem.
  destruct (dnns domain b use_modis_diff) as [wf | e]; simpl; [| discriminate].
  intro H. injection H as <-. unfold classify_dem.
  apply (select_as_Forall
           (fun x => forall v, x p = Some v -> v = 0 \/ v = 1)).
  apply binop_Qbool_binary.
Qed.

(** X20.  At a fine pixel whose coarse cell is partly flooded (the fraction
    [f] is neither 0 nor 1) the mask is the elevation test: 1 when the
    elevation is at most the smoothed water level, 0 otherwise; a pixel
    without elevation or water level counts as dry. *)
Theorem classify_dem_partial (d ah x : band) (n : string) (p : pixel) (f : Q) :
  x p = Some f -> ~ f == 0 -> ~ f == 1 ->
  value_at (classify_dem [("elevation"%string, d)]
                         [("elevation"%string, ah)] [(n, x)]) p
  = Some (match d p, ah p with
          | Some e, Some h => Qbool (Qle_bool e h)
          | _, _ => 0
          end).
Proof.
  intros Hf N0 N1. cbn. unfold lift2, mask_band. cbv beta. rewrite Hf.
  assert (T : truthy f = true).
  { unfold truthy. destruct (Qeq_bool f 0) eqn:E; trivial.
    apply Qeq_bool_eq in E. contradiction. }
  assert (U : Qeq_bool f 1 = false).
  { destruct (Qeq_bool f 1) eqn:E; trivial.
    apply Qeq_bool_eq in E. contradiction. }
  rewrite T, U.
  destruct (d p) as [e |]; [destruct (ah p) as [h |] |];
    try reflexivity.
  destruct (Qle_bool e h); reflexivity.
Qed.

End FloodMask.

Lemma dnns_dem_binary_witness :
  exists flood_mask,
    @dnns_dem (Samples.enumerating_engine 1) Samples.sample_collaborators
              Samples.pond_domain Samples.pond_bands false = Ok flood_mask
    /\ Forall (fun nb => forall v, snd nb (7, 0)%Z = Some v -> v = 0 \/ v = 1)
              flood_mask.
Proof.
  eexists. split; [reflexivity |].
  apply (dnns_dem_binary (engine := Samples.enumerating_engine 1)
           (cmt := Samples.sample_collaborators)
           Samples.pond_domain Samples.pond_bands false).
  reflexivity.
Defined.

Lemma classify_dem_partial_witness :
  value_at (classify_dem [("elevation"%string, fun _ => Some 12)]
                         [("elevation"%string, fun _ => Some 15)]
                         [("b1"%string, fun _ => Some (3 # 4))]) (0, 0)%Z
  = Some (Qbool (Qle_bool 12 15)).
Proof.
  apply (classify_dem_partial (fun _ => Some 12) (fun _ => Some 15)
           (fun _ => Some (3 # 4)) "b1" (0, 0)%Z (3 # 4)).
  - reflexivity.
  - discriminate.
  - discriminate.
Defined.

(** ** The revised algorithm *)

Section RevisedProperties.
Context {engine : RasterEngine} {roots : DnnsRevised.RootEngine}
        {cmt : Collaborators}.

Lemma revised_average_image_single (n : string) (w : band) (d0 : Domain)
    (region : Region) :
  exists a1 a2 a6,
    DnnsRevised.average_image [(n, w)]
      (composite_image (compute_modis_indices d0)) region
    = Ok (constants [a1; a2; a6]).
Proof.
  unfold DnnsRevised.average_image, composite_image. cbn.
  eexists _, _, _. reflexivity.
Qed.

Lemma revised_pureLand_single (d0 : Domain) :
  exists l, DnnsRevised.pureLand (compute_modis_indices d0) = [("b1"%string, l)].
Proof. unfold DnnsRevised.pureLand. cbn. eexists. reflexivity. Qed.

Lemma revised_distance_ratio_single (n1 n2 : string) (w l : band)
    (d0 : Domain) (a1 a2 a6 l1 l2 l6 : Q) :
  let composite := composite_image (compute_modis_indices d0) in
  exists x,
    DnnsRevised.distance_ratio composite
      (DnnsRevised.average_local [(n1, w)] composite (constants [a1; a2; a6]))
      (DnnsRevised.average_local [(n2, l)] composite (constants [l1; l2; l6]))
    = [("sur_refl_b01"%string, x)].
Proof.
  cbv zeta.
  unfold DnnsRevised.distance_ratio, DnnsRevised.sum_of_squares,
    DnnsRevised.average_local, DnnsRevised.sqrt, composite_image.
  cbn -[lift2 lift1]. eexists. reflexivity.
Qed.

(** The stages of [dnns_revised] on the bands of [compute_modis_indices]:
    nothing fails once the threshold parameter is found. *)
Lemma revised_stages_single (domain d0 : Domain)
    (algorithm_params : list (string * Q)) (t : Q) :
  dict_get "modis_diff_threshold" algorithm_params = Ok t ->
  exists w l x layers,
    DnnsRevised.revised_stages domain algorithm_params
      (compute_modis_indices d0)
    = Ok ([("b1"%string, w)], [("b1"%string, l)],
          [("sur_refl_b01"%string, x)], layers)
    /\ map fst layers
       = ["numNearbyLandPixels"; "meanNearbyLand"; "pure water"; "pure land";
          "pure water count"; "pure land count"; "average water";
          "average pure land"; "local water ref";
          "local pure land ref"]%string.
Proof.
  intro Ht. unfold DnnsRevised.revised_stages. rewrite Ht.
  cbv beta iota zeta delta [bind].
  match goal with
  | |- context [DnnsRevised.average_image [(?n, ?w)] _ _] =>
      destruct (revised_average_image_single n w d0 (bounds domain))
        as (a1 & a2 & a6 & ->)
  end.
  destruct (revised_pureLand_single d0) as (l & ->).
  destruct (revised_average_image_single "b1" l d0 (bounds domain))
    as (l1 & l2 & l6 & ->).
  match goal with
  | |- context [DnnsRevised.average_local [(?n, ?w)] _ (constants [a1; a2; a6])] =>
      destruct (revised_distance_ratio_single n "b1" w l d0 a1 a2 a6 l1 l2 l6)
        as (x & ->)
  end.
  eexists _, _, _, _. split; reflexivity.
Qed.

(** X21.  [dnns_revised] needs the parameter [modis_diff_threshold]:
    without it the call raises [KeyError] before any layer is shown; with
    it, on the bands of [compute_modis_indices], the call returns one band
    named [b1] after adding ten layers to the map, in this order. *)
Theorem dnns_revised_outcome (domain d0 : Domain)
    (algorithm_params : list (string * Q)) :
  (dict_get "modis_diff_threshold" algorithm_params = Raise KeyError ->
   DnnsRevised.dnns_revised domain algorithm_params (compute_modis_indices d0)
   = Raise KeyError)
  /\ (forall t,
        dict_get "modis_diff_threshold" algorithm_params = Ok t ->
        exists layers x,
          DnnsRevised.dnns_revised domain algorithm_params
            (compute_modis_indices d0)
          = Ok (layers, [("b1"%string, x)])
          /\ map fst layers
             = ["numNearbyLandPixels"; "meanNearbyLand"; "pure water";
                "pure land"; "pure water count"; "pure land count";
                "average water"; "average pure land"; "local water ref";
                "local pure land ref"]%string).
Proof.
  split.
  - intro H. unfold DnnsRevised.dnns_revised, DnnsRevised.revised_stages.
    rewrite H. reflexivity.
  - intros t Ht.
    destruct (revised_stages_single domain d0 algorithm_params t Ht)
      as (w & l & x & layers & E & Hnames).
    unfold DnnsRevised.dnns_revised. rewrite E.
    cbv beta iota zeta delta [bind fst snd]. cbn.
    eexists _, _. split; [reflexivity | exact Hnames].
Qed.

(** X22.  The decision of [dnns_revised] at a pixel where the distance
    ratio [d] and the two class indicators hold values: the result is 0 or
    1; a pure-water pixel is water, even when it is flagged pure land too; a
    pure-land pixel that is not pure water is dry; any other pixel is water
    exactly when [d * d > 0.6]. *)
Theorem dnns_revised_decision (domain d0 : Domain)
    (algorithm_params : list (string * Q))
    (pureWater pureLand waterOff : image) (layers : list DnnsRevised.MapLayer)
    (p : pixel) (d a c : Q) :
  DnnsRevised.revised_stages domain algorithm_params (compute_modis_indices d0)
  = Ok (pureWater, pureLand, waterOff, layers) ->
  value_at waterOff p = Some d ->
  value_at pureWater p = Some a ->
  value_at pureLand p = Some c ->
  exists img v,
    DnnsRevised.dnns_revised domain algorithm_params (compute_modis_indices d0)
    = Ok (layers, img)
    /\ value_at img p = Some v
    /\ (v = 0 \/ v = 1)
    /\ (a == 1 -> v = 1)
    /\ (a == 0 -> c == 1 -> v = 0)
    /\ (a == 0 -> c == 0 -> v = Qbool (Qltb (6 # 10) (d * d))).
Proof.
  intros Hst Hd Ha Hc.
  assert (Hkey : exists t,
            dict_get "modis_diff_threshold" algorithm_params = Ok t).
  { unfold DnnsRevised.revised_stages in Hst.
    destruct (dict_get "modis_diff_threshold" algorithm_params) as [t |];
      [eexists; reflexivity | discriminate Hst]. }
  destruct Hkey as (t & Ht).
  destruct (revised_stages_single domain d0 algorithm_params t Ht)
    as (w & l & x & layers' & E & _).
  rewrite E in Hst. injection Hst as <- <- <- <-.
  simpl in Hd, Ha, Hc.
  unfold DnnsRevised.dnns_revised. rewrite E.
  cbv beta iota zeta delta [bind fst snd].
  set (w1 := d - c * d). set (w2 := w1 + a * (1 - w1)).
  eexists. exists (Qbool (Qltb (6 # 10) (w2 * w2))).
  split; [reflexivity |]. split.
  - cbn. unfold lift2. rewrite Hd, Ha, Hc. reflexivity.
  - split; [apply Qbool_cases |]. split; [| split].
    + intro Ea.
      assert (E2 : w2 * w2 == 1) by (unfold w2; rewrite Ea; ring).
      rewrite E2. reflexivity.
    + intros Ea Ec.
      assert (E2 : w2 * w2 == 0) by (unfold w2, w1; rewrite Ea, Ec; ring).
      rewrite E2. reflexivity.
    + intros Ea Ec.
      assert (E2 : w2 * w2 == d * d) by (unfold w2, w1; rewrite Ea, Ec; ring).
      rewrite E2. reflexivity.
Qed.

End RevisedProperties.

Lemma dnns_revised_outcome_witness :
  @DnnsRevised.dnns_revised (Samples.enumerating_engine 1)
     RevisedSamples.integer_roots Samples.sample_collaborators
     RevisedSamples.meadow_domain [] RevisedSamples.meadow_bands
  = Raise KeyError
  /\ exists layers x,
       @DnnsRevised.dnns_revised (Samples.enumerating_engine 1)
          RevisedSamples.integer_roots Samples.sample_collaborators
          RevisedSamples.meadow_domain RevisedSamples.meadow_params
          RevisedSamples.meadow_bands
       = Ok (layers, [("b1"%string, x)])
       /\ map fst layers
          = ["numNearbyLandPixels"; "meanNearbyLand"; "pure water";
             "pure land"; "pure water count"; "pure land count";
             "average water"; "average pure land"; "local water ref";
             "local pure land ref"]%string.
Proof.
  split.
  - apply (proj1 (dnns_revised_outcome
                    (engine := Samples.enumerating_engine 1)
                    (roots := RevisedSamples.integer_roots)
                    (cmt := Samples.sample_collaborators)
                    RevisedSamples.meadow_domain RevisedSamples.meadow_domain
                    [])).
    reflexivity.
  - apply (proj2 (dnns_revised_outcome
                    (engine := Samples.enumerating_engine 1)
                    (roots := RevisedSamples.integer_roots)
                    (cmt := Samples.sample_collaborators)
                    RevisedSamples.meadow_domain RevisedSamples.meadow_domain
                    RevisedSamples.meadow_params) (-1000)).
    reflexivity.
Defined.

(** X22 on the meadow: the pond is water, the meadow is dry, and the mixed
    pixel, with a squared ratio below 0.6, is dry. *)
Lemma dnns_revised_decision_witness :
  exists layers,
    (exists img v,
        @DnnsRevised.dnns_revised (Samples.enumerating_engine 1)
           RevisedSamples.integer_roots Samples.sample_collaborators
           RevisedSamples.meadow_domain RevisedSamples.meadow_params
           RevisedSamples.meadow_bands = Ok (layers, img)
        /\ value_at img (0, 0)%Z = Some v
        /\ (v = 0 \/ v = 1)
        /\ (1 == 1 -> v = 1)
        /\ (1 == 0 -> 0 == 1 -> v = 0)
        /\ (1 == 0 -> 0 == 0 ->
            v = Qbool (Qltb (6 # 10) ((5047 # 5047) * (5047 # 5047)))))
    /\ (exists img v,
          @DnnsRevised.dnns_revised (Samples.enumerating_engine 1)
             RevisedSamples.integer_roots Samples.sample_collaborators
             RevisedSamples.meadow_domain RevisedSamples.meadow_params
             RevisedSamples.meadow_bands = Ok (layers, img)
          /\ value_at img (1, 0)%Z = Some v
          /\ (v = 0 \/ v = 1)
          /\ (0 == 1 -> v = 1)
          /\ (0 == 0 -> 0 == 1 -> v = 0)
          /\ (0 == 0 -> 0 == 0 ->
              v = Qbool (Qltb (6 # 10) ((3818 # 5047) * (3818 # 5047))))).
Proof.
  eexists. split.
  - eapply (dnns_revised_decision
              (engine := Samples.enumerating_engine 1)
              (roots := RevisedSamples.integer_roots)
              (cmt := Samples.sample_collaborators)
              RevisedSamples.meadow_domain RevisedSamples.meadow_domain
              RevisedSamples.meadow_params _ _ _ _ (0, 0)%Z
              (5047 # 5047) 1 0).
    + reflexivity.
    + vm_compute. reflexivity.
    + vm_compute. reflexivity.
    + vm_compute. reflexivity.
  - eapply (dnns_revised_decision
              (engine := Samples.enumerating_engine 1)
              (roots := RevisedSamples.integer_roots)
              (cmt := Samples.sample_collaborators)
              RevisedSamples.meadow_domain RevisedSamples.meadow_domain
              RevisedSamples.meadow_params _ _ _ _ (1, 0)%Z
              (3818 # 5047) 0 0).
    + reflexivity.
    + vm_compute. reflexivity.
    + vm_compute. reflexivity.
    + vm_compute. reflexivity.
Defined.

(** ** Cloud cover *)

(** X23.  On an image, [getModisBadPixelMask] is the per-pixel mask: where
    the band [state_1km] holds the integer [v] the result, a single band
    named [cloud_state], holds 1 if [v] is flagged and 0 otherwise, and it
    is masked where the quality band is. *)
Theorem getModisBadPixelMask_image_pixel (x : band) (p : pixel) :
  exists m,
    CloudCover.getModisBadPixelMask [("state_1km"%string, x)]
    = [("cloud_state"%string, m)]
    /\ (x p = None -> m p = None)
    /\ (forall v, x p = Some (inject_Z v) ->
          m p = Some (Qbool (getModisBadPixelMask v))).
Proof.
  eexists. split; [reflexivity |]. split.
  - intro H. cbn. unfold lift2, lift1. rewrite H. reflexivity.
  - intros v H. cbn. unfold lift2, lift1. rewrite H.
    unfold getModisBadPixelMask, ModisUtilities.getQABits.
    rewrite Qfloor_Z. cbn [Z.of_nat].
    change (Qfloor (inject_Z (qa_pattern 0 1))) with (qa_pattern 0 1).
    change (Qfloor (inject_Z 0)) with 0%Z.
    rewrite !Qfloor_Z.
    change (qa_pattern 0 1) with 1%Z.
    set (bits := Z.shiftr (Z.land (uint16 v) 1) 0).
    assert (E1 : Qeq_bool (inject_Z bits) 1 = (bits =? 1)%Z).
    { unfold Qeq_bool. simpl. rewrite Z.mul_1_r. reflexivity. }
    assert (E2 : Qeq_bool (inject_Z bits) 2 = (bits =? 2)%Z).
    { unfold Qeq_bool. simpl. rewrite Z.mul_1_r. reflexivity. }
    rewrite E1, E2.
    destruct (bits =? 1)%Z; destruct (bits =? 2)%Z; reflexivity.
Qed.

Lemma getModisBadPixelMask_image_pixel_witness :
  exists m,
    CloudCover.getModisBadPixelMask CloudSamples.one_cloud
    = [("cloud_state"%string, m)]
    /\ m (0, 0)%Z = Some (Qbool (getModisBadPixelMask 1))
    /\ m (1, 0)%Z = Some (Qbool (getModisBadPixelMask 0)).
Proof.
  destruct (getModisBadPixelMask_image_pixel
              (fun p => Some (if ((fst p =? 0) && (snd p =? 0))%Z
                              then 1 else 0)) (0, 0)%Z)
    as (m & Hm & _ & H0).
  exists m. split; [exact Hm |]. split.
  - apply (H0 1%Z). reflexivity.
  - destruct (getModisBadPixelMask_image_pixel
                (fun p => Some (if ((fst p =? 0) && (snd p =? 0))%Z
                                then 1 else 0)) (1, 0)%Z)
      as (m' & Hm' & _ & H1).
    unfold CloudSamples.one_cloud in Hm. rewrite Hm in Hm'.
    injection Hm' as ->. apply (H1 0%Z). reflexivity.
Defined.

Lemma cloud_mask_single (x : band) :
  exists m,
    CloudCover.getModisBadPixelMask [("state_1km"%string, x)]
    = [("cloud_state"%string, m)].
Proof. eexists. reflexivity. Qed.

Section CloudPercentage.
Context {sampler : CloudCover.RegionSampler}.

Lemma weighted_sum_bounds (m : band) (cells : list (pixel * Q)) :
  Forall (fun pw => 0 <= snd pw) cells ->
  (forall p v, m p = Some v -> 0 <= v /\ v <= 1) ->
  0 <= sum_list (flat_map (fun pw => match m (fst pw) with
                                     | Some v => [snd pw * v]
                                     | None => []
                                     end) cells)
  /\ sum_list (flat_map (fun pw => match m (fst pw) with
                                   | Some v => [snd pw * v]
                                   | None => []
                                   end) cells)
     <= sum_list (flat_map (fun pw => [snd pw * 1]) cells).
Proof.
  intros Hw Hm. induction Hw as [| [q wq] cells Hq _ IH]; simpl.
  - split; apply Qle_refl.
  - simpl in Hq. destruct IH as [IH0 IH1].
    destruct (m q) as [v |] eqn:E; simpl.
    + destruct (Hm q v E) as [V0 V1]. split; nra.
    + split; [exact IH0 | nra].
Qed.

(** X24.  [getCloudPercentage] on an image with the band [state_1km], over
    a region whose pixels have non-negative weights: the two dictionary
    keys exist; when the region's area sum is 0 the division raises
    [ZeroDivisionError]; otherwise the call returns a fraction in [0, 1]. *)
Theorem getCloudPercentage_bounds (x : band) (region : Region) :
  Forall (fun pw => 0 <= snd pw)
         (CloudCover.region_cells region CloudCover.MODIS_CLOUD_RESOLUTION) ->
  let area :=
    CloudCover.weighted_sum (fun _ => Some 1) region
                            CloudCover.MODIS_CLOUD_RESOLUTION in
  (area == 0 ->
   CloudCover.getCloudPercentage [("state_1km"%string, x)] region
   = Raise ZeroDivisionError)
  /\ (~ area == 0 ->
      exists percentage,
        CloudCover.getCloudPercentage [("state_1km"%string, x)] region
        = Ok percentage
        /\ 0 <= percentage /\ percentage <= 1).
Proof.
  intros Hw. cbv zeta.
  destruct (cloud_mask_single x) as (m & Hm).
  assert (Hbin : forall p v, m p = Some v -> 0 <= v /\ v <= 1).
  { intros p v Hv.
    assert (B : Forall (fun nb => forall u, snd nb p = Some u -> u = 0 \/ u = 1)
                  (CloudCover.getModisBadPixelMask [("state_1km"%string, x)])).
    { unfold CloudCover.getModisBadPixelMask, Or.
      apply binop_Qbool_binary. }
    rewrite Hm in B. apply Forall_inv in B. simpl in B.
    destruct (B v Hv) as [-> | ->]; split; discriminate. }
  unfold CloudCover.getCloudPercentage. rewrite Hm.
  cbv beta iota zeta delta [bind]. simpl dict_get.
  cbv beta iota zeta delta [bind].
  destruct (weighted_sum_bounds m _ Hw Hbin) as [C0 C1].
  fold (CloudCover.weighted_sum m region CloudCover.MODIS_CLOUD_RESOLUTION)
    in C0, C1.
  set (cloud := CloudCover.weighted_sum m region
                  CloudCover.MODIS_CLOUD_RESOLUTION) in *.
  change (sum_list (flat_map (fun pw : pixel * Q => [snd pw * 1])
            (CloudCover.region_cells region CloudCover.MODIS_CLOUD_RESOLUTION)))
    with (CloudCover.weighted_sum (fun _ => Some 1) region
            CloudCover.MODIS_CLOUD_RESOLUTION) in C1.
  set (area := CloudCover.weighted_sum (fun _ => Some 1) region
                 CloudCover.MODIS_CLOUD_RESOLUTION) in *.
  split.
  - intro Z. apply py_div_zero. exact Z.
  - intro NZ. exists (cloud / area). split; [now apply py_div_Ok |].
    assert (P : 0 < area).
    { destruct (Qlt_le_dec 0 area) as [L | G]; trivial.
      exfalso. apply NZ. lra. }
    split.
    + apply Qle_shift_div_l; trivial. lra.
    + apply Qle_shift_div_r; trivial. lra.
Qed.

End CloudPercentage.

(** X24 on a 5 x 5 region with one cloudy pixel, and on an empty region. *)
Lemma getCloudPercentage_bounds_witness :
  (exists percentage,
      @CloudCover.getCloudPercentage CloudSamples.unit_sampler
         CloudSamples.one_cloud (bounds Samples.pond_domain) = Ok percentage
      /\ 0 <= percentage /\ percentage <= 1)
  /\ @CloudCover.getCloudPercentage CloudSamples.unit_sampler
        CloudSamples.one_cloud
        {| west := 1; south := 0; east := 0; north := 0 |}
     = Raise ZeroDivisionError.
Proof.
  split.
  - apply (proj2 (getCloudPercentage_bounds
                    (sampler := CloudSamples.unit_sampler) _
                    (bounds Samples.pond_domain)
                    ltac:(vm_compute; repeat constructor; discriminate))).
    intro H. vm_compute in H. discriminate H.
  - apply (proj1 (getCloudPercentage_bounds
                    (sampler := CloudSamples.unit_sampler) _
                    {| west := 1; south := 0; east := 0; north := 0 |}
                    ltac:(vm_compute; repeat constructor))).
    reflexivity.
Defined.
